(** * The training harness of [unet/model.py], embedded in Rocq

    The class [Model] of [unet/model.py] wraps a PyTorch network, a loss,
    an optimizer and an optional learning-rate scheduler, and offers
    [fit_epoch], [val_epoch], [fit_dataset], [predict_dataset] and
    [predict_batch].  The tensor engine, the data loader, the image writer
    and the helpers of [unet/utils.py] are collaborators of the class: they
    appear here as the operations of two interfaces ([Numeric] for Python
    floats, [Backend] for everything else).  The control flow of the five
    methods, their local variables, the exceptions they raise and the calls
    they make on the collaborators are transcribed statement by statement
    into a state-and-exception monad over a [world] that holds the mutable
    objects and the history of the calls made on the outside. *)

From Stdlib Require Import ZArith QArith Ascii.
From stdpp Require Import base tactics option list list_numbers strings pretty gmap.

Open Scope Z_scope.

(** ** Python values, exceptions *)

(** The exceptions that the transcribed statements can raise by
    themselves. *)
Inductive exn :=
| NameError (name : string)
| UnboundLocalError (name : string)
| ZeroDivisionError
| IndexError
| KeyError (key : string)
| ValueError
| TypeError
| AttributeError.

Inductive result (A : Type) :=
| Ok (a : A)
| Raise (e : exn).
Arguments Ok {A} a.
Arguments Raise {A} e.

(** Python floats with the operations the harness applies to them.  Every
    theorem below holds for any implementation of them, IEEE doubles
    included: none relies on an algebraic law. *)
Class Numeric := {
  Num : Type;
  num_of_Z : Z → Num;            (* float(i) *)
  num_add : Num → Num → Num;
  num_sub : Num → Num → Num;
  num_div : Num → Num → Num;     (* division by a divisor that is not zero *)
  num_lt : Num → Num → bool;
  num_inf : Num                  (* np.inf *)
}.

(** What is bound at module level in [unet/model.py]: the imports of its
    lines 1-14 and the class itself. *)
Inductive pyobj :=
| PyModule (name : string)
| PyClass (name : string)
| PyFunction (name : string).

Definition module_globals : gmap string pyobj :=
  list_to_map
    [ ("os", PyModule "os"); ("np", PyModule "numpy"); ("torch", PyModule "torch");
      ("nn", PyModule "torch.nn"); ("Variable", PyClass "Variable");
      ("DataLoader", PyClass "DataLoader"); ("Dataset", PyClass "Dataset");
      ("io", PyModule "skimage.io"); ("time", PyFunction "time");
      ("chk_mkdir", PyFunction "chk_mkdir"); ("Logger", PyClass "Logger");
      ("MetricList", PyClass "MetricList"); ("Model", PyClass "Model") ].

(** One element of a batch as the data loader collates it: a tensor, or
    the list of the strings of the samples of the batch. *)
Inductive field (T : Type) :=
| FTensor (t : T)
| FStrs (l : list string).
Arguments FTensor {T} t.
Arguments FStrs {T} l.

Section WithNumeric.
Context `{N : Numeric}.

(** The values that the variables and log entries of [fit_dataset] hold. *)
Inductive pyval :=
| VNum (x : Num)
| VInt (z : Z)
| VObj (o : pyobj).

(** The collaborators.  [Params] is what [net.state_dict()] returns, the
    trainable parameters; a forward call reads them and the train/eval mode
    and changes neither, [backward] accumulates into the gradients, and only
    the optimizer's [step] writes the parameters.  [DataLoader ds n sh r]
    is the list of the batches that one pass over
    [DataLoader(ds, batch_size=n, shuffle=sh)] yields when the random
    generator is in state [r], and [rng_after ds n sh r] the state of the
    generator after the pass.  The list is there for every batch size and
    every dataset, while the constructor of the real loader refuses a
    batch size below one and a shuffled pass over an empty dataset with a
    [ValueError]: the statements on passes without batches are made for
    the calls that it accepts. *)
Class Backend := {
  Tensor : Type;
  Image : Type;
  Params : Type;
  Grads : Type;
  OptState : Type;
  MetricState : Type;
  Dataset : Type;
  Device : Type;
  net_call : Params → bool → Tensor → Tensor;          (* net(X) in the given mode *)
  loss_item : Tensor → Tensor → Num;                   (* loss(y_out, y).item() *)
  loss_backward : Params → bool → Tensor → Tensor → Grads → Grads;
  optimizer_zero_grad : Grads → Grads;
  optimizer_step : OptState → Grads → Params → OptState * Params;
  scheduler_step : pyval → OptState → OptState;
  metric_reset : MetricState → MetricState;
  metric_update : Tensor → Tensor → MetricState → MetricState;
  metric_get_results : Z → MetricState → gmap string Num;
  Rng : Type;                                          (* the random generator *)
  DataLoader : Dataset → Z → bool → Rng → list (list (field Tensor));
  rng_after : Dataset → Z → bool → Rng → Rng;
  dataset_truthy : Dataset → bool;                     (* bool(dataset) *)
  tensor_to : Device → Tensor → Tensor;                (* Variable(t.to(device)) *)
  params_to : Device → Params → Params;                (* net.to(device) *)
  channel_one : Tensor → Image;                        (* y.cpu().data.numpy()[0, 1, :, :] *)
  time_at : nat → Num;                                 (* time() at an instant *)
  memory_at : nat → Z                                  (* torch.cuda.memory_allocated() *)
}.

Context `{B : Backend}.

(** ** The world: mutable objects and the history of outside calls *)

Inductive event :=
| EvNetTo (d : Device)
| EvLossTo (d : Device)
| EvTrainMode (b : bool)                    (* net.train(b) *)
| EvZeroGrad
| EvForward (X : Tensor)
| EvLoss (v : Num)                          (* a loss value observed *)
| EvBackward
| EvOptStep
| EvSchedStep (v : pyval)
| EvMetricReset
| EvMetricUpdate
| EvMkdir (path : string)
| EvTorchSave (path : string) (state_dict : Params)
| EvImsave (path : string) (img : Image)
| EvToCsv (path : string) (rows : list (gmap string pyval)).

(** The objects a [Model] refers to.  Its attributes are references: the
    objects themselves live in the [world]. *)
Inductive objref := the_net | the_loss | the_optimizer | the_scheduler.

(** The attributes of a [Model] instance.  [logger] is [None] as long as
    the instance has no such attribute. *)
Record Model := {
  net : objref;
  loss : objref;
  optimizer : objref;
  scheduler : option objref;
  checkpoint_folder : string;
  device : Device;
  logger : option (list (gmap string pyval))
}.

Record world := {
  self : Model;
  net_params : Params;
  net_training : bool;
  net_grads : Grads;
  opt_state : OptState;
  metric_state : MetricState;
  rng : Rng;
  trace : list event
}.

(** ** The monad: state, and exceptions that keep the state reached *)

Definition M (A : Type) : Type := world → result A * world.

#[export] Instance M_ret : MRet M := λ A a w, (Ok a, w).
#[export] Instance M_bind : MBind M := λ A B f m w,
  match m w with
  | (Ok a, w') => f a w'
  | (Raise e, w') => (Raise e, w')
  end.

Definition raise {A} (e : exn) : M A := λ w, (Raise e, w).
Definition gets {A} (f : world → A) : M A := λ w, (Ok (f w), w).
Definition modify (f : world → world) : M unit := λ w, (Ok tt, f w).

(** Field updates of [world]. *)
Definition set_self (m : Model) (w : world) : world :=
  {| self := m; net_params := net_params w; net_training := net_training w;
     net_grads := net_grads w; opt_state := opt_state w;
     metric_state := metric_state w; rng := rng w; trace := trace w |}.
Definition set_logger (rows : list (gmap string pyval)) (m : Model) : Model :=
  {| net := net m; loss := loss m; optimizer := optimizer m;
     scheduler := scheduler m; checkpoint_folder := checkpoint_folder m;
     device := device m; logger := Some rows |}.
Definition set_net_params (p : Params) (w : world) : world :=
  {| self := self w; net_params := p; net_training := net_training w;
     net_grads := net_grads w; opt_state := opt_state w;
     metric_state := metric_state w; rng := rng w; trace := trace w |}.
Definition set_net_training (b : bool) (w : world) : world :=
  {| self := self w; net_params := net_params w; net_training := b;
     net_grads := net_grads w; opt_state := opt_state w;
     metric_state := metric_state w; rng := rng w; trace := trace w |}.
Definition set_net_grads (g : Grads) (w : world) : world :=
  {| self := self w; net_params := net_params w; net_training := net_training w;
     net_grads := g; opt_state := opt_state w;
     metric_state := metric_state w; rng := rng w; trace := trace w |}.
Definition set_opt_state (o : OptState) (w : world) : world :=
  {| self := self w; net_params := net_params w; net_training := net_training w;
     net_grads := net_grads w; opt_state := o;
     metric_state := metric_state w; rng := rng w; trace := trace w |}.
Definition set_metric_state (m : MetricState) (w : world) : world :=
  {| self := self w; net_params := net_params w; net_training := net_training w;
     net_grads := net_grads w; opt_state := opt_state w;
     metric_state := m; rng := rng w; trace := trace w |}.
Definition set_rng (r : Rng) (w : world) : world :=
  {| self := self w; net_params := net_params w; net_training := net_training w;
     net_grads := net_grads w; opt_state := opt_state w;
     metric_state := metric_state w; rng := r; trace := trace w |}.
Definition set_trace (t : list event) (w : world) : world :=
  {| self := self w; net_params := net_params w; net_training := net_training w;
     net_grads := net_grads w; opt_state := opt_state w;
     metric_state := metric_state w; rng := rng w; trace := t |}.

Definition emit (e : event) : M unit :=
  modify (λ w, set_trace (trace w ++ [e]) w).

(** [for x in xs: body], the variables the body assigns threaded as [s]. *)
Fixpoint for_each {A S} (body : S → A → M S) (xs : list A) (s : S) : M S :=
  match xs with
  | [] => mret s
  | x :: xs' => s' ← body s x; for_each body xs' s'
  end.

(** [enumerate(xs)] *)
Definition enumerate {A} (xs : list A) : list (nat * A) :=
  zip (seq 0 (length xs)) xs.

(** ** Name lookup, arithmetic and strings of Python *)

(** Reading a name that no statement of the function assigns: it is looked
    up at module level (and then among the builtins, which hold none of
    the names the class reads this way). *)
Definition load_global (x : string) : M pyval :=
  match module_globals !! x with
  | Some o => mret (VObj o)
  | None => raise (NameError x)
  end.

(** Reading (or deleting) a local variable, [None] while it is unbound. *)
Definition load_local {A} (x : string) (v : option A) : M A :=
  match v with
  | Some a => mret a
  | None => raise (UnboundLocalError x)
  end.

(** [d[k]] on a dict. *)
Definition subscript {A} (d : gmap string A) (k : string) : M A :=
  match d !! k with
  | Some a => mret a
  | None => raise (KeyError k)
  end.

(** [{**a, **b}]: the keys of [b] win. *)
Definition dict_merge {A} (a b : gmap string A) : gmap string A := b ∪ a.

(** [x / n] for a float (or the int 0) [x] and an int [n]. *)
Definition py_div (x : Num) (n : Z) : M Num :=
  if n =? 0 then raise ZeroDivisionError else mret (num_div x (num_of_Z n)).

(** [a < b] *)
Definition py_lt (a b : pyval) : M bool :=
  match a, b with
  | VNum x, VNum y => mret (num_lt x y)
  | VNum x, VInt j => mret (num_lt x (num_of_Z j))
  | VInt i, VNum y => mret (num_lt (num_of_Z i) y)
  | VInt i, VInt j => mret (i <? j)
  | _, _ => raise TypeError
  end.

(** [os.path.join(a, b)] of [posixpath]. *)
Definition ends_with_sep (a : string) : bool :=
  match last (String.list_ascii_of_string a) with
  | Some c => if decide (c = "/"%char) then true else false
  | None => false
  end.

Definition path_join (a b : string) : string :=
  if String.prefix "/" b then b
  else if (String.eqb a "" || ends_with_sep a)%bool then (a +:+ b)
  else (a +:+ "/" +:+ b).

(** [s.zfill(width)]: zeros on the left, after a leading sign. *)
Definition zeros (n : nat) : string := String.string_of_list_ascii (replicate n "0"%char).

Definition zfill (width : nat) (s : string) : string :=
  let pad := zeros (width - String.length s) in
  match s with
  | String c rest =>
      if (Ascii.eqb c "+" || Ascii.eqb c "-")%bool
      then String c (pad +:+ rest) else pad +:+ s
  | EmptyString => pad
  end.


(** ** Calls on the collaborators *)

(** [self.net.train(b)] *)
Definition net_train (b : bool) : M unit :=
  modify (set_net_training b);; emit (EvTrainMode b).

(** [Variable(t.to(device=self.device))]: only tensors have [to]. *)
Definition to_device (f : field Tensor) : M Tensor :=
  match f with
  | FTensor t => d ← gets (λ w, device (self w)); mret (tensor_to d t)
  | FStrs _ => raise AttributeError
  end.

(** One pass over [DataLoader(dataset, batch_size=n, shuffle=sh)]: its
    batches, drawn with the random generator. *)
Definition iterate (dataset : Dataset) (n : Z) (sh : bool)
  : M (list (list (field Tensor))) :=
  r ← gets rng;
  modify (set_rng (rng_after dataset n sh r));;
  mret (DataLoader dataset n sh r).

(** [self.optimizer.zero_grad()] *)
Definition zero_grad : M unit :=
  modify (λ w, set_net_grads (optimizer_zero_grad (net_grads w)) w);;
  emit EvZeroGrad.

(** [self.net(X)] *)
Definition net_forward (X : Tensor) : M Tensor :=
  emit (EvForward X);;
  gets (λ w, net_call (net_params w) (net_training w) X).

(** [self.loss(y_out, y)], with the scalar that [.item()] reads from it. *)
Definition loss_forward (y_out y : Tensor) : M Num :=
  emit (EvLoss (loss_item y_out y));;
  mret (loss_item y_out y).

(** [training_loss.backward()] for the loss of the batch [(X, y)]. *)
Definition backward (X y : Tensor) : M unit :=
  modify (λ w, set_net_grads
                 (loss_backward (net_params w) (net_training w) X y (net_grads w)) w);;
  emit EvBackward.

(** [self.optimizer.step()] *)
Definition step : M unit :=
  modify (λ w, let r := optimizer_step (opt_state w) (net_grads w) (net_params w)
               in set_opt_state r.1 (set_net_params r.2 w));;
  emit EvOptStep.

(** [self.scheduler.step(v)] *)
Definition sched_step (v : pyval) : M unit :=
  modify (λ w, set_opt_state (scheduler_step v (opt_state w)) w);;
  emit (EvSchedStep v).

(** [torch.save(self.net.state_dict(), path)] *)
Definition torch_save (path : string) : M unit :=
  p ← gets net_params; emit (EvTorchSave path p).

(** [io.imsave(path, img)] *)
Definition imsave (path : string) (img : Image) : M unit :=
  emit (EvImsave path img).

(** [time()] and [torch.cuda.memory_allocated()], read at the instant
    given by the number of outside calls made so far. *)
Definition time : M Num := gets (λ w, time_at (length (trace w))).
Definition memory_allocated : M Z := gets (λ w, memory_at (length (trace w))).

(** Modelled from the spec: [chk_mkdir] of [unet/utils.py], which is not
    among the sources; it creates the directory if it is absent. *)
Definition chk_mkdir (path : string) : M unit := emit (EvMkdir path).

(** Modelled from the spec: the [Logger] of [unet/utils.py], which is not
    among the sources; an in-memory collection of log records to which
    [log] appends one record, and which [to_csv] writes out with one row
    per record. *)
Definition Logger_new : list (gmap string pyval) := [].
Definition Logger_log (rows : list (gmap string pyval)) (logs : gmap string pyval)
  : list (gmap string pyval) := rows ++ [logs].
Definition Logger_to_csv (rows : list (gmap string pyval)) (path : string) : M unit :=
  emit (EvToCsv path rows).

(** [metric_list.reset()], [metric_list(y_out, y)] and
    [metric_list.get_results(normalize=n)] of the [MetricList] passed in. *)
Definition metric_list_reset : M unit :=
  modify (λ w, set_metric_state (metric_reset (metric_state w)) w);;
  emit EvMetricReset.
Definition metric_list_call (y_out y : Tensor) : M unit :=
  modify (λ w, set_metric_state (metric_update y_out y (metric_state w)) w);;
  emit EvMetricUpdate.
Definition metric_list_get_results (normalize : Z) : M (gmap string pyval) :=
  gets (λ w, VNum <$> metric_get_results normalize (metric_state w)).

(** ** The class [Model] *)

(** [Model.__init__] (lines 42-53). *)
Definition init (checkpoint_folder0 : string) (scheduler0 : option objref)
    (device0 : Device) : M unit :=
  modify (set_self {| net := the_net; loss := the_loss; optimizer := the_optimizer;
                      scheduler := scheduler0;
                      checkpoint_folder := checkpoint_folder0;
                      device := device0; logger := None |});;
  folder ← gets (λ w, checkpoint_folder (self w));
  chk_mkdir folder;;
  d ← gets (λ w, device (self w));
  modify (λ w, set_net_params (params_to d (net_params w)) w);;
  emit (EvNetTo d);;
  emit (EvLossTo d).

(** The variables that the batch loops of [fit_epoch] and [val_epoch]
    assign and that are read after the loop; [None] while unbound. *)
Record epoch_locals := {
  running_loss : Num;
  batch_idx : option nat;
  X_batch : option Tensor;
  y_batch : option Tensor
}.

(** The loop target [(X_batch, y_batch, *rest)]. *)
Definition unpack_X_y (b : list (field Tensor))
  : M (field Tensor * field Tensor * list (field Tensor)) :=
  match b with
  | X :: y :: rest => mret (X, y, rest)
  | _ => raise ValueError
  end.

(** Lines 60-71. *)
Definition fit_epoch_body (loc : epoch_locals) (ib : nat * list (field Tensor))
  : M epoch_locals :=
  '(X, y, rest) ← unpack_X_y ib.2;
  X ← to_device X;
  y ← to_device y;
  zero_grad;;
  y_out ← net_forward X;
  training_loss ← loss_forward y_out y;
  backward X y;;
  step;;
  mret {| running_loss := num_add (running_loss loc) training_loss;
          batch_idx := Some ib.1; X_batch := Some X; y_batch := Some y |}.

(** [Model.fit_epoch] (lines 55-79). *)
Definition fit_epoch (dataset : Dataset) (n_batch : Z) (shuffle : bool)
  : M (gmap string pyval) :=
  net_train true;;
  batches ← iterate dataset n_batch shuffle;
  loc ← for_each fit_epoch_body (enumerate batches)
          {| running_loss := num_of_Z 0; batch_idx := None;
             X_batch := None; y_batch := None |};
  net_train false;;
  load_local "X_batch" (X_batch loc);;               (* del X_batch, y_batch *)
  load_local "y_batch" (y_batch loc);;
  idx ← load_local "batch_idx" (batch_idx loc);
  mean ← py_div (running_loss loc) (Z.of_nat idx + 1);
  mret {[ "train_loss" := VNum mean ]}.

(** Lines 86-94. *)
Definition val_epoch_body (loc : epoch_locals) (ib : nat * list (field Tensor))
  : M epoch_locals :=
  '(X, y, rest) ← unpack_X_y ib.2;
  X ← to_device X;
  y ← to_device y;
  y_out ← net_forward X;
  training_loss ← loss_forward y_out y;
  metric_list_call y_out y;;
  mret {| running_loss := num_add (running_loss loc) training_loss;
          batch_idx := Some ib.1; X_batch := Some X; y_batch := Some y |}.

(** [Model.val_epoch] (lines 81-101). *)
Definition val_epoch (dataset : Dataset) (n_batch : Z) : M (gmap string pyval) :=
  net_train false;;
  metric_list_reset;;
  batches ← iterate dataset n_batch false;
  loc ← for_each val_epoch_body (enumerate batches)
          {| running_loss := num_of_Z 0; batch_idx := None;
             X_batch := None; y_batch := None |};
  load_local "X_batch" (X_batch loc);;               (* del X_batch, y_batch *)
  load_local "y_batch" (y_batch loc);;
  idx ← load_local "batch_idx" (batch_idx loc);
  mean ← py_div (running_loss loc) (Z.of_nat idx + 1);
  idx' ← load_local "batch_idx" (batch_idx loc);
  results ← metric_list_get_results (Z.of_nat idx' + 1);
  mret (dict_merge {[ "val_loss" := VNum mean ]} results).

(** The file name of line 165: ['%s.png' % str(batch_idx + 1).zfill(3)]. *)
Definition numbered_filename (batch_idx : nat) : string :=
  zfill 3 (pretty (Z.of_nat batch_idx + 1)) +:+ ".png".

(** Lines 161-170. *)
Definition predict_dataset_body (export_path : string) (_ : unit)
    (ib : nat * list (field Tensor)) : M unit :=
  '(X, rest) ← match ib.2 with                       (* (X_batch, *rest) *)
               | X :: rest => mret (X, rest)
               | [] => raise ValueError
               end;
  r ← match rest with                                (* rest[0] *)
      | r :: _ => mret r
      | [] => raise IndexError
      end;
  image_filename ← match r with                      (* rest[0][0] *)
                   | FStrs (s :: _) => mret s
                   | FStrs [] => raise IndexError
                   | FTensor _ => mret (numbered_filename ib.1)
                   end;
  X ← to_device X;
  y_out ← net_forward X;
  imsave (path_join export_path image_filename) (channel_one y_out).

(** [Model.predict_dataset] (lines 157-170). *)
Definition predict_dataset (dataset : Dataset) (export_path : string) : M unit :=
  net_train false;;
  chk_mkdir export_path;;
  batches ← iterate dataset 1 false;
  for_each (predict_dataset_body export_path) (enumerate batches) tt.

(** [Model.predict_batch] (lines 172-178). *)
Definition predict_batch (X : Tensor) : M Tensor :=
  net_train false;;
  X ← to_device (FTensor X);
  net_forward X.

(** The variables of [fit_dataset] that one epoch hands to the next. *)
Record fit_locals := {
  logger_rows : list (gmap string pyval);     (* logger *)
  min_loss : pyval;
  val_logs : option (gmap string pyval)
}.

(** [os.path.join(self.checkpoint_folder, name)] *)
Definition checkpoint_path (name : string) : M string :=
  gets (λ w, path_join (checkpoint_folder (self w)) name).

(** Lines 122-130: the [best_model] checkpoint. *)
Definition checkpoint_best (val_dataset : option Dataset) (n_batch : Z)
    (loc : fit_locals) : M (pyval * option (gmap string pyval)) :=
  match val_dataset with
  | Some vd =>
      logs ← val_epoch vd n_batch;
      v ← subscript logs "val_loss";
      b ← py_lt v (min_loss loc);
      if (b : bool) then
        path ← checkpoint_path "best_model";
        torch_save path;;
        v' ← subscript logs "val_loss";
        mret (v', Some logs)
      else mret (min_loss loc, Some logs)
  | None =>
      train_loss ← load_global "train_loss";
      b ← py_lt train_loss (min_loss loc);
      if (b : bool) then
        path ← checkpoint_path "best_model";
        torch_save path;;
        train_loss' ← load_global "train_loss";
        mret (train_loss', val_logs loc)
      else mret (min_loss loc, val_logs loc)
  end.

(** Lines 145-150: the numbered checkpoint. *)
Definition checkpoint_numbered (save_freq : Z) (predict_ds : option Dataset)
    (epoch_idx : Z) : M unit :=
  if (negb (save_freq =? 0) && (epoch_idx `mod` save_freq =? 0))%bool then
    epoch_save_path ← checkpoint_path (pretty epoch_idx);      (* '%d' % epoch_idx *)
    chk_mkdir epoch_save_path;;
    torch_save (path_join epoch_save_path "model");;
    match predict_ds with
    | Some pd => if dataset_truthy pd then predict_dataset pd epoch_save_path else mret tt
    | None => mret tt
    end
  else mret tt.

(** Lines 116-150: one epoch of [fit_dataset]. *)
Definition fit_dataset_body (dataset : Dataset) (n_batch : Z) (shuffle : bool)
    (val_dataset : option Dataset) (save_freq : Z) (predict_ds : option Dataset)
    (train_start : Num) (loc : fit_locals) (epoch_idx : Z) : M fit_locals :=
  train_logs ← fit_epoch dataset n_batch shuffle;
  sch ← gets (λ w, scheduler (self w));
  match sch with
  | Some _ => train_loss ← load_global "train_loss"; sched_step train_loss
  | None => mret tt
  end;;
  '(min_loss', val_logs') ← checkpoint_best val_dataset n_batch loc;
  latest ← checkpoint_path "latest_model";
  torch_save latest;;
  epoch_end ← time;
  memory ← memory_allocated;
  val_logs'' ← load_local "val_logs" val_logs';
  let logs := dict_merge
                (dict_merge {[ "epoch" := VInt epoch_idx;
                               "time" := VNum (num_sub epoch_end train_start);
                               "memory" := VInt memory ]} val_logs'')
                train_logs in
  let logger' := Logger_log (logger_rows loc) logs in
  csv ← checkpoint_path "logs.csv";
  Logger_to_csv logger' csv;;
  checkpoint_numbered save_freq predict_ds epoch_idx;;
  mret {| logger_rows := logger'; min_loss := min_loss'; val_logs := val_logs' |}.

(** [Model.fit_dataset] (lines 103-155).  [verbose] only makes the logger
    print and is left out. *)
Definition fit_dataset (dataset : Dataset) (n_epochs : Z) (n_batch : Z)
    (shuffle : bool) (val_dataset : option Dataset) (save_freq : Z)
    (predict_ds : option Dataset) : M (list (gmap string pyval)) :=
  train_start ← time;
  loc ← for_each
          (fit_dataset_body dataset n_batch shuffle val_dataset save_freq
                            predict_ds train_start)
          (seqZ 1 n_epochs)
          {| logger_rows := Logger_new; min_loss := VNum num_inf; val_logs := None |};
  modify (λ w, set_self (set_logger (logger_rows loc) (self w)) w);;   (* self.logger = logger *)
  mret (logger_rows loc).

(** ** What a history shows

    Each of these reads one kind of outside call off a history, in the
    order of the calls. *)

(** The loss values observed. *)
Definition observed_losses (t : list event) : list Num :=
  flat_map (λ e, match e with EvLoss v => [v] | _ => [] end) t.

(** The arguments of the [net.train(...)] calls. *)
Definition mode_switches (t : list event) : list bool :=
  flat_map (λ e, match e with EvTrainMode b => [b] | _ => [] end) t.

(** The signals the scheduler was stepped with. *)
Definition scheduler_steps (t : list event) : list pyval :=
  flat_map (λ e, match e with EvSchedStep v => [v] | _ => [] end) t.

(** The directories made and the checkpoints written. *)
Inductive disk_op :=
| MadeDir (path : string)
| Saved (path : string).

Definition disk (t : list event) : list disk_op :=
  flat_map (λ e, match e with
                 | EvMkdir p => [MadeDir p]
                 | EvTorchSave p _ => [Saved p]
                 | _ => []
                 end) t.

(** The paths [torch.save] wrote. *)
Definition saves_of (ops : list disk_op) : list string :=
  flat_map (λ o, match o with Saved p => [p] | MadeDir _ => [] end) ops.

Definition saved_paths (t : list event) : list string := saves_of (disk t).

(** The paths of the image files written. *)
Definition image_paths (t : list event) : list string :=
  flat_map (λ e, match e with EvImsave p _ => [p] | _ => [] end) t.

(** The calls that prepare or apply a parameter update. *)
Definition update_calls (t : list event) : list event :=
  flat_map (λ e, match e with
                 | EvZeroGrad | EvBackward | EvOptStep => [e]
                 | _ => []
                 end) t.

(** ** Shapes of batches *)

(** A batch that starts with an input tensor and a target tensor. *)
Definition xy_batch (b : list (field Tensor)) : Prop :=
  ∃ X y rest, b = FTensor X :: FTensor y :: rest.

(** A batch that starts with an input tensor and has at least one more
    element, whose first item can be read. *)
Definition named_or_plain (b : list (field Tensor)) : Prop :=
  ∃ X r rest, b = FTensor X :: r :: rest ∧ r ≠ FStrs [].

(** Every pass over the dataset yields at least one batch, and batches of
    an input and a target. *)
Definition trainable (dataset : Dataset) (n : Z) (sh : bool) : Prop :=
  ∀ r, DataLoader dataset n sh r ≠ [] ∧ Forall xy_batch (DataLoader dataset n sh r).

(** ** The words of the specification, for comparison with the code *)

(** "strictly smaller than the minimum loss seen so far": the flags of a
    sequence of losses, [best] being the minimum before the sequence. *)
Definition num_min (a b : Num) : Num := if num_lt b a then b else a.

Fixpoint improvements (best : Num) (l : list Num) : list bool :=
  match l with
  | [] => []
  | v :: l' => num_lt v best :: improvements (num_min best v) l'
  end.

(** "the filename is the per-sample string identifier when the data source
    supplies one, and otherwise the 1-indexed position zero-padded to 3
    digits with the .png extension": the identifier is looked for among
    all that the source supplies with the input. *)
Fixpoint supplied_identifier (rest : list (field Tensor)) : option string :=
  match rest with
  | [] => None
  | FStrs (s :: _) :: _ => Some s
  | _ :: rest' => supplied_identifier rest'
  end.

Definition claimed_filename (ib : nat * list (field Tensor)) : string :=
  default (numbered_filename ib.1) (supplied_identifier (tail ib.2)).

(** What line 162 looks at: the first element after the input. *)
Definition written_filename (ib : nat * list (field Tensor)) : string :=
  match tail ib.2 with
  | FStrs (s :: _) :: _ => s
  | _ => numbered_filename ib.1
  end.

(** "the arithmetic mean of the B per-batch loss values (the sum of the B
    scalar losses divided by B)", the sum taken from the left as Python
    accumulates it. *)
Definition arithmetic_mean (l : list Num) : Num :=
  num_div (foldl num_add (num_of_Z 0) l) (num_of_Z (Z.of_nat (length l))).

(** ** Kinds of outside calls *)

(** The calls of one training batch, of one validation batch and of one
    predicted sample. *)
Definition train_call (e : event) : bool :=
  match e with
  | EvZeroGrad | EvForward _ | EvLoss _ | EvBackward | EvOptStep => true
  | _ => false
  end.

Definition eval_call (e : event) : bool :=
  match e with
  | EvForward _ | EvLoss _ | EvMetricUpdate => true
  | _ => false
  end.

Definition predict_call (e : event) : bool :=
  match e with
  | EvForward _ | EvImsave _ _ => true
  | _ => false
  end.

(** ** What an epoch of [fit_dataset] puts on disk *)

(** [if predict_dataset:] *)
Definition predicting (predict_ds : option Dataset) : bool :=
  match predict_ds with
  | Some pd => dataset_truthy pd
  | None => false
  end.

(** The prediction data source, when one is used, yields batches that
    [predict_dataset] can name. *)
Definition predictable (predict_ds : option Dataset) : Prop :=
  match predict_ds with
  | Some pd =>
      dataset_truthy pd = true → ∀ r, Forall named_or_plain (DataLoader pd 1 false r)
  | None => True
  end.

(** The numbered folder of epoch [k] and the model saved into it, when
    [save_freq] is not zero and divides [k]; [predict_dataset] then checks
    the folder once more. *)
Definition numbered_disk (folder : string) (save_freq : Z) (pred : bool) (k : Z)
  : list disk_op :=
  if (negb (save_freq =? 0) && (k `mod` save_freq =? 0))%bool then
    [MadeDir (path_join folder (pretty k));
     Saved (path_join (path_join folder (pretty k)) "model")]
    ++ (if pred then [MadeDir (path_join folder (pretty k))] else [])
  else [].

(** Epoch [ki.1], [ki.2] telling whether its loss improved on the best:
    the directories made and the checkpoints written, in order. *)
Definition epoch_disk (folder : string) (save_freq : Z) (pred : bool)
    (ki : Z * bool) : list disk_op :=
  (if ki.2 then [Saved (path_join folder "best_model")] else [])
  ++ [Saved (path_join folder "latest_model")]
  ++ numbered_disk folder save_freq pred ki.1.

(** The same, keeping only the paths of the checkpoints written. *)
Definition epoch_saves (folder : string) (save_freq : Z) (ki : Z * bool) : list string :=
  (if ki.2 then [path_join folder "best_model"] else [])
  ++ [path_join folder "latest_model"]
  ++ (if (negb (save_freq =? 0) && (ki.1 `mod` save_freq =? 0))%bool
      then [path_join (path_join folder (pretty ki.1)) "model"] else []).

(** The two checkpoints every run may write. *)
Definition fixed_checkpoint (folder : string) (o : disk_op) : Prop :=
  o = Saved (path_join folder "best_model")
  ∨ o = Saved (path_join folder "latest_model").

(** The disk operations open to a run of [n_epochs] epochs under [folder]:
    the two fixed checkpoints, and the numbered folder and its model for
    the epochs that a non-zero [save_freq] divides. *)
Definition allowed_op (folder : string) (save_freq n_epochs : Z) (o : disk_op) : Prop :=
  o = Saved (path_join folder "best_model")
  ∨ o = Saved (path_join folder "latest_model")
  ∨ ∃ k, 1 ≤ k ≤ n_epochs ∧ save_freq ≠ 0 ∧ k `mod` save_freq = 0
         ∧ (o = MadeDir (path_join folder (pretty k))
            ∨ o = Saved (path_join (path_join folder (pretty k)) "model")).

(** ** Judgements on the methods *)

(** [I] is kept by [m], whatever the outcome. *)
Definition inv {A} (I : world → Prop) (m : M A) : Prop :=
  ∀ w, I w → I (m w).2.

(** [Q] holds of the world in which [m] returns. *)
Definition ok_post {A} (Q : world → Prop) (m : M A) : Prop :=
  ∀ w, match m w with (Ok _, w') => Q w' | (Raise _, _) => True end.

(** [m] raises only exceptions that satisfy [P]. *)
Definition raises_only {A} (P : exn → Prop) (m : M A) : Prop :=
  ∀ w, match (m w).1 with Raise e => P e | Ok _ => True end.

(** The states [w] reached from [w0] in which: the [Model] instance is as
    it was; *)
Definition same_self (w0 w : world) : Prop := self w = self w0.

(** the parameters, the gradients and the optimizer are as they were, and
    no call has prepared or applied an update; *)
Definition same_parameters (w0 w : world) : Prop :=
  net_params w = net_params w0
  ∧ net_grads w = net_grads w0
  ∧ opt_state w = opt_state w0
  ∧ update_calls (trace w) = update_calls (trace w0).

(** the network is in evaluation mode, after one switch to it; *)
Definition eval_mode_since (w0 w : world) : Prop :=
  net_training w = false
  ∧ mode_switches (trace w) = mode_switches (trace w0) ++ [false].

(** the scheduler has not been stepped; *)
Definition scheduler_idle (w0 w : world) : Prop :=
  scheduler_steps (trace w) = scheduler_steps (trace w0).

(** nothing has been put on disk; *)
Definition disk_idle (w0 w : world) : Prop :=
  disk (trace w) = disk (trace w0).

(** the disk has seen only operations open to the run. *)
Definition disk_within (save_freq n_epochs : Z) (w0 w : world) : Prop :=
  self w = self w0
  ∧ ∃ ops, disk (trace w) = disk (trace w0) ++ ops
           ∧ Forall (allowed_op (checkpoint_folder (self w0)) save_freq n_epochs) ops.

Definition eval_mode (w : world) : Prop := net_training w = false.

(** [m], run from [w], returns with the network in evaluation mode. *)
Definition returns_in_eval_mode {A} (m : M A) (w : world) : Prop :=
  match m w with
  | (Ok _, w') => net_training w' = false
  | (Raise _, _) => True
  end.

(** ** More of what a history shows *)

(** The inputs handed to the network. *)
Definition forwarded (t : list event) : list Tensor :=
  flat_map (λ e, match e with EvForward X => [X] | _ => [] end) t.

(** The calls on the metric aggregator. *)
Definition metric_calls (t : list event) : list event :=
  flat_map (λ e, match e with
                 | EvMetricReset | EvMetricUpdate => [e]
                 | _ => []
                 end) t.

(** The [to_csv] calls: the path, and the records logged up to the
    call. *)
Definition csv_writes (t : list event) : list (string * list (gmap string pyval)) :=
  flat_map (λ e, match e with EvToCsv p rows => [(p, rows)] | _ => [] end) t.

(** The checkpoints written, each with the parameters saved. *)
Definition saved_states (t : list event) : list (string * Params) :=
  flat_map (λ e, match e with EvTorchSave p sd => [(p, sd)] | _ => [] end) t.

(** What a write leaves in a file: the parameters of a [torch.save], the
    image of an [io.imsave], the records of a [to_csv]. *)
Inductive content :=
| Checkpoint (state_dict : Params)
| Picture (img : Image)
| Table (rows : list (gmap string pyval)).

(** The writes of a history, of whatever call, in the order of the
    calls. *)
Definition writes (t : list event) : list (string * content) :=
  flat_map (λ e, match e with
                 | EvTorchSave p sd => [(p, Checkpoint sd)]
                 | EvImsave p img => [(p, Picture img)]
                 | EvToCsv p rows => [(p, Table rows)]
                 | _ => []
                 end) t.

(** What was written to [path], in order; paths are compared as
    strings. *)
Definition on_path {A} (path : string) (l : list (string * A)) : list A :=
  flat_map (λ pa : string * A, if String.eqb pa.1 path then [pa.2] else []) l.

(** What the file [path] holds after the history: what the last write
    to that path has left, whichever of [torch.save], [io.imsave] and
    [to_csv] made it. *)
Definition file_on_disk (path : string) (t : list event) : option content :=
  last (on_path path (writes t)).

(** The calls that one training batch makes on the optimizer and the
    loss, and those of [b] batches. *)
Definition batch_update : list event := [EvZeroGrad; EvBackward; EvOptStep].

Definition batch_updates (b : nat) : list event := concat (replicate b batch_update).

(** ** More shapes of batches *)

(** The input tensors of batches. *)
Definition inputs_of (bs : list (list (field Tensor))) : list Tensor :=
  flat_map (λ b, match b with FTensor X :: _ => [X] | _ => [] end) bs.

(** The exception on which the loop target [(X_batch, y_batch, *rest)] or
    one of the two [.to(device)] stops, for a batch that does not start
    with an input tensor and a target tensor. *)
Definition shape_error (b : list (field Tensor)) : option exn :=
  match b with
  | [] | [_] => Some ValueError
  | FStrs _ :: _ :: _ => Some AttributeError
  | FTensor _ :: FStrs _ :: _ => Some AttributeError
  | FTensor _ :: FTensor _ :: _ => None
  end.

(** The exception on which lines 161-167 stop, for a batch that
    [predict_dataset] cannot name or whose input is no tensor. *)
Definition naming_error (b : list (field Tensor)) : option exn :=
  match b with
  | [] => Some ValueError
  | [_] => Some IndexError
  | _ :: FStrs [] :: _ => Some IndexError
  | FStrs _ :: _ :: _ => Some AttributeError
  | FTensor _ :: _ :: _ => None
  end.

(** A batch without identifier: a tensor follows the input. *)
Definition plain_batch (b : list (field Tensor)) : Prop :=
  ∃ X t rest, b = FTensor X :: FTensor t :: rest.

(** The identifier of the batch, if it has one where line 162 looks, is
    no absolute path. *)
Definition relative_name (b : list (field Tensor)) : Prop :=
  match b with
  | _ :: FStrs (s :: _) :: _ => String.prefix "/" s = false
  | _ => True
  end.

(** The identifier of the batch, if it has one where line 162 looks,
    holds no separator: it names a file of the export directory
    itself. *)
Definition bare_name (b : list (field Tensor)) : Prop :=
  match b with
  | _ :: FStrs (s :: _) :: _ =>
      forallb (λ c, negb (Ascii.eqb c "/")) (String.list_ascii_of_string s) = true
  | _ => True
  end.

(** An unshuffled pass over the dataset yields the same batches whatever
    the state of the random generator. *)
Definition stable_pass (dataset : Dataset) (n : Z) : Prop :=
  ∀ r r', DataLoader dataset n false r = DataLoader dataset n false r'.

(** The checkpoints that epoch [ki.1] writes, each with the parameters
    [p]. *)
Definition epoch_states (folder : string) (save_freq : Z) (p : Params)
    (ki : Z * bool) : list (string * Params) :=
  map (λ path, (path, p)) (epoch_saves folder save_freq ki).

(** ** The epochs as functions of the batches *)

(** The loss of each batch of an input and a target, for a network with
    parameters [p] in mode [m], on the device [d]. *)
Definition batch_losses (p : Params) (m : bool) (d : Device)
    (bs : list (list (field Tensor))) : list Num :=
  flat_map (λ b, match b with
                 | FTensor X :: FTensor y :: _ =>
                     [loss_item (net_call p m (tensor_to d X)) (tensor_to d y)]
                 | _ => []
                 end) bs.

(** The metric aggregator after it has been called on the output and the
    target of each batch. *)
Definition batch_metrics (p : Params) (m : bool) (d : Device)
    (st : MetricState) (bs : list (list (field Tensor))) : MetricState :=
  foldl (λ st b, match b with
                 | FTensor X :: FTensor y :: _ =>
                     metric_update (net_call p m (tensor_to d X)) (tensor_to d y) st
                 | _ => st
                 end) st bs.

(** Parameters, gradients and optimizer after lines 66-70 on one batch:
    the gradients are cleared, those of the loss of the batch are
    accumulated, and the optimizer steps. *)
Definition train_step (d : Device) (s : Params * Grads * OptState)
    (b : list (field Tensor)) : Params * Grads * OptState :=
  match b with
  | FTensor X :: FTensor y :: _ =>
      let g := loss_backward s.1.1 true (tensor_to d X) (tensor_to d y)
                             (optimizer_zero_grad s.1.2) in
      let r := optimizer_step s.2 g s.1.1 in
      (r.2, g, r.1)
  | _ => s
  end.

(** The loss of each batch of a training pass: that of the network in
    training mode with the parameters that the steps on the batches
    before it have left. *)
Fixpoint train_losses (d : Device) (s : Params * Grads * OptState)
    (bs : list (list (field Tensor))) : list Num :=
  match bs with
  | [] => []
  | b :: bs' =>
      match b with
      | FTensor X :: FTensor y :: _ =>
          [loss_item (net_call s.1.1 true (tensor_to d X)) (tensor_to d y)]
      | _ => []
      end ++ train_losses d (train_step d s b) bs'
  end.

(** The epochs among [kbs] whose flag is set. *)
Definition improving_epochs (kbs : list (Z * bool)) : list Z :=
  flat_map (λ kb : Z * bool, if kb.2 then [kb.1] else []) kbs.

(** The states [w] reached from [w0] in which no directory has been made
    and no checkpoint, log file or image written. *)
Definition files_idle (w0 w : world) : Prop :=
  disk (trace w) = disk (trace w0)
  ∧ csv_writes (trace w) = csv_writes (trace w0)
  ∧ image_paths (trace w) = image_paths (trace w0).

(** The images written, each with its path. *)
Definition images_written (t : list event) : list (string * Image) :=
  flat_map (λ e, match e with EvImsave p img => [(p, img)] | _ => [] end) t.

(** The file that lines 162-170 write for one sample: under the name of
    the sample, channel 1 of the output of the network in evaluation mode
    with parameters [p], for the input moved to the device [d]. *)
Definition predicted (p : Params) (d : Device) (export_path : string)
    (ib : nat * list (field Tensor)) : list (string * Image) :=
  match ib.2 with
  | FTensor X :: _ =>
      [(path_join export_path (written_filename ib),
        channel_one (net_call p false (tensor_to d X)))]
  | _ => []
  end.

(** The images that epoch [kp.1] of [fit_dataset] exports when the
    network has the parameters [kp.2], [r] being the state of the
    generator at the prediction pass. *)
Definition epoch_predictions (folder : string) (save_freq : Z)
    (predict_ds : option Dataset) (d : Device) (r : Rng) (kp : Z * Params)
  : list (string * Image) :=
  if (negb (save_freq =? 0) && (kp.1 `mod` save_freq =? 0))%bool then
    match predict_ds with
    | Some pd =>
        if dataset_truthy pd then
          flat_map (predicted kp.2 d (path_join folder (pretty kp.1)))
                   (enumerate (DataLoader pd 1 false r))
        else []
    | None => []
    end
  else [].

(** The history of [w] continues that of [w0]. *)
Definition continues (w0 w : world) : Prop :=
  ∃ evs, trace w = trace w0 ++ evs.

End WithNumeric.

(** ** Reading a number back from a file name *)

(** The value of a decimal digit, 0 for any other character. *)
Definition digit_value (c : ascii) : N :=
  match c with
  | "0" => 0 | "1" => 1 | "2" => 2 | "3" => 3 | "4" => 4
  | "5" => 5 | "6" => 6 | "7" => 7 | "8" => 8 | "9" => 9
  | _ => 0
  end%char%N.

(** The number that the characters of [s] spell, read as decimal digits. *)
Fixpoint digits_value (s : string) : N :=
  match s with
  | EmptyString => 0
  | String c s' => digit_value c * 10 ^ N.of_nat (String.length s') + digits_value s'
  end%N.

(** The number that a file name spells before its four-character
    extension. *)
Definition stem_number (name : string) : N :=
  digits_value (String.substring 0 (String.length name - 4) name).

(** ** A concrete instance, to run the methods on explicit inputs *)

Module Mock.

(** Exact rationals with an infinity stand in for the floats. *)
Inductive mfloat :=
| Fin (q : Q)
| Inf.

Definition mf_add (a b : mfloat) : mfloat :=
  match a, b with
  | Fin x, Fin y => Fin (Qred (x + y))
  | _, _ => Inf
  end.

Definition mf_sub (a b : mfloat) : mfloat :=
  match a, b with
  | Fin x, Fin y => Fin (Qred (x - y))
  | _, _ => Inf
  end.

Definition mf_div (a b : mfloat) : mfloat :=
  match a, b with
  | Fin x, Fin y => Fin (Qred (x / y))
  | Fin _, Inf => Fin 0
  | Inf, _ => Inf
  end.

Definition mf_lt (a b : mfloat) : bool :=
  match a, b with
  | Fin x, Fin y => negb (Qle_bool y x)
  | Fin _, Inf => true
  | Inf, _ => false
  end.

#[export] Instance numeric : Numeric := {|
  Num := mfloat;
  num_of_Z := λ z, Fin (inject_Z z);
  num_add := mf_add;
  num_sub := mf_sub;
  num_div := mf_div;
  num_lt := mf_lt;
  num_inf := Inf
|}.

(** A network whose parameters count the optimizer steps taken and whose
    output is that count; a loss that reads its value from [table] at the
    output (the mocked loss of the spec's tests); a data source given as
    the list of the batches it yields. *)
Definition backend (table : list Q) : Backend := {|
  Tensor := nat;
  Image := nat;
  Params := nat;
  Grads := nat;
  OptState := nat;
  MetricState := nat;
  Dataset := list (list (field nat));
  Device := unit;
  net_call := λ p _ _, p;
  loss_item := λ y_out _, from_option Fin Inf (table !! y_out);
  loss_backward := λ _ _ _ _ g, S g;
  optimizer_zero_grad := λ _, O;
  optimizer_step := λ o g p, (S o, (p + g)%nat);
  scheduler_step := λ _ o, o;
  metric_reset := λ _, O;
  metric_update := λ _ _ m, S m;
  metric_get_results := λ n m, {[ "batches" := Fin (inject_Z (Z.of_nat m)) ]};
  Rng := nat;
  DataLoader := λ ds _ sh r, if sh then rotate r ds else ds;
  rng_after := λ _ _ _ r, S r;
  dataset_truthy := λ ds, negb (bool_decide (ds = []));
  tensor_to := λ _ t, t;
  params_to := λ _ p, p;
  channel_one := λ t, t;
  time_at := λ n, Fin (inject_Z (Z.of_nat n));
  memory_at := λ _, 0
|}.

(** A freshly constructed [Model] on a net in training mode, as
    [nn.Module] objects start. *)
Definition world0 (table : list Q) (sch : option objref) : world (B := backend table) :=
  (init (B := backend table) "ckpt" sch tt
     (@Build_world numeric (backend table)
        (@Build_Model numeric (backend table) the_net the_loss the_optimizer
                      None "" tt None)
        O true O O O O [])).2.

(** The loss values of the mocked loss, and a batch of an input and a
    target. *)
Definition table : list Q := [3; 2; 3 # 2; 9 # 5; 6 # 5]%Q.

#[export] Instance mock_backend : Backend := backend table.

Definition xy : list (field nat) := [FTensor 0%nat; FTensor 0%nat].

(** Freshly constructed models, without and with a scheduler. *)
Definition w0 : world := world0 table None.
Definition w0_sched : world := world0 table (Some the_scheduler).

(** Two samples of an input, a target and an identifier. *)
Definition identified : list (list (field nat)) :=
  [ [FTensor 1%nat; FTensor 2%nat; FStrs ["a.png"]];
    [FTensor 3%nat; FTensor 4%nat; FStrs ["b.png"]] ].

(** What a run returned, if it returned. *)
Definition returned {A} (r : result A) : option A :=
  match r with
  | Ok a => Some a
  | Raise _ => None
  end.

(** The directories among disk operations. *)
Definition made_dirs (ops : list disk_op) : list string :=
  flat_map (λ o, match o with MadeDir p => [p] | Saved _ => [] end) ops.

End Mock.

(** * Properties *)

(** ** Strings, paths and numbers in file names *)

Lemma append_cons c (a b : string) : String c a +:+ b = String c (a +:+ b).
Proof. reflexivity. Qed.

Lemma append_nil_l (b : string) : "" +:+ b = b.
Proof. reflexivity. Qed.

Lemma append_assoc (a b c : string) : (a +:+ b) +:+ c = a +:+ (b +:+ c).
Proof. induction a as [|x a IH]; [done|]. by rewrite !append_cons, IH. Qed.

Lemma length_append (a b : string) :
  String.length (a +:+ b) = (String.length a + String.length b)%nat.
Proof. induction a as [|x a IH]; [done|]. rewrite append_cons. simpl. by rewrite IH. Qed.

Lemma list_ascii_append (a b : string) :
  String.list_ascii_of_string (a +:+ b)
  = String.list_ascii_of_string a ++ String.list_ascii_of_string b.
Proof. induction a as [|x a IH]; [done|]. rewrite append_cons. simpl. by rewrite IH. Qed.

Lemma list_ascii_inj (a b : string) :
  String.list_ascii_of_string a = String.list_ascii_of_string b → a = b.
Proof.
  intros H. rewrite <- (String.string_of_list_ascii_of_string a),
    <- (String.string_of_list_ascii_of_string b). by rewrite H.
Qed.

Lemma append_inj_r (a b c : string) : a +:+ c = b +:+ c → a = b.
Proof.
  intros H. apply list_ascii_inj.
  apply (f_equal String.list_ascii_of_string) in H.
  rewrite !list_ascii_append in H. by apply app_inv_tail in H.
Qed.

(** Two strings with suffixes of the same length are equal only if the
    suffixes are. *)
Lemma append_inj_2 (a b c d : string) :
  String.length c = String.length d → a +:+ c = b +:+ d → a = b ∧ c = d.
Proof.
  intros Hl H. apply (f_equal String.list_ascii_of_string) in H.
  rewrite !list_ascii_append in H.
  apply app_inj_2 in H as [H1 H2].
  - split; by apply list_ascii_inj.
  - clear H. revert d Hl. induction c as [|x c IH]; intros [|y d]; simpl; try done.
    intros [= Hl]. by rewrite (IH d Hl).
Qed.

Lemma prefix_append (a b : string) : String.prefix a (a +:+ b) = true.
Proof.
  induction a as [|x a IH]; [by destruct b|].
  rewrite append_cons. simpl. by destruct (ascii_dec x x).
Qed.

Lemma substring_append (a b : string) :
  String.substring 0 (String.length a) (a +:+ b) = a.
Proof.
  induction a as [|x a IH]; [by destruct b|].
  rewrite append_cons. simpl. by rewrite IH.
Qed.

(** [os.path.join] with a second part that is no absolute path: the
    first part, a separator if it needs one, and the second part. *)
Lemma path_join_relative (a : string) :
  ∃ d, String.prefix a d = true
       ∧ ∀ b, String.prefix "/" b = false → path_join a b = d +:+ b.
Proof.
  destruct (String.eqb a "" || ends_with_sep a)%bool eqn:E.
  - exists a. split.
    + rewrite <- (prefix_append a ""). f_equal.
      clear E. induction a as [|x a IH]; [done|]. by rewrite append_cons, <- IH.
    + intros b Hb. unfold path_join. by rewrite Hb, E.
  - exists (a +:+ "/"). split; [apply prefix_append|].
    intros b Hb. unfold path_join. by rewrite Hb, E, append_assoc.
Qed.

Lemma path_join_inj (a b c : string) :
  String.prefix "/" b = false → String.prefix "/" c = false →
  path_join a b = path_join a c → b = c.
Proof.
  intros Hb Hc. destruct (path_join_relative a) as (d & _ & Hd).
  rewrite (Hd b Hb), (Hd c Hc). apply String.app_inj.
Qed.

Lemma prefix_trans_append (e d x : string) :
  String.prefix e d = true → String.prefix e (d +:+ x) = true.
Proof.
  revert d. induction e as [|c e IH]; intros d H.
  - by destruct (d +:+ x).
  - destruct d as [|c' d]; [done|]. rewrite append_cons. simpl in *.
    destruct (ascii_dec c c'); [by apply IH | done].
Qed.

(** Digits. *)
Lemma digit_value_char (d : N) : (d < 10)%N → digit_value (pretty_N_char d) = d.
Proof.
  intros. assert (d = 0 ∨ d = 1 ∨ d = 2 ∨ d = 3 ∨ d = 4 ∨ d = 5 ∨ d = 6
                  ∨ d = 7 ∨ d = 8 ∨ d = 9)%N as Hd by lia.
  repeat (destruct Hd as [->|Hd]; [done|]). by subst.
Qed.

Lemma pretty_N_char_no_sep (d : N) :
  pretty_N_char d ≠ "/"%char
  ∧ Ascii.eqb (pretty_N_char d) "+" = false
  ∧ Ascii.eqb (pretty_N_char d) "-" = false.
Proof. unfold pretty_N_char. repeat case_match; repeat split; done. Qed.

Lemma digits_value_go (x : N) : ∀ s,
  digits_value (pretty_N_go x s)
  = (x * 10 ^ N.of_nat (String.length s) + digits_value s)%N.
Proof.
  induction (N.lt_wf_0 x) as [x _ IH]; intros s.
  assert (x = 0 ∨ 0 < x)%N as [->|Hx] by lia.
  - rewrite pretty_N_go_0. lia.
  - rewrite pretty_N_go_step by done.
    rewrite IH by (by apply N.div_lt). simpl digits_value. simpl String.length.
    rewrite digit_value_char by (by apply N.mod_lt).
    rewrite Nat2N.inj_succ, N.pow_succ_r'.
    pose proof (N.div_mod x 10 ltac:(done)) as Hdm.
    transitivity ((10 * (x `div` 10) + x `mod` 10) * 10 ^ N.of_nat (String.length s)
                  + digits_value s)%N; [|by rewrite <- Hdm].
    rewrite N.mul_add_distr_r, N.add_assoc, (N.mul_comm 10 (x `div` 10)), <- N.mul_assoc.
    reflexivity.
Qed.

Lemma pretty_N_go_digit (x : N) : ∀ s,
  (0 < x)%N → ∃ d rest, pretty_N_go x s = String (pretty_N_char d) rest.
Proof.
  induction (N.lt_wf_0 x) as [x _ IH]; intros s Hx.
  rewrite pretty_N_go_step by done.
  destruct (N.eq_0_gt_0_cases (x `div` 10)) as [->|Hd].
  - rewrite pretty_N_go_0. eauto.
  - apply IH; [by apply N.div_lt | done].
Qed.

Lemma pretty_N_go_suffix (x : N) : ∀ s, ∃ t, pretty_N_go x s = t +:+ s.
Proof.
  induction (N.lt_wf_0 x) as [x _ IH]; intros s.
  assert (x = 0 ∨ 0 < x)%N as [->|Hx] by lia.
  - exists "". by rewrite pretty_N_go_0.
  - rewrite pretty_N_go_step by done.
    destruct (IH (x `div` 10)%N (N.div_lt x 10 Hx eq_refl)
                 (String (pretty_N_char (x `mod` 10)) s)) as [t ->].
    exists (t +:+ String (pretty_N_char (x `mod` 10)) ""). by rewrite append_assoc.
Qed.

(** A positive number is written with a digit first and a digit last. *)
Lemma pretty_pos_digits (p : positive) :
  (∃ d rest, pretty (Z.pos p) = String (pretty_N_char d) rest)
  ∧ (∃ t d, pretty (Z.pos p) = t +:+ String (pretty_N_char d) "")
  ∧ digits_value (pretty (Z.pos p)) = N.pos p.
Proof.
  change (pretty (Z.pos p)) with (pretty_N_go (N.pos p) "").
  split; [by apply pretty_N_go_digit|]. split.
  - rewrite pretty_N_go_step by done.
    destruct (pretty_N_go_suffix (N.pos p `div` 10)
                (String (pretty_N_char (N.pos p `mod` 10)) "")) as [t ->]. eauto.
  - rewrite digits_value_go. simpl. lia.
Qed.

(** ['%d' % k] starts a relative path and does not end in a separator. *)
Lemma pretty_Z_relative (k : Z) : String.prefix "/" (pretty k) = false.
Proof.
  destruct k as [|p|p]; [done| |done].
  destruct (pretty_pos_digits p) as ((d & rest & ->) & _).
  unfold pretty_N_char. by repeat case_match.
Qed.

Lemma ends_with_sep_append (a t : string) (c : ascii) :
  c ≠ "/"%char → ends_with_sep (a +:+ t +:+ String c "") = false.
Proof.
  intros Hc. unfold ends_with_sep. rewrite !list_ascii_append. simpl.
  rewrite app_assoc, last_snoc. by destruct (decide (c = "/"%char)).
Qed.

Lemma pretty_Z_last (k : Z) : ∃ t d, pretty k = t +:+ String (pretty_N_char d) "".
Proof.
  destruct k as [|p|p].
  - by exists "", 0%N.
  - apply pretty_pos_digits.
  - destruct (pretty_pos_digits p) as (_ & (t & d & Ht) & _).
    exists ("-" +:+ t), d.
    change (pretty (Z.neg p)) with ("-" +:+ pretty (Z.pos p)).
    by rewrite Ht, append_assoc.
Qed.

(** ['%d' % k] starts with a digit or a minus sign. *)
Lemma pretty_Z_first (k : Z) :
  ∃ c rest, pretty k = String c rest
            ∧ (c = "-"%char ∨ ∃ d, c = pretty_N_char d).
Proof.
  destruct k as [|p|p].
  - exists "0"%char, "". split; [reflexivity|]. right. exists 0%N. reflexivity.
  - destruct (pretty_pos_digits p) as ((d & rest & ->) & _).
    exists (pretty_N_char d), rest. split; [reflexivity|]. right. by exists d.
  - exists "-"%char, (pretty (Z.pos p)). split; [reflexivity|]. by left.
Qed.

(** A name without separator is no absolute path. *)
Lemma no_separator_relative (s : string) :
  forallb (λ c, negb (Ascii.eqb c "/")) (String.list_ascii_of_string s) = true →
  String.prefix "/" s = false.
Proof.
  destruct s as [|c s]; [done|]. intros H.
  cbn [forallb String.list_ascii_of_string] in H. apply andb_prop in H as [Hc _].
  change (String.prefix "/" (String c s))
    with (if ascii_dec "/" c then String.prefix "" s else false).
  destruct (ascii_dec "/" c) as [<-|]; [done | reflexivity].
Qed.

(** The paths under a checkpoint folder: the folder with the separator
    it needs, then the name; a file of the folder of epoch [k] lies one
    level deeper. *)
Lemma checkpoint_paths (folder : string) :
  ∃ d, String.prefix folder d = true
       ∧ (∀ b, String.prefix "/" b = false → path_join folder b = d +:+ b)
       ∧ ∀ (k : Z) (name : string),
           String.prefix "/" name = false →
           path_join (path_join folder (pretty k)) name
           = d +:+ pretty k +:+ "/" +:+ name.
Proof.
  destruct (path_join_relative folder) as (d & Hp & Hd). exists d.
  split; [done|]. split; [done|]. intros k name Hname.
  rewrite (Hd _ (pretty_Z_relative k)).
  destruct (pretty_Z_last k) as (t & c & Hk).
  unfold path_join. rewrite Hname.
  assert (ends_with_sep (d +:+ pretty k) = false) as ->.
  { rewrite Hk. apply ends_with_sep_append, pretty_N_char_no_sep. }
  assert (String.eqb (d +:+ pretty k) "" = false) as ->.
  { rewrite Hk. apply String.eqb_neq. intros H.
    apply (f_equal String.length) in H. rewrite !length_append in H. simpl in H. lia. }
  simpl. by rewrite !append_assoc.
Qed.

(** No two of the checkpoints and the log file that [fit_dataset] writes
    under the checkpoint folder share a path. *)
Lemma checkpoint_paths_distinct (folder : string) :
  path_join folder "best_model" ≠ path_join folder "latest_model"
  ∧ path_join folder "logs.csv" ≠ path_join folder "best_model"
  ∧ path_join folder "logs.csv" ≠ path_join folder "latest_model"
  ∧ (∀ k : Z, path_join (path_join folder (pretty k)) "model" ≠ path_join folder "best_model")
  ∧ (∀ k : Z, path_join (path_join folder (pretty k)) "model" ≠ path_join folder "latest_model")
  ∧ (∀ k : Z, path_join (path_join folder (pretty k)) "model" ≠ path_join folder "logs.csv")
  ∧ (∀ j k : Z, path_join folder (pretty j) = path_join folder (pretty k) → j = k)
  ∧ (∀ j k : Z, path_join (path_join folder (pretty j)) "model"
                = path_join (path_join folder (pretty k)) "model" → j = k).
Proof.
  destruct (checkpoint_paths folder) as (d & _ & Hd & Hm).
  rewrite !(Hd "best_model"), !(Hd "latest_model"), !(Hd "logs.csv") by done.
  split; [by intros ?%String.app_inj|].
  split; [by intros ?%String.app_inj|].
  split; [by intros ?%String.app_inj|].
  split.
  { intros k. rewrite Hm by done. intros H%String.app_inj.
    change "best_model" with ("best" +:+ "_model") in H.
    change (pretty k +:+ "/" +:+ "model") with (pretty k +:+ "/model") in H.
    by apply append_inj_2 in H as [_ ?]. }
  split.
  { intros k. rewrite Hm by done. intros H%String.app_inj.
    change "latest_model" with ("latest" +:+ "_model") in H.
    change (pretty k +:+ "/" +:+ "model") with (pretty k +:+ "/model") in H.
    by apply append_inj_2 in H as [_ ?]. }
  split.
  { intros k. rewrite Hm by done. intros H%String.app_inj.
    change "logs.csv" with ("lo" +:+ "gs.csv") in H.
    change (pretty k +:+ "/" +:+ "model") with (pretty k +:+ "/model") in H.
    by apply append_inj_2 in H as [_ ?]. }
  split.
  { intros j k. rewrite !Hd by apply pretty_Z_relative.
    intros H%String.app_inj. by apply (inj pretty). }
  intros j k. rewrite !Hm by done. intros H%String.app_inj.
  change (pretty j +:+ "/" +:+ "model") with (pretty j +:+ "/model") in H.
  change (pretty k +:+ "/" +:+ "model") with (pretty k +:+ "/model") in H.
  apply append_inj_r in H. by apply (inj pretty).
Qed.

(** A file of the folder of an epoch, under a name that is no absolute
    path, is neither [best_model] nor [latest_model] of the checkpoint
    folder: its path goes on with the number of the epoch. *)
Lemma epoch_file_apart (folder : string) (k : Z) (name : string) :
  String.prefix "/" name = false →
  path_join (path_join folder (pretty k)) name ≠ path_join folder "best_model"
  ∧ path_join (path_join folder (pretty k)) name ≠ path_join folder "latest_model".
Proof.
  intros Hname. destruct (checkpoint_paths folder) as (d & _ & Hd & Hm).
  rewrite (Hm k name Hname), !Hd by done.
  destruct (pretty_Z_first k) as (c & rest & -> & Hc).
  rewrite append_cons.
  split; intros [= -> _]%String.app_inj;
    destruct Hc as [?|[x Hx]]; try done;
    revert Hx; unfold pretty_N_char; by repeat case_match.
Qed.

(** Zero padding. *)
Lemma digits_value_zeros (k : nat) (s : string) :
  digits_value (zeros k +:+ s) = digits_value s.
Proof.
  induction k as [|k IH]; [done|].
  change (zeros (S k)) with (String "0" (zeros k)). rewrite append_cons.
  simpl digits_value. rewrite IH. lia.
Qed.

Lemma zfill_digit (width : nat) (d : N) (rest : string) :
  zfill width (String (pretty_N_char d) rest)
  = zeros (width - String.length (String (pretty_N_char d) rest))
    +:+ String (pretty_N_char d) rest.
Proof.
  unfold zfill. destruct (pretty_N_char_no_sep d) as (_ & -> & ->). done.
Qed.

Lemma zeros_digit (k : nat) (d : N) (rest : string) :
  ∃ d' rest', zeros k +:+ String (pretty_N_char d) rest = String (pretty_N_char d') rest'.
Proof.
  destruct k as [|k]; [by exists d, rest|].
  exists 0%N. eexists. change (zeros (S k)) with (String "0" (zeros k)).
  by rewrite append_cons.
Qed.

(** The stem of a numbered file name reads back as the position of the
    sample, counted from 1; the name starts with a digit. *)
Lemma numbered_filename_stem (i : nat) :
  ∃ stem, numbered_filename i = stem +:+ ".png"
          ∧ digits_value stem = N.of_nat (S i)
          ∧ (3 ≤ String.length stem)%nat
          ∧ ∃ d rest, stem = String (pretty_N_char d) rest.
Proof.
  unfold numbered_filename.
  replace (Z.of_nat i + 1) with (Z.pos (Pos.of_succ_nat i)) by lia.
  destruct (pretty_pos_digits (Pos.of_succ_nat i)) as ((d & rest & Hd) & _ & Hv).
  eexists. split; [reflexivity|].
  rewrite Hd, zfill_digit, <- Hd. split; [|split].
  - rewrite digits_value_zeros, Hv. lia.
  - rewrite length_append.
    assert (String.length (zeros (3 - String.length (pretty (Z.pos (Pos.of_succ_nat i)))))
            = (3 - String.length (pretty (Z.pos (Pos.of_succ_nat i))))%nat) as ->; [|lia].
    generalize (3 - String.length (pretty (Z.pos (Pos.of_succ_nat i))))%nat.
    intros n. induction n as [|n IH]; [done|].
    change (zeros (S n)) with (String "0" (zeros n)). simpl. by rewrite IH.
  - rewrite Hd. apply zeros_digit.
Qed.

Lemma numbered_filename_relative (i : nat) :
  String.prefix "/" (numbered_filename i) = false.
Proof.
  destruct (numbered_filename_stem i) as (stem & -> & _ & _ & d & rest & ->).
  rewrite append_cons. unfold pretty_N_char. by repeat case_match.
Qed.

Lemma numbered_filename_inj (i j : nat) :
  numbered_filename i = numbered_filename j → i = j.
Proof.
  destruct (numbered_filename_stem i) as (si & -> & Hi & _).
  destruct (numbered_filename_stem j) as (sj & -> & Hj & _).
  intros H%append_inj_r. rewrite H in Hi. lia.
Qed.

Section Theory.
Context `{N : Numeric} {B : Backend}.

(** ** Running the monad *)

Lemma bind_run {A C} (m : M A) (f : A → M C) (w : world) :
  (m ≫= f) w = match m w with
               | (Ok a, w') => f a w'
               | (Raise e, w') => (Raise e, w')
               end.
Proof. reflexivity. Qed.

Lemma ret_run {A} (a : A) (w : world) : (mret a : M A) w = (Ok a, w).
Proof. reflexivity. Qed.

Lemma raise_run {A} (e : exn) (w : world) : raise (A := A) e w = (Raise e, w).
Proof. reflexivity. Qed.

Lemma gets_run {A} (f : world → A) (w : world) : gets f w = (Ok (f w), w).
Proof. reflexivity. Qed.

Lemma modify_run (f : world → world) (w : world) : modify f w = (Ok tt, f w).
Proof. reflexivity. Qed.

Lemma net_train_run b w :
  net_train b w = (Ok tt, set_trace (trace w ++ [EvTrainMode b]) (set_net_training b w)).
Proof. reflexivity. Qed.

Lemma metric_list_reset_run w :
  metric_list_reset w
  = (Ok tt, set_trace (trace w ++ [EvMetricReset])
                      (set_metric_state (metric_reset (metric_state w)) w)).
Proof. reflexivity. Qed.

Lemma chk_mkdir_run p w :
  chk_mkdir p w = (Ok tt, set_trace (trace w ++ [EvMkdir p]) w).
Proof. reflexivity. Qed.

Lemma torch_save_run p w :
  torch_save p w = (Ok tt, set_trace (trace w ++ [EvTorchSave p (net_params w)]) w).
Proof. reflexivity. Qed.

Lemma checkpoint_path_run name w :
  checkpoint_path name w = (Ok (path_join (checkpoint_folder (self w)) name), w).
Proof. reflexivity. Qed.

Lemma iterate_run ds n sh w :
  iterate ds n sh w
  = (Ok (DataLoader ds n sh (rng w)), set_rng (rng_after ds n sh (rng w)) w).
Proof. reflexivity. Qed.

(** Symbolic execution of straight-line code. *)
Ltac mrun :=
  repeat first [ rewrite bind_run | rewrite ret_run | rewrite raise_run
               | rewrite gets_run | rewrite modify_run
               | rewrite net_train_run | rewrite metric_list_reset_run
               | rewrite chk_mkdir_run | rewrite torch_save_run
               | rewrite checkpoint_path_run | rewrite iterate_run
               | progress cbv beta iota ].

Lemma load_global_train_loss :
  load_global "train_loss" = raise (NameError "train_loss").
Proof. reflexivity. Qed.

(** ** Invariants kept whatever the outcome *)

Lemma inv_ret {A} I (a : A) : inv I (mret a).
Proof. intros w Hw. exact Hw. Qed.

Lemma inv_raise {A} I e : inv I (raise (A := A) e).
Proof. intros w Hw. exact Hw. Qed.

Lemma inv_gets {A} I (f : world → A) : inv I (gets f).
Proof. intros w Hw. exact Hw. Qed.

Lemma inv_modify I (f : world → world) : (∀ w, I w → I (f w)) → inv I (modify f).
Proof. intros Hf w Hw. apply Hf, Hw. Qed.

Lemma inv_bind {A C} I (m : M A) (f : A → M C) :
  inv I m → (∀ a, inv I (f a)) → inv I (m ≫= f).
Proof.
  intros Hm Hf w Hw. rewrite bind_run.
  specialize (Hm w Hw). destruct (m w) as [[a|e] w']; simpl in *.
  - apply Hf, Hm.
  - exact Hm.
Qed.

Lemma inv_for_each {A S} I (body : S → A → M S) xs s :
  (∀ s x, inv I (body s x)) → inv I (for_each body xs s).
Proof.
  intros Hb. revert s. induction xs as [|x xs IH]; intros s; simpl.
  - apply inv_ret.
  - apply inv_bind; [apply Hb | intros s'; apply IH].
Qed.

Create HintDb model.

(** The methods and the calls they are made of, for [autounfold]. *)
#[local] Hint Unfold fit_epoch fit_epoch_body val_epoch val_epoch_body
  predict_dataset predict_dataset_body predict_batch
  checkpoint_best checkpoint_numbered fit_dataset_body checkpoint_path
  net_train to_device zero_grad net_forward loss_forward backward step
  sched_step torch_save imsave time memory_allocated chk_mkdir
  Logger_to_csv metric_list_reset metric_list_call metric_list_get_results
  unpack_X_y load_local subscript py_div py_lt emit iterate : model.

Ltac inv_step :=
  lazymatch goal with
  | |- inv _ (load_global "train_loss") => rewrite load_global_train_loss
  | |- inv _ (_ ≫= _) => apply inv_bind; [|intros]
  | |- inv _ (mret _) => apply inv_ret
  | |- inv _ (raise _) => apply inv_raise
  | |- inv _ (gets _) => apply inv_gets
  | |- inv _ (for_each _ _ _) => apply inv_for_each; intros
  | |- inv _ (modify _) => apply inv_modify
  | |- inv _ (match ?x with _ => _ end) => destruct x
  | |- inv _ _ => progress autounfold with model
  end.

Ltac inv_auto := repeat inv_step.

(** ** The methods on well-shaped data: they return, and what they did *)

Lemma fit_epoch_body_ok loc k X y rest w :
  ∃ v w1,
    fit_epoch_body loc (k, FTensor X :: FTensor y :: rest) w
    = (Ok {| running_loss := num_add (running_loss loc) v; batch_idx := Some k;
             X_batch := Some (tensor_to (device (self w)) X);
             y_batch := Some (tensor_to (device (self w)) y) |}, w1)
    ∧ trace w1 = trace w ++ [EvZeroGrad; EvForward (tensor_to (device (self w)) X);
                             EvLoss v; EvBackward; EvOptStep]
    ∧ self w1 = self w
    ∧ net_training w1 = net_training w.
Proof.
  eexists _, _. split; [reflexivity|]. simpl.
  repeat split. by rewrite <- !app_assoc.
Qed.

Lemma fit_loop_ok (bs : list (list (field Tensor))) :
  Forall xy_batch bs →
  ∀ (k : nat) (loc : epoch_locals) (w : world),
  ∃ loc' w' evs,
    for_each fit_epoch_body (zip (seq k (length bs)) bs) loc w = (Ok loc', w')
    ∧ trace w' = trace w ++ evs
    ∧ Forall (λ e, train_call e = true) evs
    ∧ self w' = self w
    ∧ net_training w' = net_training w
    ∧ running_loss loc' = foldl num_add (running_loss loc) (observed_losses evs)
    ∧ length (observed_losses evs) = length bs
    ∧ (bs = [] → loc' = loc)
    ∧ (bs ≠ [] → batch_idx loc' = Some (k + length bs - 1)%nat
                 ∧ is_Some (X_batch loc') ∧ is_Some (y_batch loc')).
Proof.
  induction 1 as [|b bs (X & y & rest & ->) _ IH]; intros k loc w.
  - exists loc, w, []. simpl. rewrite app_nil_r. repeat split; try done.
  - simpl. rewrite bind_run.
    destruct (fit_epoch_body_ok loc k X y rest w) as (v & w1 & -> & Ht1 & Hs1 & Hm1).
    match goal with |- context [for_each _ _ ?l w1] =>
      destruct (IH (S k) l w1)
        as (loc' & w' & evs & -> & Ht & Hev & Hs & Hm & Hr & Hl & Hnil & Hi)
    end.
    eexists loc', w', (_ ++ evs). split; [reflexivity|].
    split; [rewrite Ht, Ht1, <- app_assoc; reflexivity|].
    split; [apply Forall_app; split; [repeat constructor | exact Hev]|].
    split; [congruence|]. split; [congruence|].
    unfold observed_losses in *. rewrite flat_map_app, foldl_app, length_app. simpl.
    split; [exact Hr|]. split; [lia|]. split; [done|].
    intros _. destruct bs as [|b' bs'].
    + rewrite (Hnil eq_refl). simpl. replace (k + 1 - 1)%nat with k by lia. eauto.
    + destruct Hi as (Hi & HX & Hy); [done|]. rewrite Hi. repeat split; try done.
      f_equal. simpl. lia.
Qed.

Lemma fit_epoch_ok ds n sh w :
  DataLoader ds n sh (rng w) ≠ [] →
  Forall xy_batch (DataLoader ds n sh (rng w)) →
  ∃ w' evs,
    fit_epoch ds n sh w
    = (Ok {[ "train_loss" :=
               VNum (num_div (foldl num_add (num_of_Z 0) (observed_losses evs))
                             (num_of_Z (Z.of_nat (length (DataLoader ds n sh (rng w)))))) ]}, w')
    ∧ trace w' = trace w ++ [EvTrainMode true] ++ evs ++ [EvTrainMode false]
    ∧ Forall (λ e, train_call e = true) evs
    ∧ length (observed_losses evs) = length (DataLoader ds n sh (rng w))
    ∧ self w' = self w
    ∧ net_training w' = false.
Proof.
  intros Hne Hxy. unfold fit_epoch, enumerate.
  mrun. simpl (rng _).
  match goal with |- context [for_each _ _ ?l ?w1] =>
    destruct (fit_loop_ok _ Hxy 0%nat l w1)
      as (loc' & w' & evs & -> & Ht & Hev & Hs & Hm & Hr & Hl & _ & Hi)
  end.
  destruct (Hi Hne) as (Hidx & [X HX] & [y Hy]). simpl in Hidx.
  mrun. rewrite HX, Hy, Hidx. simpl in Hr.
  unfold py_div.
  assert (Hlen : Z.of_nat (length (DataLoader ds n sh (rng w)) - 1) + 1
                 = Z.of_nat (length (DataLoader ds n sh (rng w)))).
  { destruct (DataLoader ds n sh (rng w)); [done | simpl length; lia]. }
  simpl load_local. mrun. rewrite Hlen.
  destruct (Z.eqb_spec (Z.of_nat (length (DataLoader ds n sh (rng w)))) 0) as [H0|_].
  { destruct (DataLoader ds n sh (rng w)); [done | simpl length in H0; lia]. }
  mrun.
  exists (set_trace (trace w' ++ [EvTrainMode false]) (set_net_training false w')), evs.
  split; [rewrite Hr; reflexivity|]. simpl.
  split; [rewrite Ht; simpl; rewrite <- !app_assoc; reflexivity|].
  repeat split; try done.
Qed.

Lemma val_epoch_body_ok loc k X y rest w :
  ∃ v w1,
    val_epoch_body loc (k, FTensor X :: FTensor y :: rest) w
    = (Ok {| running_loss := num_add (running_loss loc) v; batch_idx := Some k;
             X_batch := Some (tensor_to (device (self w)) X);
             y_batch := Some (tensor_to (device (self w)) y) |}, w1)
    ∧ trace w1 = trace w ++ [EvForward (tensor_to (device (self w)) X);
                             EvLoss v; EvMetricUpdate]
    ∧ self w1 = self w
    ∧ net_training w1 = net_training w.
Proof.
  eexists _, _. split; [reflexivity|]. simpl.
  repeat split. by rewrite <- !app_assoc.
Qed.

Lemma val_loop_ok (bs : list (list (field Tensor))) :
  Forall xy_batch bs →
  ∀ (k : nat) (loc : epoch_locals) (w : world),
  ∃ loc' w' evs,
    for_each val_epoch_body (zip (seq k (length bs)) bs) loc w = (Ok loc', w')
    ∧ trace w' = trace w ++ evs
    ∧ Forall (λ e, eval_call e = true) evs
    ∧ self w' = self w
    ∧ net_training w' = net_training w
    ∧ running_loss loc' = foldl num_add (running_loss loc) (observed_losses evs)
    ∧ length (observed_losses evs) = length bs
    ∧ (bs = [] → loc' = loc)
    ∧ (bs ≠ [] → batch_idx loc' = Some (k + length bs - 1)%nat
                 ∧ is_Some (X_batch loc') ∧ is_Some (y_batch loc')).
Proof.
  induction 1 as [|b bs (X & y & rest & ->) _ IH]; intros k loc w.
  - exists loc, w, []. simpl. rewrite app_nil_r. repeat split; try done.
  - simpl. rewrite bind_run.
    destruct (val_epoch_body_ok loc k X y rest w) as (v & w1 & -> & Ht1 & Hs1 & Hm1).
    match goal with |- context [for_each _ _ ?l w1] =>
      destruct (IH (S k) l w1)
        as (loc' & w' & evs & -> & Ht & Hev & Hs & Hm & Hr & Hl & Hnil & Hi)
    end.
    eexists loc', w', (_ ++ evs). split; [reflexivity|].
    split; [rewrite Ht, Ht1, <- app_assoc; reflexivity|].
    split; [apply Forall_app; split; [repeat constructor | exact Hev]|].
    split; [congruence|]. split; [congruence|].
    unfold observed_losses in *. rewrite flat_map_app, foldl_app, length_app. simpl.
    split; [exact Hr|]. split; [lia|]. split; [done|].
    intros _. destruct bs as [|b' bs'].
    + rewrite (Hnil eq_refl). simpl. replace (k + 1 - 1)%nat with k by lia. eauto.
    + destruct Hi as (Hi & HX & Hy); [done|]. rewrite Hi. repeat split; try done.
      f_equal. simpl. lia.
Qed.

Lemma val_epoch_ok ds n w :
  DataLoader ds n false (rng w) ≠ [] →
  Forall xy_batch (DataLoader ds n false (rng w)) →
  ∃ logs v w' evs,
    val_epoch ds n w = (Ok logs, w')
    ∧ logs !! "val_loss" = Some (VNum v)
    ∧ trace w' = trace w ++ [EvTrainMode false; EvMetricReset] ++ evs
    ∧ Forall (λ e, eval_call e = true) evs
    ∧ self w' = self w
    ∧ net_training w' = false.
Proof.
  intros Hne Hxy. unfold val_epoch, enumerate.
  mrun. simpl (rng _).
  match goal with |- context [for_each _ _ ?l ?w1] =>
    destruct (val_loop_ok _ Hxy 0%nat l w1)
      as (loc' & w' & evs & -> & Ht & Hev & Hs & Hm & Hr & Hl & _ & Hi)
  end.
  destruct (Hi Hne) as (Hidx & [X HX] & [y Hy]). simpl in Hidx.
  rewrite HX, Hy, Hidx. unfold py_div, metric_list_get_results.
  assert (Hlen : Z.of_nat (length (DataLoader ds n false (rng w)) - 1) + 1
                 = Z.of_nat (length (DataLoader ds n false (rng w)))).
  { destruct (DataLoader ds n false (rng w)); [done | simpl length; lia]. }
  simpl load_local. mrun. rewrite Hlen.
  destruct (Z.eqb_spec (Z.of_nat (length (DataLoader ds n false (rng w)))) 0) as [H0|_].
  { destruct (DataLoader ds n false (rng w)); [done | simpl length in H0; lia]. }
  mrun.
  match goal with |- context [dict_merge {[ "val_loss" := VNum ?m ]} (VNum <$> ?r)] =>
    set (mean := m); set (res := r)
  end.
  assert (Hv : ∃ v, dict_merge {[ "val_loss" := VNum mean ]} (VNum <$> res) !! "val_loss"
                    = Some (VNum v)).
  { unfold dict_merge. destruct (res !! "val_loss") as [x|] eqn:E.
    - exists x. apply lookup_union_Some_l. by rewrite lookup_fmap, E.
    - exists mean. rewrite lookup_union_r; [apply lookup_singleton_eq|].
      by rewrite lookup_fmap, E. }
  destruct Hv as [v Hv].
  eexists _, v, w', evs. split; [reflexivity|].
  split; [exact Hv|]. simpl in *.
  split; [rewrite Ht, <- !app_assoc; reflexivity|].
  repeat split; try done.
Qed.

Lemma fit_epoch_empty ds n sh w :
  DataLoader ds n sh (rng w) = [] →
  (fit_epoch ds n sh w).1 = Raise (UnboundLocalError "X_batch").
Proof.
  intros He. unfold fit_epoch, enumerate. mrun. simpl (rng _). rewrite He. reflexivity.
Qed.

Lemma val_epoch_empty ds n w :
  DataLoader ds n false (rng w) = [] →
  (val_epoch ds n w).1 = Raise (UnboundLocalError "X_batch").
Proof.
  intros He. unfold val_epoch, enumerate. mrun. simpl (rng _). rewrite He. reflexivity.
Qed.

Lemma predict_dataset_body_ok export k X r rest w :
  r ≠ FStrs [] →
  ∃ w1 img,
    predict_dataset_body export tt (k, FTensor X :: r :: rest) w = (Ok tt, w1)
    ∧ trace w1 = trace w ++ [EvForward (tensor_to (device (self w)) X);
                             EvImsave (path_join export
                                         (written_filename (k, FTensor X :: r :: rest)))
                                      img]
    ∧ self w1 = self w
    ∧ net_training w1 = net_training w.
Proof.
  intros Hr. destruct r as [t|[|s l]]; [|done|].
  - eexists _, _. split; [reflexivity|]. simpl.
    repeat split. by rewrite <- !app_assoc.
  - eexists _, _. split; [reflexivity|]. simpl.
    repeat split. by rewrite <- !app_assoc.
Qed.

Lemma predict_loop_ok export (bs : list (list (field Tensor))) :
  Forall named_or_plain bs →
  ∀ (k : nat) (w : world),
  ∃ w' evs,
    for_each (predict_dataset_body export) (zip (seq k (length bs)) bs) tt w = (Ok tt, w')
    ∧ trace w' = trace w ++ evs
    ∧ Forall (λ e, predict_call e = true) evs
    ∧ image_paths evs
      = map (λ ib, path_join export (written_filename ib)) (zip (seq k (length bs)) bs)
    ∧ self w' = self w
    ∧ net_training w' = net_training w.
Proof.
  induction 1 as [|b bs (X & r & rest & -> & Hr) _ IH]; intros k w.
  - exists w, []. simpl. rewrite app_nil_r. repeat split; try done.
  - simpl zip. simpl for_each. rewrite bind_run.
    destruct (predict_dataset_body_ok export k X r rest w Hr)
      as (w1 & img & -> & Ht1 & Hs1 & Hm1).
    destruct (IH (S k) w1) as (w' & evs & -> & Ht & Hev & Hp & Hs & Hm).
    eexists w', (_ ++ evs). split; [reflexivity|].
    split; [rewrite Ht, Ht1, <- app_assoc; reflexivity|].
    split; [apply Forall_app; split; [repeat constructor | exact Hev]|].
    split; [|split; congruence].
    unfold image_paths in *. rewrite flat_map_app, Hp. reflexivity.
Qed.

Lemma predict_dataset_ok ds export w :
  Forall named_or_plain (DataLoader ds 1 false (rng w)) →
  ∃ w' evs,
    predict_dataset ds export w = (Ok tt, w')
    ∧ trace w' = trace w ++ [EvTrainMode false; EvMkdir export] ++ evs
    ∧ Forall (λ e, predict_call e = true) evs
    ∧ image_paths evs
      = map (λ ib, path_join export (written_filename ib))
            (enumerate (DataLoader ds 1 false (rng w)))
    ∧ self w' = self w
    ∧ net_training w' = false.
Proof.
  intros Hb. unfold predict_dataset, enumerate.
  mrun. simpl (rng _).
  match goal with |- context [for_each _ _ tt ?w1] =>
    destruct (predict_loop_ok export _ Hb 0%nat w1)
      as (w' & evs & -> & Ht & Hev & Hp & Hs & Hm)
  end.
  exists w', evs. split; [reflexivity|]. simpl in *.
  split; [rewrite Ht, <- !app_assoc; reflexivity|].
  repeat split; done.
Qed.

Lemma flat_map_quiet {X} (f : event → list X) (P : event → bool) evs :
  (∀ e, P e = true → f e = []) →
  Forall (λ e, P e = true) evs → flat_map f evs = [].
Proof.
  intros Hf. induction 1 as [|e evs He _ IH]; simpl; [done|].
  by rewrite (Hf e He), IH.
Qed.

Lemma disk_app t1 t2 : disk (t1 ++ t2) = disk t1 ++ disk t2.
Proof. apply flat_map_app. Qed.

Lemma disk_train_calls evs : Forall (λ e, train_call e = true) evs → disk evs = [].
Proof. apply flat_map_quiet. by intros []. Qed.

Lemma disk_eval_calls evs : Forall (λ e, eval_call e = true) evs → disk evs = [].
Proof. apply flat_map_quiet. by intros []. Qed.

Lemma disk_predict_calls evs : Forall (λ e, predict_call e = true) evs → disk evs = [].
Proof. apply flat_map_quiet. by intros []. Qed.

(** Reading the disk operations off an explicit list of calls, [H] saying
    that the calls of the one unknown tail are none. *)
Ltac disk_calc H :=
  let Hd := fresh "Hd" in
  pose proof H as Hd; unfold disk in *;
  rewrite ?flat_map_app; simpl; rewrite ?flat_map_app, ?Hd; simpl;
  rewrite ?app_nil_r; try reflexivity.

Lemma checkpoint_numbered_ok save_freq predict_ds k w :
  predictable predict_ds →
  net_training w = false →
  ∃ w' evs,
    checkpoint_numbered save_freq predict_ds k w = (Ok tt, w')
    ∧ trace w' = trace w ++ evs
    ∧ disk evs = numbered_disk (checkpoint_folder (self w)) save_freq
                               (predicting predict_ds) k
    ∧ self w' = self w
    ∧ net_training w' = false.
Proof.
  intros Hp Hm. unfold checkpoint_numbered, numbered_disk.
  destruct (negb (save_freq =? 0) && (k `mod` save_freq =? 0))%bool.
  2:{ exists w, []. rewrite app_nil_r. by repeat split. }
  mrun. rewrite ?chk_mkdir_run. mrun. rewrite ?torch_save_run. mrun.
  destruct predict_ds as [pd|]; simpl predicting; [destruct (dataset_truthy pd) eqn:Et|].
  - match goal with |- context [predict_dataset pd ?p ?w1] =>
      destruct (predict_dataset_ok pd p w1 (Hp Et _)) as (w' & evs & -> & Ht & Hev & _ & Hs & Hm')
    end.
    eexists w', _. split; [reflexivity|]. simpl in *.
    split; [rewrite Ht, <- !app_assoc; reflexivity|].
    split; [|by split].
    disk_calc (disk_predict_calls _ Hev).
  - eexists _, _. split; [reflexivity|]. simpl.
    split; [rewrite <- !app_assoc; reflexivity|]. by repeat split.
  - eexists _, _. split; [reflexivity|]. simpl.
    split; [rewrite <- !app_assoc; reflexivity|]. by repeat split.
Qed.

Lemma checkpoint_best_ok vd n_batch loc m w :
  min_loss loc = VNum m →
  trainable vd n_batch false →
  ∃ v logs w' evs,
    checkpoint_best (Some vd) n_batch loc w = (Ok (VNum (num_min m v), Some logs), w')
    ∧ logs !! "val_loss" = Some (VNum v)
    ∧ trace w' = trace w ++ evs
    ∧ disk evs = (if num_lt v m
                  then [Saved (path_join (checkpoint_folder (self w)) "best_model")]
                  else [])
    ∧ self w' = self w
    ∧ net_training w' = false.
Proof.
  intros Hmin Hvd. unfold checkpoint_best. mrun.
  destruct (val_epoch_ok vd n_batch w (proj1 (Hvd _)) (proj2 (Hvd _)))
    as (logs & v & w1 & evs & -> & Hl & Ht & Hev & Hs & Hm).
  unfold subscript. rewrite Hl, Hmin. mrun.
  change (py_lt (VNum v) (VNum m) w1) with (Ok (num_lt v m), w1). mrun.
  unfold num_min. destruct (num_lt v m) eqn:Elt; mrun.
  - eexists v, logs, _, _. rewrite Elt. split; [reflexivity|]. simpl.
    split; [done|]. split; [rewrite Ht, <- !app_assoc; reflexivity|].
    split; [|by split].
    rewrite Hs. disk_calc (disk_eval_calls _ Hev).
  - eexists v, logs, w1, _. rewrite Elt. split; [reflexivity|].
    split; [done|]. split; [exact Ht|].
    split; [|by split].
    disk_calc (disk_eval_calls _ Hev).
Qed.

Lemma fit_dataset_body_ok ds n_batch sh vd save_freq predict_ds train_start loc k m w :
  scheduler (self w) = None →
  min_loss loc = VNum m →
  trainable ds n_batch sh →
  trainable vd n_batch false →
  predictable predict_ds →
  ∃ v row vl w' evs,
    fit_dataset_body ds n_batch sh (Some vd) save_freq predict_ds train_start loc k w
    = (Ok {| logger_rows := logger_rows loc ++ [row];
             min_loss := VNum (num_min m v); val_logs := Some vl |}, w')
    ∧ row !! "val_loss" = Some (VNum v)
    ∧ trace w' = trace w ++ evs
    ∧ disk evs = epoch_disk (checkpoint_folder (self w)) save_freq
                            (predicting predict_ds) (k, num_lt v m)
    ∧ self w' = self w
    ∧ net_training w' = false.
Proof.
  intros Hsch Hmin Hds Hvd Hp. unfold fit_dataset_body.
  rewrite bind_run.
  destruct (fit_epoch_ok ds n_batch sh w (proj1 (Hds _)) (proj2 (Hds _)))
    as (w1 & evs1 & -> & Ht1 & Hev1 & _ & Hs1 & Hm1).
  mrun. rewrite Hs1, Hsch. mrun.
  destruct (checkpoint_best_ok vd n_batch loc m w1 Hmin Hvd)
    as (v & vl & w2 & evs2 & -> & Hl & Ht2 & Hd2 & Hs2 & Hm2).
  unfold time, memory_allocated, load_local, Logger_to_csv, Logger_log, emit. mrun.
  match goal with |- context [checkpoint_numbered _ _ _ ?w3] =>
    destruct (checkpoint_numbered_ok save_freq predict_ds k w3 Hp)
      as (w' & evs3 & -> & Ht3 & Hd3 & Hs3 & Hm3); [exact Hm2|]
  end.
  mrun. simpl in Ht3, Hd3, Hs3.
  eexists v, _, vl, w', _. split; [reflexivity|].
  split.
  { unfold dict_merge. rewrite lookup_union_r by done.
    by apply lookup_union_Some_l. }
  split; [rewrite Ht3, Ht2, Ht1, <- !app_assoc; reflexivity|].
  split; [|split; congruence].
  unfold epoch_disk. simpl fst. simpl snd.
  rewrite !disk_app, Hd2, Hd3, Hs2, Hs1, (disk_train_calls _ Hev1). reflexivity.
Qed.

Lemma fit_dataset_loop_ok ds n_batch sh vd save_freq predict_ds train_start ks :
  trainable ds n_batch sh →
  trainable vd n_batch false →
  predictable predict_ds →
  ∀ loc m w,
  scheduler (self w) = None →
  min_loss loc = VNum m →
  ∃ loc' rows L w',
    for_each (fit_dataset_body ds n_batch sh (Some vd) save_freq predict_ds train_start)
             ks loc w = (Ok loc', w')
    ∧ logger_rows loc' = logger_rows loc ++ rows
    ∧ (λ row : gmap string pyval, row !! "val_loss") <$> rows
      = (λ v, Some (VNum v)) <$> L
    ∧ length L = length ks
    ∧ disk (trace w')
      = disk (trace w)
        ++ flat_map (epoch_disk (checkpoint_folder (self w)) save_freq
                                (predicting predict_ds))
                    (zip ks (improvements m L))
    ∧ self w' = self w
    ∧ net_training w' = match ks with [] => net_training w | _ => false end.
Proof.
  intros Hds Hvd Hp.
  induction ks as [|k ks IH]; intros loc m w Hsch Hmin.
  - exists loc, [], [], w. simpl. rewrite !app_nil_r. by repeat split.
  - simpl for_each. rewrite bind_run.
    destruct (fit_dataset_body_ok ds n_batch sh vd save_freq predict_ds train_start
                loc k m w Hsch Hmin Hds Hvd Hp)
      as (v & row & vl & w1 & evs & -> & Hrow & Ht & Hd & Hs & Hm).
    match goal with |- context [for_each _ ks ?l w1] =>
      destruct (IH l (num_min m v) w1)
        as (loc' & rows & L & w' & -> & Hr & Hv & Hlen & HD & Hs' & Hnt);
        [congruence | reflexivity |]
    end.
    exists loc', (row :: rows), (v :: L), w'. split; [reflexivity|].
    split; [rewrite Hr; simpl; by rewrite <- app_assoc|].
    split; [by rewrite !fmap_cons, Hrow, Hv|].
    split; [simpl; by rewrite Hlen|].
    split; [|split; [congruence|]].
    + rewrite HD, Ht, disk_app, Hd, Hs, <- app_assoc. reflexivity.
    + rewrite Hnt. by destruct ks.
Qed.

Lemma fit_dataset_ok ds n_epochs n_batch sh vd save_freq predict_ds w :
  scheduler (self w) = None →
  trainable ds n_batch sh →
  trainable vd n_batch false →
  predictable predict_ds →
  ∃ rows L w',
    fit_dataset ds n_epochs n_batch sh (Some vd) save_freq predict_ds w = (Ok rows, w')
    ∧ (λ row : gmap string pyval, row !! "val_loss") <$> rows
      = (λ v, Some (VNum v)) <$> L
    ∧ length L = Z.to_nat n_epochs
    ∧ disk (trace w')
      = disk (trace w)
        ++ flat_map (epoch_disk (checkpoint_folder (self w)) save_freq
                                (predicting predict_ds))
                    (zip (seqZ 1 n_epochs) (improvements num_inf L))
    ∧ self w' = set_logger rows (self w)
    ∧ (0 < n_epochs → net_training w' = false).
Proof.
  intros Hsch Hds Hvd Hp. unfold fit_dataset, time. mrun.
  match goal with |- context [for_each ?b _ ?l w] =>
    destruct (fit_dataset_loop_ok ds n_batch sh vd save_freq predict_ds
                (time_at (length (trace w))) (seqZ 1 n_epochs)
                Hds Hvd Hp l num_inf w Hsch eq_refl)
      as (loc' & rows & L & w' & -> & Hr & Hv & Hlen & HD & Hs & Hnt)
  end.
  mrun. simpl in Hr. rewrite Hr.
  eexists rows, L, _. split; [reflexivity|]. simpl.
  split; [exact Hv|]. split; [by rewrite Hlen, length_seqZ|].
  split; [exact HD|]. split; [by rewrite Hs|].
  intros Hn. rewrite Hnt. unfold seqZ.
  destruct (Z.to_nat n_epochs) eqn:E; [lia | done].
Qed.

(** ** What the methods leave alone, whatever the outcome *)

Lemma inv_established {A C} (I : world → Prop) (m : M A) (f : A → M C) w :
  I (m w).2 → (∀ a, inv I (f a)) → I ((m ≫= f) w).2.
Proof.
  intros Hm Hf. rewrite bind_run.
  destruct (m w) as [[a|e] w1]; simpl in *; [by apply Hf | done].
Qed.

Lemma inv_bind_gets_const {A C} (I : world → Prop) (f : world → A) (k : A → M C) v :
  (∀ w, I w → f w = v) → inv I (k v) → inv I (gets f ≫= k).
Proof.
  intros Hf Hk w Hw. rewrite bind_run, gets_run, (Hf w Hw). by apply Hk.
Qed.

Ltac same_self_leaf := intros ? ?; assumption.

Lemma fit_epoch_same_self ds n sh w0 : inv (same_self w0) (fit_epoch ds n sh).
Proof. inv_auto; same_self_leaf. Qed.

Lemma val_epoch_same_self ds n w0 : inv (same_self w0) (val_epoch ds n).
Proof. inv_auto; same_self_leaf. Qed.

Lemma predict_dataset_same_self ds p w0 : inv (same_self w0) (predict_dataset ds p).
Proof. inv_auto; same_self_leaf. Qed.

Lemma predict_batch_same_self X w0 : inv (same_self w0) (predict_batch X).
Proof. inv_auto; same_self_leaf. Qed.

Lemma fit_dataset_body_same_self ds n sh vd sf pd ts loc k w0 :
  inv (same_self w0) (fit_dataset_body ds n sh vd sf pd ts loc k).
Proof. inv_auto; same_self_leaf. Qed.

Lemma val_epoch_same_parameters ds n w0 : inv (same_parameters w0) (val_epoch ds n).
Proof.
  inv_auto; intros w (Hp & Hg & Ho & Hu); repeat split; try assumption;
    simpl; unfold update_calls in *; rewrite ?flat_map_app; simpl;
    rewrite ?app_nil_r; assumption.
Qed.

Ltac eval_mode_leaf :=
  intros ? [? ?]; split; [assumption|];
  simpl; unfold mode_switches in *; rewrite ?flat_map_app; simpl;
  rewrite ?app_nil_r; assumption.

Lemma net_train_false_eval_mode w :
  eval_mode_since w (net_train false w).2.
Proof.
  rewrite net_train_run. split; [done|]. simpl. unfold mode_switches.
  by rewrite flat_map_app.
Qed.

Lemma val_epoch_eval_mode ds n w : eval_mode_since w (val_epoch ds n w).2.
Proof.
  unfold val_epoch. apply inv_established; [apply net_train_false_eval_mode|].
  intros _. inv_auto; eval_mode_leaf.
Qed.

Lemma predict_dataset_eval_mode ds p w : eval_mode_since w (predict_dataset ds p w).2.
Proof.
  unfold predict_dataset. apply inv_established; [apply net_train_false_eval_mode|].
  intros _. inv_auto; eval_mode_leaf.
Qed.

Lemma predict_batch_eval_mode X w : eval_mode_since w (predict_batch X w).2.
Proof.
  unfold predict_batch. apply inv_established; [apply net_train_false_eval_mode|].
  intros _. inv_auto; eval_mode_leaf.
Qed.

(** [fit_epoch]: training mode from the first statement to the end of the
    loop, evaluation mode from then on. *)
Lemma fit_epoch_mode ds n sh w :
  match fit_epoch ds n sh w with
  | (Ok _, w') =>
      net_training w' = false
      ∧ mode_switches (trace w') = mode_switches (trace w) ++ [true; false]
  | (Raise _, _) => True
  end.
Proof.
  unfold fit_epoch. mrun.
  match goal with |- context [for_each ?b ?xs ?s ?w1] =>
    assert (Hloop : mode_switches (trace (for_each b xs s w1).2)
                    = mode_switches (trace w) ++ [true]);
      [| destruct (for_each b xs s w1) as [[loc|e] w2] ]
  end.
  { apply (inv_for_each (λ w', mode_switches (trace w')
                               = mode_switches (trace w) ++ [true])).
    - intros. inv_auto; intros ? ?; simpl; unfold mode_switches in *;
        rewrite ?flat_map_app; simpl; rewrite ?app_nil_r; assumption.
    - simpl. unfold mode_switches. by rewrite flat_map_app. }
  2:{ by mrun. }
  mrun. unfold load_local, py_div.
  destruct (X_batch loc), (y_batch loc), (batch_idx loc) as [idx|]; mrun; try done.
  destruct (Z.of_nat idx + 1 =? 0); mrun; [done|].
  split; [done|]. simpl in *. unfold mode_switches in *.
  rewrite flat_map_app, Hloop, <- app_assoc. reflexivity.
Qed.

(** ** What holds when a method returns *)

Lemma ok_post_bind {A C} Q (m : M A) (f : A → M C) :
  (∀ a, ok_post Q (f a)) → ok_post Q (m ≫= f).
Proof.
  intros Hf w. rewrite bind_run. destruct (m w) as [[a|e] w1]; [apply Hf | done].
Qed.

Lemma ok_post_then_inv {A C} Q (m : M A) (f : A → M C) :
  ok_post Q m → (∀ a, inv Q (f a)) → ok_post Q (m ≫= f).
Proof.
  intros Hm Hf w. rewrite bind_run. specialize (Hm w).
  destruct (m w) as [[a|e] w1]; [|done].
  specialize (Hf a w1 Hm). by destruct (f a w1) as [[c|e] w2].
Qed.

Lemma fit_dataset_body_eval_mode ds n sh vd sf pd ts loc k :
  ok_post eval_mode (fit_dataset_body ds n sh vd sf pd ts loc k).
Proof.
  unfold fit_dataset_body. apply ok_post_then_inv.
  - intros w. pose proof (fit_epoch_mode ds n sh w) as Hm.
    destruct (fit_epoch ds n sh w) as [[a|e] w1]; [apply Hm | done].
  - intros train_logs. inv_auto; intros ? ?; assumption || reflexivity.
Qed.

Lemma fit_dataset_loop_eval_mode ds n sh vd sf pd ts ks k loc :
  ok_post eval_mode (for_each (fit_dataset_body ds n sh vd sf pd ts) (k :: ks) loc).
Proof.
  revert k loc. induction ks as [|k' ks IH]; intros k loc.
  - simpl for_each. apply ok_post_then_inv; [apply fit_dataset_body_eval_mode|].
    intros a. apply inv_ret.
  - change (ok_post eval_mode
              (fit_dataset_body ds n sh vd sf pd ts loc k
               ≫= for_each (fit_dataset_body ds n sh vd sf pd ts) (k' :: ks))).
    apply ok_post_bind. intros a. apply IH.
Qed.

Lemma seqZ_pos_cons m len : 0 < len → seqZ m len = m :: seqZ (Z.succ m) (Z.pred len).
Proof. intros. by apply seqZ_cons. Qed.

Lemma fit_dataset_eval_mode ds n_epochs n sh vd sf pd :
  0 < n_epochs → ok_post eval_mode (fit_dataset ds n_epochs n sh vd sf pd).
Proof.
  intros Hn. unfold fit_dataset. rewrite (seqZ_pos_cons 1 n_epochs Hn).
  apply ok_post_bind. intros ts. apply ok_post_then_inv.
  - apply fit_dataset_loop_eval_mode.
  - intros loc. inv_auto; intros ? ?; assumption.
Qed.

(** [fit_dataset] and the [Model] instance: [self.logger] on return. *)
Lemma fit_dataset_self ds n_epochs n sh vd sf pd w :
  match fit_dataset ds n_epochs n sh vd sf pd w with
  | (Ok rows, w') => self w' = set_logger rows (self w)
  | (Raise _, w') => self w' = self w
  end.
Proof.
  unfold fit_dataset, time. mrun.
  match goal with |- context [for_each ?b ?xs ?s w] =>
    pose proof (inv_for_each (same_self w) b xs s
                  (λ loc k, fit_dataset_body_same_self ds n sh vd sf pd _ loc k w)
                  w eq_refl) as Hloop;
    destruct (for_each b xs s w) as [[loc|e] w1]
  end; mrun; simpl in *; [by rewrite Hloop | exact Hloop].
Qed.

(** ** What [fit_dataset] may put on disk, whatever the outcome *)

Lemma disk_within_refl sf n w : disk_within sf n w w.
Proof. split; [done|]. exists []. by rewrite app_nil_r. Qed.

Ltac disk_within_leaf :=
  let w := fresh "w" in let Hs := fresh "Hs" in let ops := fresh "ops" in
  let Hd := fresh "Hd" in let Hf := fresh "Hf" in
  intros w [Hs (ops & Hd & Hf)]; split; [exact Hs|];
  simpl; unfold disk in *; rewrite ?flat_map_app; simpl; rewrite ?app_nil_r;
  first [ by exists ops
        | eexists (ops ++ [_]); split;
          [ rewrite Hd, app_assoc; reflexivity
          | apply Forall_app; split; [exact Hf|];
            apply Forall_singleton;
            first [ left; reflexivity
                  | right; left; reflexivity
                  | right; right;
                    match goal with Hm : ?k `mod` _ = 0 |- _ => exists k end;
                    repeat split;
                    first [ lia | assumption | left; reflexivity | right; reflexivity ] ] ] ].

(** A value read off [self] is the same in all the states of the
    invariant. *)
Ltac disk_within_step :=
  lazymatch goal with
  | |- inv _ (checkpoint_path _ ≫= _) =>
      unfold checkpoint_path at 1; eapply inv_bind_gets_const;
      [ let Hs := fresh in intros ? [Hs _]; rewrite Hs; reflexivity |]
  | |- inv _ (gets (λ w, path_join (checkpoint_folder (self w)) _) ≫= _) =>
      eapply inv_bind_gets_const;
      [ let Hs := fresh in intros ? [Hs _]; rewrite Hs; reflexivity |]
  | |- _ => inv_step
  end.

Lemma checkpoint_numbered_disk_within sf n pd k w0 :
  1 ≤ k ≤ n → inv (disk_within sf n w0) (checkpoint_numbered sf pd k).
Proof.
  intros Hk. unfold checkpoint_numbered.
  destruct (negb (sf =? 0) && (k `mod` sf =? 0))%bool eqn:E; [|apply inv_ret].
  apply andb_prop in E as [Hsf Hmod].
  apply negb_true_iff, Z.eqb_neq in Hsf. apply Z.eqb_eq in Hmod.
  repeat disk_within_step; disk_within_leaf.
Qed.

Lemma fit_dataset_body_disk_within ds nb sh vd sf n pd ts loc k w0 :
  1 ≤ k ≤ n → inv (disk_within sf n w0) (fit_dataset_body ds nb sh vd sf pd ts loc k).
Proof.
  intros Hk. unfold fit_dataset_body.
  repeat lazymatch goal with
         | |- inv _ (checkpoint_numbered _ _ _) =>
             by apply checkpoint_numbered_disk_within
         | |- _ => disk_within_step
         end; disk_within_leaf.
Qed.

Lemma inv_for_each_elem {A S} I (body : S → A → M S) xs s :
  (∀ s x, x ∈ xs → inv I (body s x)) → inv I (for_each body xs s).
Proof.
  revert s. induction xs as [|x xs IH]; intros s Hb; simpl.
  - apply inv_ret.
  - apply inv_bind; [apply Hb; left | intros s'; apply IH].
    intros s'' y Hy. apply Hb. by right.
Qed.

Lemma fit_dataset_disk ds n_epochs nb sh vd sf pd w :
  ∃ ops,
    disk (trace (fit_dataset ds n_epochs nb sh vd sf pd w).2) = disk (trace w) ++ ops
    ∧ Forall (allowed_op (checkpoint_folder (self w)) sf n_epochs) ops.
Proof.
  unfold fit_dataset, time. mrun.
  match goal with |- context [for_each ?b ?xs ?s w] =>
    assert (Hloop : disk_within sf n_epochs w (for_each b xs s w).2);
      [| destruct (for_each b xs s w) as [[loc|e] w1] ]
  end.
  { apply inv_for_each_elem; [|apply disk_within_refl].
    intros loc k Hk. apply fit_dataset_body_disk_within.
    apply elem_of_seqZ in Hk. lia. }
  - mrun. exact (proj2 Hloop).
  - mrun. exact (proj2 Hloop).
Qed.

(** ** The runs that stop on the name [train_loss] *)

Lemma mode_switches_train_calls evs :
  Forall (λ e, train_call e = true) evs → mode_switches evs = [].
Proof. apply flat_map_quiet. by intros []. Qed.

Lemma scheduler_steps_train_calls evs :
  Forall (λ e, train_call e = true) evs → scheduler_steps evs = [].
Proof. apply flat_map_quiet. by intros []. Qed.

(** With a scheduler, the first epoch trains and then stops at line 120. *)
Lemma fit_dataset_with_scheduler ds n_epochs nb sh vd sf pd w :
  is_Some (scheduler (self w)) →
  0 < n_epochs →
  trainable ds nb sh →
  ∃ w' evs,
    fit_dataset ds n_epochs nb sh vd sf pd w = (Raise (NameError "train_loss"), w')
    ∧ trace w' = trace w ++ [EvTrainMode true] ++ evs ++ [EvTrainMode false]
    ∧ Forall (λ e, train_call e = true) evs
    ∧ length (observed_losses evs) = length (DataLoader ds nb sh (rng w)).
Proof.
  intros [sch Hsch] Hn Hds. unfold fit_dataset, time. mrun.
  rewrite (seqZ_pos_cons 1 n_epochs Hn). simpl for_each. mrun.
  unfold fit_dataset_body at 1. mrun.
  destruct (fit_epoch_ok ds nb sh w (proj1 (Hds _)) (proj2 (Hds _))) as (w1 & evs & -> & Ht & Hev & Hl & Hs & Hm).
  mrun. rewrite Hs, Hsch. mrun. rewrite load_global_train_loss. mrun.
  by exists w1, evs.
Qed.

(** Without a validation dataset (and without a scheduler), the first
    epoch trains and then stops at line 128. *)
Lemma fit_dataset_without_validation ds n_epochs nb sh sf pd w :
  scheduler (self w) = None →
  0 < n_epochs →
  trainable ds nb sh →
  ∃ w' evs,
    fit_dataset ds n_epochs nb sh None sf pd w = (Raise (NameError "train_loss"), w')
    ∧ trace w' = trace w ++ [EvTrainMode true] ++ evs ++ [EvTrainMode false]
    ∧ Forall (λ e, train_call e = true) evs
    ∧ length (observed_losses evs) = length (DataLoader ds nb sh (rng w)).
Proof.
  intros Hsch Hn Hds. unfold fit_dataset, time. mrun.
  rewrite (seqZ_pos_cons 1 n_epochs Hn). simpl for_each. mrun.
  unfold fit_dataset_body at 1. mrun.
  destruct (fit_epoch_ok ds nb sh w (proj1 (Hds _)) (proj2 (Hds _))) as (w1 & evs & -> & Ht & Hev & Hl & Hs & Hm).
  mrun. rewrite Hs, Hsch. mrun. unfold checkpoint_best. mrun.
  rewrite load_global_train_loss. mrun.
  by exists w1, evs.
Qed.

Lemma inv_raise_bind {A C} I e (f : A → M C) : inv I (raise e ≫= f).
Proof. intros w Hw. exact Hw. Qed.

Lemma fit_dataset_scheduler_idle ds n_epochs nb sh vd sf pd w0 :
  inv (scheduler_idle w0) (fit_dataset ds n_epochs nb sh vd sf pd).
Proof.
  unfold fit_dataset.
  repeat lazymatch goal with
         | |- inv _ (load_global "train_loss" ≫= _) =>
             rewrite load_global_train_loss; apply inv_raise_bind
         | |- _ => inv_step
         end;
    intros ? ?; unfold scheduler_idle, scheduler_steps in *; simpl;
    rewrite ?flat_map_app; simpl; rewrite ?app_nil_r; assumption.
Qed.

(** Without a validation dataset nothing reaches the disk in any run. *)
Lemma checkpoint_best_none_raises n loc w :
  checkpoint_best None n loc w = (Raise (NameError "train_loss"), w).
Proof. unfold checkpoint_best. mrun. rewrite load_global_train_loss. by mrun. Qed.

Lemma fit_dataset_without_validation_disk_idle ds n_epochs nb sh sf pd w0 :
  inv (disk_idle w0) (fit_dataset ds n_epochs nb sh None sf pd).
Proof.
  unfold fit_dataset.
  repeat lazymatch goal with
         | |- inv _ (load_global "train_loss" ≫= _) =>
             rewrite load_global_train_loss; apply inv_raise_bind
         | |- inv _ (checkpoint_best None _ _ ≫= _) =>
             let w := fresh "w" in
             intros w ?; rewrite bind_run, checkpoint_best_none_raises; assumption
         | |- inv _ (fit_dataset_body _ _ _ _ _ _ _ _ _) => unfold fit_dataset_body
         | |- _ => inv_step
         end;
    intros ? ?; unfold disk_idle, disk in *; simpl;
    rewrite ?flat_map_app; simpl; rewrite ?app_nil_r; assumption.
Qed.

(** ** Which exceptions a method can raise *)

Lemma raises_only_ret {A} P (a : A) : raises_only P (mret a).
Proof. by intros w. Qed.

Lemma raises_only_raise {A} (P : exn → Prop) e : P e → raises_only P (raise (A := A) e).
Proof. by intros He w. Qed.

Lemma raises_only_gets {A} P (f : world → A) : raises_only P (gets f).
Proof. by intros w. Qed.

Lemma raises_only_modify P f : raises_only P (modify f).
Proof. by intros w. Qed.

Lemma raises_only_bind {A C} P (m : M A) (f : A → M C) :
  raises_only P m → (∀ a, raises_only P (f a)) → raises_only P (m ≫= f).
Proof.
  intros Hm Hf w. rewrite bind_run. specialize (Hm w).
  destruct (m w) as [[a|e] w1]; simpl in *; [apply Hf | exact Hm].
Qed.

Lemma raises_only_for_each {A S} P (body : S → A → M S) xs s :
  (∀ s x, raises_only P (body s x)) → raises_only P (for_each body xs s).
Proof.
  intros Hb. revert s. induction xs as [|x xs IH]; intros s; simpl.
  - apply raises_only_ret.
  - apply raises_only_bind; [apply Hb | intros s'; apply IH].
Qed.

Ltac raises_only_step :=
  lazymatch goal with
  | |- raises_only _ (_ ≫= _) => apply raises_only_bind; [|intros]
  | |- raises_only _ (mret _) => apply raises_only_ret
  | |- raises_only _ (raise _) => apply raises_only_raise; try discriminate
  | |- raises_only _ (gets _) => apply raises_only_gets
  | |- raises_only _ (modify _) => apply raises_only_modify
  | |- raises_only _ (for_each _ _ _) => apply raises_only_for_each; intros
  | |- raises_only _ (if Z.of_nat ?i + 1 =? 0 then _ else _) =>
      replace (Z.of_nat i + 1 =? 0) with false by (symmetry; apply Z.eqb_neq; lia)
  | |- raises_only _ (match ?x with _ => _ end) => destruct x
  | |- raises_only _ _ => progress autounfold with model
  end.

(** The batch count [batch_idx + 1] by which the epochs divide is never
    zero. *)
Lemma fit_epoch_no_zero_division ds n sh :
  raises_only (λ e, e ≠ ZeroDivisionError) (fit_epoch ds n sh).
Proof. repeat raises_only_step. Qed.

Lemma val_epoch_no_zero_division ds n :
  raises_only (λ e, e ≠ ZeroDivisionError) (val_epoch ds n).
Proof. repeat raises_only_step. Qed.

(** ** The claims *)

Lemma observed_losses_app t1 t2 :
  observed_losses (t1 ++ t2) = observed_losses t1 ++ observed_losses t2.
Proof. apply flat_map_app. Qed.

Lemma mode_switches_app t1 t2 :
  mode_switches (t1 ++ t2) = mode_switches t1 ++ mode_switches t2.
Proof. apply flat_map_app. Qed.

Lemma scheduler_steps_app t1 t2 :
  scheduler_steps (t1 ++ t2) = scheduler_steps t1 ++ scheduler_steps t2.
Proof. apply flat_map_app. Qed.




(** C1.  [fit_dataset] never steps the scheduler, in no run and with no
    signal.  With a scheduler configured, the first epoch runs its
    [fit_epoch] over all the batches, and the call of line 120 then stops
    on the name [train_loss], which nothing binds, before the scheduler is
    reached. *)
Theorem fit_dataset_scheduler_not_stepped ds n_epochs nb sh vd sf pd w :
  scheduler_steps (trace (fit_dataset ds n_epochs nb sh vd sf pd w).2)
  = scheduler_steps (trace w)
  ∧ (is_Some (scheduler (self w)) →
     0 < n_epochs →
     trainable ds nb sh →
     ∃ w',
       fit_dataset ds n_epochs nb sh vd sf pd w = (Raise (NameError "train_loss"), w')
       ∧ length (observed_losses (trace w'))
         = (length (observed_losses (trace w)) + length (DataLoader ds nb sh (rng w)))%nat
       ∧ mode_switches (trace w') = mode_switches (trace w) ++ [true; false]).
Proof.
  split; [by apply (fit_dataset_scheduler_idle ds n_epochs nb sh vd sf pd w w)|].
  intros Hsch Hn Hds.
  destruct (fit_dataset_with_scheduler ds n_epochs nb sh vd sf pd w Hsch Hn Hds)
    as (w' & evs & Hrun & Ht & Hev & Hl).
  exists w'. split; [exact Hrun|]. rewrite Ht.
  rewrite !observed_losses_app, !mode_switches_app.
  rewrite (mode_switches_train_calls _ Hev).
  simpl. rewrite !length_app, Hl, ?app_nil_r. simpl. split; [lia|done].
Qed.

(** C2.  Without a validation dataset, [fit_dataset] writes no checkpoint
    in any run.  The first epoch trains, and the comparison of line 128
    then stops on the name [train_loss], which nothing binds (with a
    scheduler, line 120 has stopped on it already): [best_model] is not
    written although the training loss of the epoch is below the infinite
    initial best. *)
Theorem fit_dataset_without_validation_stops ds n_epochs nb sh sf pd w :
  disk (trace (fit_dataset ds n_epochs nb sh None sf pd w).2) = disk (trace w)
  ∧ (0 < n_epochs →
     trainable ds nb sh →
     ∃ w',
       fit_dataset ds n_epochs nb sh None sf pd w = (Raise (NameError "train_loss"), w')
       ∧ length (observed_losses (trace w'))
         = (length (observed_losses (trace w)) + length (DataLoader ds nb sh (rng w)))%nat
       ∧ mode_switches (trace w') = mode_switches (trace w) ++ [true; false]).
Proof.
  split; [by apply (fit_dataset_without_validation_disk_idle ds n_epochs nb sh sf pd w w)|].
  intros Hn Hds.
  assert (∃ w' evs,
    fit_dataset ds n_epochs nb sh None sf pd w = (Raise (NameError "train_loss"), w')
    ∧ trace w' = trace w ++ [EvTrainMode true] ++ evs ++ [EvTrainMode false]
    ∧ Forall (λ e, train_call e = true) evs
    ∧ length (observed_losses evs) = length (DataLoader ds nb sh (rng w)))
    as (w' & evs & Hrun & Ht & Hev & Hl).
  { destruct (scheduler (self w)) eqn:Hsch.
    - by apply fit_dataset_with_scheduler; [rewrite Hsch; eauto|..].
    - by apply fit_dataset_without_validation. }
  exists w'. split; [exact Hrun|]. rewrite Ht.
  rewrite !observed_losses_app, !mode_switches_app.
  rewrite (mode_switches_train_calls _ Hev).
  simpl. rewrite !length_app, Hl, ?app_nil_r. simpl. split; [lia|done].
Qed.

(** C3.  On a dataset that yields B >= 1 batches of an input and a target,
    [fit_epoch] returns, under the key [train_loss] and no other, the sum
    of the B loss values observed during the call divided by B. *)
Theorem fit_epoch_returns_mean ds n sh w :
  (1 ≤ length (DataLoader ds n sh (rng w)))%nat →
  Forall xy_batch (DataLoader ds n sh (rng w)) →
  ∃ w' losses,
    fit_epoch ds n sh w = (Ok {[ "train_loss" := VNum (arithmetic_mean losses) ]}, w')
    ∧ observed_losses (trace w') = observed_losses (trace w) ++ losses
    ∧ length losses = length (DataLoader ds n sh (rng w)).
Proof.
  intros HB Hxy.
  assert (Hne : DataLoader ds n sh (rng w) ≠ [])
    by (destruct (DataLoader ds n sh (rng w)); [simpl in HB; lia | done]).
  destruct (fit_epoch_ok ds n sh w Hne Hxy) as (w' & evs & Hrun & Ht & Hev & Hl & _).
  exists w', (observed_losses evs). unfold arithmetic_mean.
  split; [rewrite Hl; exact Hrun|]. split; [|exact Hl].
  rewrite Ht, !observed_losses_app. simpl. by rewrite app_nil_r.
Qed.

(** C4 (amended).  For a batch size of at least one: on a dataset that
    is not shuffled and yields no batch, [fit_epoch] and [val_epoch]
    return no result: both stop on the local variable [X_batch], which
    the loop never bound, at [del X_batch, y_batch], before the division
    is reached.  On no pass that the loader gives, not shuffled or of at
    least one batch, does either of them fail by a division by zero.
    (A shuffled pass over an empty dataset and a batch size below one are
    refused by [DataLoader] itself, at line 60, before the loop: such
    calls are outside the statement.) *)
Theorem empty_dataset_unbound_local ds n sh w :
  1 ≤ n →
  (DataLoader ds n sh (rng w) ≠ [] ∨ sh = false →
   (fit_epoch ds n sh w).1 ≠ Raise ZeroDivisionError)
  ∧ (val_epoch ds n w).1 ≠ Raise ZeroDivisionError
  ∧ (DataLoader ds n false (rng w) = [] →
     (fit_epoch ds n false w).1 = Raise (UnboundLocalError "X_batch")
     ∧ (val_epoch ds n w).1 = Raise (UnboundLocalError "X_batch")).
Proof.
  intros _. split; [|split].
  - intros _. pose proof (fit_epoch_no_zero_division ds n sh w) as Hr.
    destruct (fit_epoch ds n sh w).1; [done | congruence].
  - pose proof (val_epoch_no_zero_division ds n w) as Hr.
    destruct (val_epoch ds n w).1; [done | congruence].
  - intros He. split; [by apply fit_epoch_empty | by apply val_epoch_empty].
Qed.


Lemma image_paths_app t1 t2 : image_paths (t1 ++ t2) = image_paths t1 ++ image_paths t2.
Proof. apply flat_map_app. Qed.

(** C6 (amended).  On a dataset whose batches have an element after the
    input, [predict_dataset] writes one image file per sample, in order,
    into the export directory: under the first string of the element that
    directly follows the input when that element holds strings, and
    otherwise (a tensor follows the input, wherever an identifier may come
    later) under the 1-indexed position padded with zeros to 3 digits,
    with the extension .png. *)
Theorem predict_dataset_file_names ds export w :
  Forall named_or_plain (DataLoader ds 1 false (rng w)) →
  ∃ w',
    predict_dataset ds export w = (Ok tt, w')
    ∧ image_paths (trace w')
      = image_paths (trace w)
        ++ map (λ ib, path_join export (written_filename ib))
               (enumerate (DataLoader ds 1 false (rng w))).
Proof.
  intros Hb.
  destruct (predict_dataset_ok ds export w Hb) as (w' & evs & Hrun & Ht & _ & Hp & _).
  exists w'. split; [exact Hrun|].
  rewrite Ht, !image_paths_app, Hp. reflexivity.
Qed.

(** C7.  Whatever the arguments and the outcome, the only directories
    [fit_dataset] makes are the numbered folders of epochs that a non-zero
    [save_freq] divides, the only checkpoints it writes besides
    [best_model] and [latest_model] are the models in them, and with
    [save_freq] zero it makes and writes none of them.  When the epochs
    run through (validation dataset, no scheduler, datasets of input-target
    batches), each epoch whose index [save_freq] divides makes its
    numbered folder and saves the model into it, and no other epoch
    does. *)
Theorem numbered_checkpoint_every_save_freq ds n_epochs nb sh vd sf pd w :
  (∃ ops,
     disk (trace (fit_dataset ds n_epochs nb sh vd sf pd w).2) = disk (trace w) ++ ops
     ∧ Forall (allowed_op (checkpoint_folder (self w)) sf n_epochs) ops
     ∧ (sf = 0 → Forall (fixed_checkpoint (checkpoint_folder (self w))) ops))
  ∧ (scheduler (self w) = None →
     trainable ds nb sh →
     (∃ v, vd = Some v ∧ trainable v nb false) →
     predictable pd →
     ∃ rows flags w',
       fit_dataset ds n_epochs nb sh vd sf pd w = (Ok rows, w')
       ∧ length flags = Z.to_nat n_epochs
       ∧ disk (trace w')
         = disk (trace w)
           ++ flat_map (epoch_disk (checkpoint_folder (self w)) sf (predicting pd))
                       (zip (seqZ 1 n_epochs) flags)).
Proof.
  split.
  - destruct (fit_dataset_disk ds n_epochs nb sh vd sf pd w) as (ops & Hd & Hf).
    exists ops. split; [exact Hd|]. split; [exact Hf|].
    intros ->. eapply Forall_impl; [exact Hf|].
    intros o [Ho|[Ho|(k & _ & Hsf & _)]]; [by left | by right | done].
  - intros Hsch Hds (v & -> & Hvd) Hp.
    destruct (fit_dataset_ok ds n_epochs nb sh v sf pd w Hsch Hds Hvd Hp)
      as (rows & L & w' & Hrun & _ & Hlen & Hd & _).
    exists rows, (improvements num_inf L), w'. split; [exact Hrun|].
    split; [|exact Hd].
    rewrite <- Hlen. clear. generalize num_inf.
    induction L as [|x L IH]; intros m; simpl; [done|]. by rewrite IH.
Qed.

(** C8.  Whatever the dataset and the outcome, [val_epoch] leaves the
    parameters of the network, its gradients and the optimizer as they
    were, and makes no [zero_grad], [backward] or optimizer [step] call. *)
Theorem val_epoch_keeps_parameters ds n w :
  net_params (val_epoch ds n w).2 = net_params w
  ∧ net_grads (val_epoch ds n w).2 = net_grads w
  ∧ opt_state (val_epoch ds n w).2 = opt_state w
  ∧ update_calls (trace (val_epoch ds n w).2) = update_calls (trace w).
Proof. by apply (val_epoch_same_parameters ds n w w). Qed.

Lemma init_run cf sch dev w :
  init cf sch dev w
  = (Ok tt,
     set_trace (trace w ++ [EvMkdir cf; EvNetTo dev; EvLossTo dev])
       (set_net_params (params_to dev (net_params w))
          (set_self {| net := the_net; loss := the_loss; optimizer := the_optimizer;
                       scheduler := sch; checkpoint_folder := cf; device := dev;
                       logger := None |} w))).
Proof.
  unfold init. mrun. unfold emit. mrun. simpl. by rewrite <- !app_assoc.
Qed.

(** C9 (amended).  Construction sets the six attributes of the instance
    and moves the network and the loss to the device.  [fit_epoch],
    [val_epoch], [predict_dataset] and [predict_batch] add or change no
    attribute, whatever the outcome.  [fit_dataset], when it returns, has
    set the attribute [logger] to the log collection it returns and
    changed no other; when it fails it has changed none. *)
Theorem only_fit_dataset_sets_logger cf sch dev ds n_epochs n sh vd sf pd export X w :
  (self (init cf sch dev w).2
   = {| net := the_net; loss := the_loss; optimizer := the_optimizer;
        scheduler := sch; checkpoint_folder := cf; device := dev; logger := None |}
   ∧ net_params (init cf sch dev w).2 = params_to dev (net_params w)
   ∧ trace (init cf sch dev w).2 = trace w ++ [EvMkdir cf; EvNetTo dev; EvLossTo dev])
  ∧ self (fit_epoch ds n sh w).2 = self w
  ∧ self (val_epoch ds n w).2 = self w
  ∧ self (predict_dataset ds export w).2 = self w
  ∧ self (predict_batch X w).2 = self w
  ∧ match fit_dataset ds n_epochs n sh vd sf pd w with
    | (Ok rows, w') => self w' = set_logger rows (self w)
    | (Raise _, w') => self w' = self w
    end.
Proof.
  split; [by rewrite init_run|].
  split; [by apply (fit_epoch_same_self ds n sh w w)|].
  split; [by apply (val_epoch_same_self ds n w w)|].
  split; [by apply (predict_dataset_same_self ds export w w)|].
  split; [by apply (predict_batch_same_self X w w)|].
  apply fit_dataset_self.
Qed.

(** C10 (amended).  [fit_epoch], when it returns, has switched the network
    to training mode once, at its start, and back to evaluation mode once,
    after its loop, and leaves it in evaluation mode.  [val_epoch],
    [predict_dataset] and [predict_batch] switch to evaluation mode once
    and leave the network in it, whatever the outcome.  [fit_dataset],
    when it returns from a run of at least one epoch, leaves the network
    in evaluation mode. *)
Theorem methods_leave_eval_mode ds n_epochs n sh vd sf pd export X w :
  match fit_epoch ds n sh w with
  | (Ok _, w') =>
      net_training w' = false
      ∧ mode_switches (trace w') = mode_switches (trace w) ++ [true; false]
  | (Raise _, _) => True
  end
  ∧ eval_mode_since w (val_epoch ds n w).2
  ∧ eval_mode_since w (predict_dataset ds export w).2
  ∧ eval_mode_since w (predict_batch X w).2
  ∧ (0 < n_epochs → returns_in_eval_mode (fit_dataset ds n_epochs n sh vd sf pd) w).
Proof.
  split; [apply fit_epoch_mode|].
  split; [apply val_epoch_eval_mode|].
  split; [apply predict_dataset_eval_mode|].
  split; [apply predict_batch_eval_mode|].
  intros Hn. apply (fit_dataset_eval_mode ds n_epochs n sh vd sf pd Hn w).
Qed.

(** * Further properties of the methods *)

(** ** [fit_epoch] as a function of the batches *)

Lemma forwarded_app t1 t2 : forwarded (t1 ++ t2) = forwarded t1 ++ forwarded t2.
Proof. apply flat_map_app. Qed.

Lemma update_calls_app t1 t2 :
  update_calls (t1 ++ t2) = update_calls t1 ++ update_calls t2.
Proof. apply flat_map_app. Qed.

Lemma metric_calls_app t1 t2 :
  metric_calls (t1 ++ t2) = metric_calls t1 ++ metric_calls t2.
Proof. apply flat_map_app. Qed.

(** The statements after the batch loops only read variables. *)
Lemma epoch_tail_pure {A} (loc : epoch_locals) (k : Num → M A) w :
  (∀ x w', (k x w').2 = w') →
  ((load_local "X_batch" (X_batch loc);;
    load_local "y_batch" (y_batch loc);;
    idx ← load_local "batch_idx" (batch_idx loc);
    mean ← py_div (running_loss loc) (Z.of_nat idx + 1);
    k mean) w).2 = w.
Proof.
  intros Hk. unfold load_local, py_div.
  destruct (X_batch loc), (y_batch loc), (batch_idx loc) as [idx|]; mrun; try done.
  destruct (Z.of_nat idx + 1 =? 0); mrun; [done | apply Hk].
Qed.

(** One training batch. *)
Lemma fit_epoch_body_calls loc k X y rest w :
  ∃ loc1 w1,
    fit_epoch_body loc (k, FTensor X :: FTensor y :: rest) w = (Ok loc1, w1)
    ∧ trace w1 = trace w ++ [EvZeroGrad; EvForward (tensor_to (device (self w)) X);
                             EvLoss (loss_item
                                       (net_call (net_params w) (net_training w)
                                                 (tensor_to (device (self w)) X))
                                       (tensor_to (device (self w)) y));
                             EvBackward; EvOptStep]
    ∧ self w1 = self w
    ∧ rng w1 = rng w
    ∧ net_training w1 = net_training w.
Proof.
  eexists _, _. split; [reflexivity|]. simpl.
  repeat split. by rewrite <- !app_assoc.
Qed.

(** The batch loop of [fit_epoch] on batches of an input and a target. *)
Lemma fit_loop_calls (bs : list (list (field Tensor))) :
  Forall xy_batch bs →
  ∀ (k : nat) (loc : epoch_locals) (w : world),
  ∃ loc' w' evs,
    for_each fit_epoch_body (zip (seq k (length bs)) bs) loc w = (Ok loc', w')
    ∧ trace w' = trace w ++ evs
    ∧ update_calls evs = batch_updates (length bs)
    ∧ forwarded evs = tensor_to (device (self w)) <$> inputs_of bs
    ∧ mode_switches evs = []
    ∧ self w' = self w
    ∧ rng w' = rng w
    ∧ net_training w' = net_training w.
Proof.
  induction 1 as [|b bs (X & y & rest & ->) _ IH]; intros k loc w.
  - exists loc, w, []. simpl. rewrite app_nil_r. by repeat split.
  - simpl zip. simpl for_each. rewrite bind_run.
    destruct (fit_epoch_body_calls loc k X y rest w)
      as (loc1 & w1 & -> & Ht1 & Hs1 & Hr1 & Hm1).
    destruct (IH (S k) loc1 w1)
      as (loc' & w' & evs & -> & Ht & Hu & Hf & Hmo & Hs & Hr & Hm).
    eexists loc', w', (_ ++ evs). split; [reflexivity|].
    split; [rewrite Ht, Ht1, <- app_assoc; reflexivity|].
    rewrite update_calls_app, forwarded_app, mode_switches_app, Hu, Hf, Hmo, Hs1.
    repeat split; try congruence.
Qed.

(** One training batch, as a step on parameters, gradients and
    optimizer. *)
Lemma fit_epoch_body_trains loc k X y rest w :
  net_training w = true →
  ∃ w1,
    fit_epoch_body loc (k, FTensor X :: FTensor y :: rest) w
    = (Ok {| running_loss :=
               num_add (running_loss loc)
                 (loss_item (net_call (net_params w) true
                                      (tensor_to (device (self w)) X))
                            (tensor_to (device (self w)) y));
             batch_idx := Some k;
             X_batch := Some (tensor_to (device (self w)) X);
             y_batch := Some (tensor_to (device (self w)) y) |}, w1)
    ∧ observed_losses (trace w1)
      = observed_losses (trace w)
        ++ [loss_item (net_call (net_params w) true (tensor_to (device (self w)) X))
                      (tensor_to (device (self w)) y)]
    ∧ self w1 = self w
    ∧ rng w1 = rng w
    ∧ net_training w1 = true
    ∧ metric_state w1 = metric_state w
    ∧ (net_params w1, net_grads w1, opt_state w1)
      = train_step (device (self w)) (net_params w, net_grads w, opt_state w)
                   (FTensor X :: FTensor y :: rest).
Proof.
  destruct w as [s p m g o ms r t]. simpl. intros ->.
  eexists _. split; [reflexivity|]. simpl.
  rewrite !observed_losses_app. simpl. rewrite !app_nil_r.
  repeat split.
Qed.

Lemma fit_loop_trains (bs : list (list (field Tensor))) :
  Forall xy_batch bs →
  ∀ (k : nat) (loc : epoch_locals) (w : world),
  net_training w = true →
  ∃ loc' w',
    for_each fit_epoch_body (zip (seq k (length bs)) bs) loc w = (Ok loc', w')
    ∧ observed_losses (trace w')
      = observed_losses (trace w)
        ++ train_losses (device (self w)) (net_params w, net_grads w, opt_state w) bs
    ∧ running_loss loc'
      = foldl num_add (running_loss loc)
              (train_losses (device (self w)) (net_params w, net_grads w, opt_state w) bs)
    ∧ length (train_losses (device (self w)) (net_params w, net_grads w, opt_state w) bs)
      = length bs
    ∧ self w' = self w
    ∧ rng w' = rng w
    ∧ net_training w' = true
    ∧ metric_state w' = metric_state w
    ∧ (net_params w', net_grads w', opt_state w')
      = foldl (train_step (device (self w))) (net_params w, net_grads w, opt_state w) bs
    ∧ (bs = [] → loc' = loc)
    ∧ (bs ≠ [] → batch_idx loc' = Some (k + length bs - 1)%nat
                 ∧ is_Some (X_batch loc') ∧ is_Some (y_batch loc')).
Proof.
  induction 1 as [|b bs (X & y & rest & ->) _ IH]; intros k loc w Hm.
  - exists loc, w. simpl. rewrite app_nil_r. by repeat split.
  - simpl zip. simpl for_each. rewrite bind_run.
    destruct (fit_epoch_body_trains loc k X y rest w Hm)
      as (w1 & -> & Ht1 & Hs1 & Hr1 & Hm1 & Hms1 & Hst1).
    match goal with |- context [for_each _ _ ?l w1] =>
      destruct (IH (S k) l w1 Hm1)
        as (loc' & w' & -> & Ht & Hr & Hl & Hs & Hrng & Hm' & Hms & Hst & Hnil & Hi)
    end.
    rewrite Hs1, Hst1 in Ht, Hr, Hl, Hst.
    exists loc', w'. split; [reflexivity|].
    split; [rewrite Ht, Ht1, <- app_assoc; reflexivity|].
    split; [exact Hr|].
    split; [simpl length; simpl length in Hl; rewrite Hl; reflexivity|].
    split; [congruence|]. split; [congruence|]. split; [done|].
    split; [congruence|]. split; [exact Hst|]. split; [done|].
    intros _. destruct bs as [|b' bs'].
    + rewrite (Hnil eq_refl). simpl. replace (k + 1 - 1)%nat with k by lia. eauto.
    + destruct Hi as (Hi & HX & Hy); [done|]. rewrite Hi. repeat split; try done.
      f_equal. simpl. lia.
Qed.

(** [fit_epoch] as a function of the batches of the pass. *)
Lemma fit_epoch_result ds n sh w :
  DataLoader ds n sh (rng w) ≠ [] →
  Forall xy_batch (DataLoader ds n sh (rng w)) →
  ∃ w',
    fit_epoch ds n sh w
    = (Ok {[ "train_loss" :=
               VNum (arithmetic_mean
                       (train_losses (device (self w))
                                     (net_params w, net_grads w, opt_state w)
                                     (DataLoader ds n sh (rng w)))) ]}, w')
    ∧ (net_params w', net_grads w', opt_state w')
      = foldl (train_step (device (self w))) (net_params w, net_grads w, opt_state w)
              (DataLoader ds n sh (rng w))
    ∧ observed_losses (trace w')
      = observed_losses (trace w)
        ++ train_losses (device (self w)) (net_params w, net_grads w, opt_state w)
                        (DataLoader ds n sh (rng w))
    ∧ net_training w' = false
    ∧ metric_state w' = metric_state w
    ∧ self w' = self w
    ∧ rng w' = rng_after ds n sh (rng w).
Proof.
  intros Hne Hxy. unfold fit_epoch, enumerate. mrun. simpl (rng _).
  match goal with |- context [for_each _ _ ?l ?w1] =>
    destruct (fit_loop_trains _ Hxy 0%nat l w1 eq_refl)
      as (loc' & w' & -> & Ht & Hr & Hl & Hs & Hrng & Hm & Hms & Hst & _ & Hi)
  end.
  destruct (Hi Hne) as (Hidx & [X HX] & [y Hy]). simpl in Hidx.
  mrun. rewrite HX, Hy, Hidx. unfold py_div.
  assert (Hlen : Z.of_nat (length (DataLoader ds n sh (rng w)) - 1) + 1
                 = Z.of_nat (length (DataLoader ds n sh (rng w)))).
  { destruct (DataLoader ds n sh (rng w)); [done | simpl length; lia]. }
  simpl load_local. mrun. rewrite Hlen.
  destruct (Z.eqb_spec (Z.of_nat (length (DataLoader ds n sh (rng w)))) 0) as [H0|_].
  { destruct (DataLoader ds n sh (rng w)); [done | simpl length in H0; lia]. }
  mrun. eexists. simpl in Hr, Hl, Hst, Ht, Hs, Hrng, Hms.
  split; [unfold arithmetic_mean; rewrite Hl, <- Hr; reflexivity|]. simpl.
  split; [exact Hst|]. rewrite observed_losses_app, Ht, observed_losses_app. simpl.
  rewrite !app_nil_r. repeat split; try done.
Qed.

(** X1 ([fit_epoch], lines 55-79).  On a pass of at least one batch, each
    of an input and a target, [fit_epoch] returns the mean of the losses
    of the batches, the loss of a batch being that of the network in
    training mode with the parameters that the optimizer steps on the
    batches before it have left.  Parameters, gradients and optimizer end
    as lines 66-70 applied to the batches in the order of the pass; the
    network ends in evaluation mode, the metric aggregator is untouched
    and the random generator has advanced by one pass. *)
Theorem fit_epoch_trains_in_order ds n sh w :
  DataLoader ds n sh (rng w) ≠ [] →
  Forall xy_batch (DataLoader ds n sh (rng w)) →
  ∃ w',
    fit_epoch ds n sh w
    = (Ok {[ "train_loss" :=
               VNum (arithmetic_mean
                       (train_losses (device (self w))
                                     (net_params w, net_grads w, opt_state w)
                                     (DataLoader ds n sh (rng w)))) ]}, w')
    ∧ (net_params w', net_grads w', opt_state w')
      = foldl (train_step (device (self w))) (net_params w, net_grads w, opt_state w)
              (DataLoader ds n sh (rng w))
    ∧ net_training w' = false
    ∧ metric_state w' = metric_state w
    ∧ rng w' = rng_after ds n sh (rng w).
Proof.
  intros Hne Hxy.
  destruct (fit_epoch_result ds n sh w Hne Hxy)
    as (w' & Hrun & Hst & _ & Hm & Hms & _ & Hr).
  exists w'. by repeat split.
Qed.

(** X2 ([fit_epoch], lines 56-73).  On a pass that the loader gives (a
    batch size of at least one, and either a pass of at least one batch
    or a dataset that is not shuffled, so also the pass without batches
    over an empty dataset that is not shuffled), and whatever the
    outcome, a pass over batches of an input and a target makes, per
    batch and in this order, one [zero_grad], one [backward] and one
    optimizer [step] call; the network is called once per batch, on the
    input moved to the device, in the order of the pass; the mode is
    switched to training and then to evaluation; the random generator
    advances by one pass. *)
Theorem fit_epoch_calls_per_batch ds n sh w :
  1 ≤ n →
  DataLoader ds n sh (rng w) ≠ [] ∨ sh = false →
  Forall xy_batch (DataLoader ds n sh (rng w)) →
  update_calls (trace (fit_epoch ds n sh w).2)
  = update_calls (trace w) ++ batch_updates (length (DataLoader ds n sh (rng w)))
  ∧ forwarded (trace (fit_epoch ds n sh w).2)
    = forwarded (trace w)
      ++ (tensor_to (device (self w)) <$> inputs_of (DataLoader ds n sh (rng w)))
  ∧ mode_switches (trace (fit_epoch ds n sh w).2) = mode_switches (trace w) ++ [true; false]
  ∧ rng (fit_epoch ds n sh w).2 = rng_after ds n sh (rng w).
Proof.
  intros _ _ Hxy. unfold fit_epoch, enumerate. mrun. simpl (rng _).
  match goal with |- context [for_each _ _ ?l ?w1] =>
    destruct (fit_loop_calls _ Hxy 0%nat l w1)
      as (loc' & w' & evs & -> & Ht & Hu & Hf & Hmo & Hs & Hr & Hm)
  end.
  cbv beta iota. rewrite bind_run, net_train_run. cbv beta iota.
  rewrite epoch_tail_pure by done. simpl.
  rewrite Ht. simpl.
  rewrite !update_calls_app, !forwarded_app, !mode_switches_app, Hu, Hf, Hmo. simpl.
  rewrite !app_nil_r, <- ?app_assoc. repeat split; try done; try (by rewrite Hr).
Qed.

(** A batch that is not an input and a target stops before any call. *)
Lemma fit_epoch_body_shape_error loc k b e w :
  shape_error b = Some e → fit_epoch_body loc (k, b) w = (Raise e, w).
Proof.
  destruct b as [|[X|l] [|[y|l'] rest]]; simpl; intros [= <-]; reflexivity.
Qed.

Lemma fit_loop_stops (good : list (list (field Tensor))) bad rest e :
  Forall xy_batch good →
  shape_error bad = Some e →
  ∀ (k : nat) (loc : epoch_locals) (w : world),
  ∃ w' evs,
    for_each fit_epoch_body
      (zip (seq k (length (good ++ bad :: rest))) (good ++ bad :: rest)) loc w
    = (Raise e, w')
    ∧ trace w' = trace w ++ evs
    ∧ update_calls evs = batch_updates (length good)
    ∧ mode_switches evs = []
    ∧ net_training w' = net_training w.
Proof.
  intros Hgood Hbad. induction Hgood as [|b bs (X & y & tl & ->) _ IH]; intros k loc w.
  - simpl. rewrite bind_run, (fit_epoch_body_shape_error _ _ _ _ _ Hbad).
    exists w, []. rewrite app_nil_r. by repeat split.
  - simpl app. simpl length. simpl zip. simpl for_each. rewrite bind_run.
    destruct (fit_epoch_body_calls loc k X y tl w)
      as (loc1 & w1 & -> & Ht1 & Hs1 & Hr1 & Hm1).
    destruct (IH (S k) loc1 w1) as (w' & evs & -> & Ht & Hu & Hmo & Hm).
    eexists w', (_ ++ evs). split; [reflexivity|].
    split; [rewrite Ht, Ht1, <- app_assoc; reflexivity|].
    rewrite update_calls_app, mode_switches_app, Hu, Hmo.
    repeat split; try congruence.
Qed.

Lemma fit_epoch_stops ds n sh good bad rest e w :
  DataLoader ds n sh (rng w) = good ++ bad :: rest →
  Forall xy_batch good →
  shape_error bad = Some e →
  ∃ w',
    fit_epoch ds n sh w = (Raise e, w')
    ∧ net_training w' = true
    ∧ mode_switches (trace w') = mode_switches (trace w) ++ [true]
    ∧ update_calls (trace w') = update_calls (trace w) ++ batch_updates (length good).
Proof.
  intros Hbs Hgood Hbad. unfold fit_epoch, enumerate. mrun. simpl (rng _). rewrite Hbs.
  match goal with |- context [for_each _ _ ?l ?w1] =>
    destruct (fit_loop_stops good bad rest e Hgood Hbad 0%nat l w1)
      as (w' & evs & -> & Ht & Hu & Hmo & Hm)
  end.
  exists w'. split; [reflexivity|]. simpl in *.
  split; [exact Hm|]. rewrite Ht.
  rewrite !update_calls_app, !mode_switches_app, Hu, Hmo. simpl.
  by rewrite !app_nil_r.
Qed.

(** The batch loop of [fit_epoch] up to a batch that is no input and
    target. *)
Lemma fit_loop_stops_trains (good : list (list (field Tensor))) bad rest e :
  Forall xy_batch good →
  shape_error bad = Some e →
  ∀ (k : nat) (loc : epoch_locals) (w : world),
  net_training w = true →
  ∃ w',
    for_each fit_epoch_body
      (zip (seq k (length (good ++ bad :: rest))) (good ++ bad :: rest)) loc w
    = (Raise e, w')
    ∧ (net_params w', net_grads w', opt_state w')
      = foldl (train_step (device (self w))) (net_params w, net_grads w, opt_state w) good
    ∧ observed_losses (trace w')
      = observed_losses (trace w)
        ++ train_losses (device (self w)) (net_params w, net_grads w, opt_state w) good.
Proof.
  intros Hgood Hbad. induction Hgood as [|b bs (X & y & tl & ->) _ IH]; intros k loc w Hm.
  - simpl. rewrite bind_run, (fit_epoch_body_shape_error _ _ _ _ _ Hbad).
    exists w. by rewrite app_nil_r.
  - simpl app. simpl length. simpl zip. simpl for_each. rewrite bind_run.
    destruct (fit_epoch_body_trains loc k X y tl w Hm)
      as (w1 & -> & Ht1 & Hs1 & Hr1 & Hm1 & Hms1 & Hst1).
    match goal with |- context [for_each _ _ ?l w1] =>
      destruct (IH (S k) l w1 Hm1) as (w' & -> & Hst & Ht)
    end.
    rewrite Hs1, Hst1 in Hst, Ht.
    exists w'. split; [reflexivity|]. split; [exact Hst|].
    rewrite Ht, Ht1, <- app_assoc. reflexivity.
Qed.

Lemma fit_epoch_stops_trains ds n sh good bad rest e w :
  DataLoader ds n sh (rng w) = good ++ bad :: rest →
  Forall xy_batch good →
  shape_error bad = Some e →
  ∃ w',
    fit_epoch ds n sh w = (Raise e, w')
    ∧ (net_params w', net_grads w', opt_state w')
      = foldl (train_step (device (self w))) (net_params w, net_grads w, opt_state w) good
    ∧ observed_losses (trace w')
      = observed_losses (trace w)
        ++ train_losses (device (self w)) (net_params w, net_grads w, opt_state w) good.
Proof.
  intros Hbs Hgood Hbad. unfold fit_epoch, enumerate. mrun. simpl (rng _). rewrite Hbs.
  match goal with |- context [for_each _ _ ?l ?w1] =>
    destruct (fit_loop_stops_trains good bad rest e Hgood Hbad 0%nat l w1 eq_refl)
      as (w' & -> & Hst & Ht)
  end.
  exists w'. split; [reflexivity|]. simpl in *. split; [exact Hst|].
  rewrite Ht, observed_losses_app. simpl. by rewrite app_nil_r.
Qed.

(** X3 ([fit_epoch], lines 60-73).  When the pass yields a batch that
    is no input and target (fewer than two elements, or a list of strings
    in the place of one of the two tensors), [fit_epoch] stops there with
    the exception of the loop target or of [.to]: the steps on the
    batches before it are kept, no later batch is touched, and the
    network stays in training mode, line 73 not being reached. *)
Theorem fit_epoch_stops_at_malformed_batch ds n sh good bad rest e w :
  DataLoader ds n sh (rng w) = good ++ bad :: rest →
  Forall xy_batch good →
  shape_error bad = Some e →
  ∃ w',
    fit_epoch ds n sh w = (Raise e, w')
    ∧ (net_params w', net_grads w', opt_state w')
      = foldl (train_step (device (self w))) (net_params w, net_grads w, opt_state w) good
    ∧ update_calls (trace w') = update_calls (trace w) ++ batch_updates (length good)
    ∧ net_training w' = true
    ∧ mode_switches (trace w') = mode_switches (trace w) ++ [true].
Proof.
  intros Hbs Hgood Hbad.
  destruct (fit_epoch_stops ds n sh good bad rest e w Hbs Hgood Hbad)
    as (w' & Hrun & Hm & Hmo & Hu).
  destruct (fit_epoch_stops_trains ds n sh good bad rest e w Hbs Hgood Hbad)
    as (w'' & Hrun' & Hst & _).
  rewrite Hrun in Hrun'. injection Hrun' as <-.
  exists w'. by repeat split.
Qed.

(** ** [val_epoch] as a function of the batches *)

(** One validation batch. *)
Lemma val_epoch_body_calls loc k X y rest w :
  ∃ w1,
    val_epoch_body loc (k, FTensor X :: FTensor y :: rest) w
    = (Ok {| running_loss :=
               num_add (running_loss loc)
                 (loss_item (net_call (net_params w) (net_training w)
                                      (tensor_to (device (self w)) X))
                            (tensor_to (device (self w)) y));
             batch_idx := Some k;
             X_batch := Some (tensor_to (device (self w)) X);
             y_batch := Some (tensor_to (device (self w)) y) |}, w1)
    ∧ trace w1 = trace w ++ [EvForward (tensor_to (device (self w)) X);
                             EvLoss (loss_item
                                       (net_call (net_params w) (net_training w)
                                                 (tensor_to (device (self w)) X))
                                       (tensor_to (device (self w)) y));
                             EvMetricUpdate]
    ∧ self w1 = self w
    ∧ rng w1 = rng w
    ∧ net_params w1 = net_params w
    ∧ net_training w1 = net_training w
    ∧ metric_state w1
      = metric_update (net_call (net_params w) (net_training w)
                                (tensor_to (device (self w)) X))
                      (tensor_to (device (self w)) y) (metric_state w).
Proof.
  eexists _. split; [reflexivity|]. simpl.
  repeat split. by rewrite <- !app_assoc.
Qed.

Lemma val_loop_calls (bs : list (list (field Tensor))) :
  Forall xy_batch bs →
  ∀ (k : nat) (loc : epoch_locals) (w : world),
  ∃ loc' w' evs,
    for_each val_epoch_body (zip (seq k (length bs)) bs) loc w = (Ok loc', w')
    ∧ trace w' = trace w ++ evs
    ∧ metric_calls evs = replicate (length bs) EvMetricUpdate
    ∧ forwarded evs = tensor_to (device (self w)) <$> inputs_of bs
    ∧ observed_losses evs
      = batch_losses (net_params w) (net_training w) (device (self w)) bs
    ∧ running_loss loc' = foldl num_add (running_loss loc) (observed_losses evs)
    ∧ length (observed_losses evs) = length bs
    ∧ self w' = self w
    ∧ rng w' = rng w
    ∧ net_params w' = net_params w
    ∧ net_training w' = net_training w
    ∧ metric_state w'
      = batch_metrics (net_params w) (net_training w) (device (self w))
                      (metric_state w) bs
    ∧ (bs = [] → loc' = loc)
    ∧ (bs ≠ [] → batch_idx loc' = Some (k + length bs - 1)%nat
                 ∧ is_Some (X_batch loc') ∧ is_Some (y_batch loc')).
Proof.
  induction 1 as [|b bs (X & y & rest & ->) _ IH]; intros k loc w.
  - exists loc, w, []. simpl. rewrite app_nil_r. by repeat split.
  - simpl zip. simpl for_each. rewrite bind_run.
    destruct (val_epoch_body_calls loc k X y rest w)
      as (w1 & -> & Ht1 & Hs1 & Hr1 & Hp1 & Hm1 & Hms1).
    match goal with |- context [for_each _ _ ?l w1] =>
      destruct (IH (S k) l w1)
        as (loc' & w' & evs & -> & Ht & Hmc & Hf & Hol & Hr & Hl & Hs & Hrng
            & Hp & Hm & Hms & Hnil & Hi)
    end.
    eexists loc', w', (_ ++ evs). split; [reflexivity|].
    split; [rewrite Ht, Ht1, <- app_assoc; reflexivity|].
    rewrite metric_calls_app, forwarded_app, Hmc, Hf, Hs1.
    rewrite !observed_losses_app, foldl_app, length_app.
    split; [done|]. split; [done|].
    split; [rewrite Hol, Hp1, Hm1, Hs1; reflexivity|].
    split; [exact Hr|]. split; [simpl; lia|].
    split; [congruence|]. split; [congruence|].
    split; [congruence|]. split; [congruence|].
    split; [rewrite Hms, Hp1, Hm1, Hs1, Hms1; reflexivity|].
    split; [done|].
    intros _. destruct bs as [|b' bs'].
    + rewrite (Hnil eq_refl). simpl. replace (k + 1 - 1)%nat with k by lia. eauto.
    + destruct Hi as (Hi & HX & Hy); [done|]. rewrite Hi. repeat split; try done.
      f_equal. simpl. lia.
Qed.

(** What [val_epoch] returns and the calls it makes, on a pass of at least
    one batch. *)
Lemma val_epoch_result ds n w :
  DataLoader ds n false (rng w) ≠ [] →
  Forall xy_batch (DataLoader ds n false (rng w)) →
  ∃ w',
    val_epoch ds n w
    = (Ok (dict_merge
             {[ "val_loss" :=
                  VNum (arithmetic_mean
                          (batch_losses (net_params w) false (device (self w))
                                        (DataLoader ds n false (rng w)))) ]}
             (VNum <$> metric_get_results
                         (Z.of_nat (length (DataLoader ds n false (rng w))))
                         (metric_state w'))), w')
    ∧ metric_state w'
      = batch_metrics (net_params w) false (device (self w))
                      (metric_reset (metric_state w))
                      (DataLoader ds n false (rng w))
    ∧ metric_calls (trace w')
      = metric_calls (trace w)
        ++ EvMetricReset :: replicate (length (DataLoader ds n false (rng w))) EvMetricUpdate
    ∧ forwarded (trace w')
      = forwarded (trace w)
        ++ (tensor_to (device (self w)) <$> inputs_of (DataLoader ds n false (rng w)))
    ∧ rng w' = rng_after ds n false (rng w).
Proof.
  intros Hne Hxy. unfold val_epoch, enumerate. mrun. simpl (rng _).
  match goal with |- context [for_each _ _ ?l ?w1] =>
    destruct (val_loop_calls _ Hxy 0%nat l w1)
      as (loc' & w' & evs & -> & Ht & Hmc & Hf & Hol & Hr & Hl & Hs & Hrng
          & Hp & Hm & Hms & _ & Hi)
  end.
  destruct (Hi Hne) as (Hidx & [X HX] & [y Hy]). simpl in Hidx.
  rewrite HX, Hy, Hidx. unfold py_div, metric_list_get_results.
  assert (Hlen : Z.of_nat (length (DataLoader ds n false (rng w)) - 1) + 1
                 = Z.of_nat (length (DataLoader ds n false (rng w)))).
  { destruct (DataLoader ds n false (rng w)); [done | simpl length; lia]. }
  simpl load_local. mrun. rewrite Hlen.
  destruct (Z.eqb_spec (Z.of_nat (length (DataLoader ds n false (rng w)))) 0) as [H0|_].
  { destruct (DataLoader ds n false (rng w)); [done | simpl length in H0; lia]. }
  mrun. rewrite ?Hlen. exists w'.
  simpl in Hr, Hol, Hms, Hrng. split.
  { unfold arithmetic_mean. rewrite <- Hol, Hl, <- Hr. reflexivity. }
  split; [exact Hms|].
  rewrite Ht. simpl.
  rewrite !metric_calls_app, !forwarded_app, Hmc, Hf. simpl.
  rewrite !app_nil_r, <- ?app_assoc. repeat split; try done.
Qed.

(** X4 ([val_epoch], lines 81-101).  On a pass of at least one batch,
    each of an input and a target, [val_epoch] returns the mean of the
    losses of the batches under the key [val_loss], all computed in
    evaluation mode with the parameters found at entry, merged with the
    results of the metric aggregator normalised by the number of
    batches; the aggregator has been reset once and then called on the
    output and the target of each batch, in the order of the pass. *)
Theorem val_epoch_evaluates_entry_parameters ds n w :
  DataLoader ds n false (rng w) ≠ [] →
  Forall xy_batch (DataLoader ds n false (rng w)) →
  ∃ w',
    val_epoch ds n w
    = (Ok (dict_merge
             {[ "val_loss" :=
                  VNum (arithmetic_mean
                          (batch_losses (net_params w) false (device (self w))
                                        (DataLoader ds n false (rng w)))) ]}
             (VNum <$> metric_get_results
                         (Z.of_nat (length (DataLoader ds n false (rng w))))
                         (metric_state w'))), w')
    ∧ metric_state w'
      = batch_metrics (net_params w) false (device (self w))
                      (metric_reset (metric_state w))
                      (DataLoader ds n false (rng w))
    ∧ metric_calls (trace w')
      = metric_calls (trace w)
        ++ EvMetricReset :: replicate (length (DataLoader ds n false (rng w))) EvMetricUpdate
    ∧ rng w' = rng_after ds n false (rng w).
Proof.
  intros Hne Hxy.
  destruct (val_epoch_result ds n w Hne Hxy) as (w' & Hrun & Hms & Hmc & _ & Hr).
  exists w'. by repeat split.
Qed.

(** X5 ([val_epoch], lines 98-99).  In the dict that [val_epoch] returns
    every metric keeps its name and its normalised value, and a metric
    that is itself named [val_loss] takes the place of the mean loss: the
    unpacked results come last in the dict display. *)
Theorem val_epoch_metric_named_val_loss ds n w :
  DataLoader ds n false (rng w) ≠ [] →
  Forall xy_batch (DataLoader ds n false (rng w)) →
  ∃ logs w',
    val_epoch ds n w = (Ok logs, w')
    ∧ (∀ name, name ≠ "val_loss" →
         logs !! name
         = VNum <$> metric_get_results
                      (Z.of_nat (length (DataLoader ds n false (rng w))))
                      (metric_state w') !! name)
    ∧ logs !! "val_loss"
      = Some (VNum (default
                      (arithmetic_mean
                         (batch_losses (net_params w) false (device (self w))
                                       (DataLoader ds n false (rng w))))
                      (metric_get_results
                         (Z.of_nat (length (DataLoader ds n false (rng w))))
                         (metric_state w') !! "val_loss"))).
Proof.
  intros Hne Hxy.
  destruct (val_epoch_result ds n w Hne Hxy) as (w' & Hrun & _).
  eexists _, w'. split; [exact Hrun|]. unfold dict_merge. split.
  - intros name Hname. rewrite lookup_union, lookup_fmap.
    rewrite lookup_singleton_ne by done.
    by destruct (metric_get_results _ _ !! name).
  - rewrite lookup_union, lookup_fmap, lookup_singleton_eq.
    by destruct (metric_get_results _ _ !! "val_loss").
Qed.

(** ** Prediction: samples that cannot be named, and the files written *)

(** A sample that line 161, 162 or 167 rejects stops before any call. *)
Lemma predict_dataset_body_naming_error export k b e w :
  naming_error b = Some e → predict_dataset_body export tt (k, b) w = (Raise e, w).
Proof.
  destruct b as [|[X|l] [|[t|[|s l']] rest]]; simpl; intros [= <-]; reflexivity.
Qed.

Lemma predict_loop_stops export (good : list (list (field Tensor))) bad rest e :
  Forall named_or_plain good →
  naming_error bad = Some e →
  ∀ (k : nat) (w : world),
  ∃ w' evs,
    for_each (predict_dataset_body export)
      (zip (seq k (length (good ++ bad :: rest))) (good ++ bad :: rest)) tt w
    = (Raise e, w')
    ∧ trace w' = trace w ++ evs
    ∧ Forall (λ e, predict_call e = true) evs
    ∧ image_paths evs
      = map (λ ib, path_join export (written_filename ib)) (zip (seq k (length good)) good)
    ∧ net_training w' = net_training w.
Proof.
  intros Hgood Hbad.
  induction Hgood as [|b bs (X & r & tl & -> & Hr) _ IH]; intros k w.
  - simpl. rewrite bind_run, (predict_dataset_body_naming_error _ _ _ _ _ Hbad).
    exists w, []. rewrite app_nil_r. by repeat split.
  - simpl app. simpl length. simpl zip. simpl for_each. rewrite bind_run.
    destruct (predict_dataset_body_ok export k X r tl w Hr)
      as (w1 & img & -> & Ht1 & Hs1 & Hm1).
    destruct (IH (S k) w1) as (w' & evs & -> & Ht & Hev & Hp & Hm).
    eexists w', (_ ++ evs). split; [reflexivity|].
    split; [rewrite Ht, Ht1, <- app_assoc; reflexivity|].
    split; [apply Forall_app; split; [repeat constructor | exact Hev]|].
    split; [|congruence].
    rewrite image_paths_app, Hp. reflexivity.
Qed.

(** X6 ([predict_dataset], lines 157-170).  When the pass reaches a
    sample that cannot be named (no element after the input, or an empty
    list of strings in the place of the identifier) or whose input is no
    tensor, [predict_dataset] stops there with the exception of that
    line: the export directory has been made, the images of the samples
    before it are written under their names, none is written for the
    samples after it, and the network is in evaluation mode. *)
Theorem predict_dataset_stops_at_unnamed_sample ds export good bad rest e w :
  DataLoader ds 1 false (rng w) = good ++ bad :: rest →
  Forall named_or_plain good →
  naming_error bad = Some e →
  ∃ w',
    predict_dataset ds export w = (Raise e, w')
    ∧ image_paths (trace w')
      = image_paths (trace w)
        ++ map (λ ib, path_join export (written_filename ib)) (enumerate good)
    ∧ disk (trace w') = disk (trace w) ++ [MadeDir export]
    ∧ net_training w' = false.
Proof.
  intros Hbs Hgood Hbad. unfold predict_dataset, enumerate. mrun. simpl (rng _).
  rewrite Hbs.
  match goal with |- context [for_each _ _ tt ?w1] =>
    destruct (predict_loop_stops export good bad rest e Hgood Hbad 0%nat w1)
      as (w' & evs & -> & Ht & Hev & Hp & Hm)
  end.
  exists w'. split; [reflexivity|]. simpl in *. rewrite Ht.
  rewrite !image_paths_app, !disk_app, Hp, (disk_predict_calls _ Hev). simpl.
  rewrite !app_nil_r. done.
Qed.

(** Samples without identifier are named by their position alone. *)
Lemma plain_batch_named_or_plain b : plain_batch b → named_or_plain b.
Proof. intros (X & t & rest & ->). by eexists _, _, _. Qed.

Lemma plain_batches_numbered export (bs : list (list (field Tensor))) :
  Forall plain_batch bs →
  ∀ k, map (λ ib, path_join export (written_filename ib)) (zip (seq k (length bs)) bs)
       = (λ i, path_join export (numbered_filename i)) <$> seq k (length bs).
Proof.
  induction 1 as [|b bs (X & t & rest & ->) _ IH]; intros k; [done|].
  simpl. by rewrite IH.
Qed.

Lemma numbered_paths_distinct export k n :
  NoDup ((λ i, path_join export (numbered_filename i)) <$> seq k n).
Proof.
  apply NoDup_fmap_2_strong; [|apply NoDup_seq].
  intros i j _ _ H. apply numbered_filename_inj.
  by eapply path_join_inj; [apply numbered_filename_relative..|].
Qed.

(** X7 ([predict_dataset], lines 161-170).  On samples without
    identifier [predict_dataset] writes one image per sample under the
    numbered names, and no two of these paths are equal, however many the
    samples: past 999 the names grow longer instead of wrapping. *)
Theorem predict_dataset_numbered_files_distinct ds export w :
  Forall plain_batch (DataLoader ds 1 false (rng w)) →
  ∃ w',
    predict_dataset ds export w = (Ok tt, w')
    ∧ image_paths (trace w')
      = image_paths (trace w)
        ++ ((λ i, path_join export (numbered_filename i))
              <$> seq 0 (length (DataLoader ds 1 false (rng w))))
    ∧ NoDup ((λ i, path_join export (numbered_filename i))
               <$> seq 0 (length (DataLoader ds 1 false (rng w)))).
Proof.
  intros Hpl.
  destruct (predict_dataset_ok ds export w) as (w' & evs & Hrun & Ht & _ & Hi & _).
  { eapply Forall_impl; [exact Hpl | apply plain_batch_named_or_plain]. }
  exists w'. split; [exact Hrun|]. split; [|apply numbered_paths_distinct].
  rewrite Ht, !image_paths_app, Hi. simpl. unfold enumerate.
  by rewrite plain_batches_numbered.
Qed.

(** X8 (line 165).  The digits of a numbered file name, read back as a
    number, give the position of the sample counted from 1, and the name
    has at least three digits before its extension. *)
Theorem numbered_filename_reads_back (i : nat) :
  stem_number (numbered_filename i) = N.of_nat (S i)
  ∧ (7 ≤ String.length (numbered_filename i))%nat.
Proof.
  destruct (numbered_filename_stem i) as (stem & -> & Hv & Hl & _).
  unfold stem_number. rewrite length_append. simpl String.length.
  replace (String.length stem + 4 - 4)%nat with (String.length stem) by lia.
  rewrite substring_append. split; [exact Hv | lia].
Qed.

(** A path built from a relative name starts with the export path. *)
Lemma path_join_within export name :
  String.prefix "/" name = false → String.prefix export (path_join export name) = true.
Proof.
  intros Hn. destruct (path_join_relative export) as (d & Hp & Hd).
  rewrite (Hd _ Hn). by apply prefix_trans_append.
Qed.

Lemma written_paths_within export (bs : list (list (field Tensor))) :
  Forall relative_name bs →
  ∀ k, Forall (λ p, String.prefix export p = true)
              (map (λ ib, path_join export (written_filename ib))
                   (zip (seq k (length bs)) bs)).
Proof.
  induction 1 as [|b bs Hb _ IH]; intros k; [constructor|].
  simpl. constructor; [|apply IH].
  apply path_join_within. unfold written_filename. simpl.
  destruct b as [|X [|[t|[|s l]] rest]]; simpl in *;
    try apply numbered_filename_relative. exact Hb.
Qed.

(** X9 ([predict_dataset], lines 162-170).  When no identifier is an
    absolute path, every image is written to a path that starts with the
    export path. *)
Theorem predict_dataset_writes_under_export_path ds export w :
  Forall named_or_plain (DataLoader ds 1 false (rng w)) →
  Forall relative_name (DataLoader ds 1 false (rng w)) →
  ∃ w' paths,
    predict_dataset ds export w = (Ok tt, w')
    ∧ image_paths (trace w') = image_paths (trace w) ++ paths
    ∧ length paths = length (DataLoader ds 1 false (rng w))
    ∧ Forall (λ p, String.prefix export p = true) paths.
Proof.
  intros Hn Hrel.
  destruct (predict_dataset_ok ds export w Hn) as (w' & evs & Hrun & Ht & _ & Hi & _).
  eexists w', _. split; [exact Hrun|].
  split; [rewrite Ht, !image_paths_app, Hi; simpl; reflexivity|].
  unfold enumerate.
  split; [rewrite length_map, length_zip, length_seq; lia|].
  by apply written_paths_within.
Qed.

Lemma images_written_app t1 t2 :
  images_written (t1 ++ t2) = images_written t1 ++ images_written t2.
Proof. apply flat_map_app. Qed.

Lemma saved_states_app t1 t2 : saved_states (t1 ++ t2) = saved_states t1 ++ saved_states t2.
Proof. apply flat_map_app. Qed.

Lemma csv_writes_app t1 t2 : csv_writes (t1 ++ t2) = csv_writes t1 ++ csv_writes t2.
Proof. apply flat_map_app. Qed.

(** One sample of [predict_dataset], the network being in evaluation
    mode. *)
Lemma predict_dataset_body_image export k X r rest w :
  r ≠ FStrs [] →
  net_training w = false →
  ∃ w1 evs,
    predict_dataset_body export tt (k, FTensor X :: r :: rest) w = (Ok tt, w1)
    ∧ trace w1 = trace w ++ evs
    ∧ images_written evs
      = predicted (net_params w) (device (self w)) export (k, FTensor X :: r :: rest)
    ∧ saved_states evs = []
    ∧ csv_writes evs = []
    ∧ self w1 = self w
    ∧ net_params w1 = net_params w
    ∧ net_training w1 = false
    ∧ rng w1 = rng w
    ∧ net_grads w1 = net_grads w
    ∧ opt_state w1 = opt_state w.
Proof.
  destruct w as [s p m g o ms rg t]. simpl. intros Hr ->.
  destruct r as [t'|[|s' l]]; [|done|].
  - eexists _, _. split; [reflexivity|]. simpl.
    split; [rewrite <- app_assoc; reflexivity|]. by repeat split.
  - eexists _, _. split; [reflexivity|]. simpl.
    split; [rewrite <- app_assoc; reflexivity|]. by repeat split.
Qed.

Lemma predict_loop_images export (bs : list (list (field Tensor))) :
  Forall named_or_plain bs →
  ∀ (k : nat) (w : world),
  net_training w = false →
  ∃ w' evs,
    for_each (predict_dataset_body export) (zip (seq k (length bs)) bs) tt w = (Ok tt, w')
    ∧ trace w' = trace w ++ evs
    ∧ images_written evs
      = flat_map (predicted (net_params w) (device (self w)) export)
                 (zip (seq k (length bs)) bs)
    ∧ saved_states evs = []
    ∧ csv_writes evs = []
    ∧ self w' = self w
    ∧ net_params w' = net_params w
    ∧ rng w' = rng w
    ∧ net_grads w' = net_grads w
    ∧ opt_state w' = opt_state w.
Proof.
  induction 1 as [|b bs (X & r & rest & -> & Hr) _ IH]; intros k w Hm.
  - exists w, []. simpl. rewrite app_nil_r. by repeat split.
  - simpl zip. simpl for_each. rewrite bind_run.
    destruct (predict_dataset_body_image export k X r rest w Hr Hm)
      as (w1 & evs1 & -> & Ht1 & Hi1 & Hsv1 & Hcsv1 & Hs1 & Hp1 & Hm1 & Hr1 & Hg1 & Ho1).
    destruct (IH (S k) w1 Hm1)
      as (w' & evs & -> & Ht & Hi & Hsv & Hcsv & Hs & Hp & Hrng & Hg & Ho).
    exists w', (evs1 ++ evs). split; [reflexivity|].
    split; [rewrite Ht, Ht1, <- app_assoc; reflexivity|].
    rewrite images_written_app, saved_states_app, csv_writes_app.
    rewrite Hi, Hi1, Hsv, Hsv1, Hcsv, Hcsv1, Hs1, Hp1.
    repeat split; try done; congruence.
Qed.

(** The calls of [predict_dataset] on samples that can be named. *)
Lemma predict_dataset_images ds export w :
  Forall named_or_plain (DataLoader ds 1 false (rng w)) →
  ∃ w' evs,
    predict_dataset ds export w = (Ok tt, w')
    ∧ trace w' = trace w ++ evs
    ∧ images_written evs
      = flat_map (predicted (net_params w) (device (self w)) export)
                 (enumerate (DataLoader ds 1 false (rng w)))
    ∧ saved_states evs = []
    ∧ csv_writes evs = []
    ∧ self w' = self w
    ∧ net_params w' = net_params w
    ∧ rng w' = rng_after ds 1 false (rng w)
    ∧ net_grads w' = net_grads w
    ∧ opt_state w' = opt_state w.
Proof.
  intros Hb. unfold predict_dataset, enumerate. mrun. simpl (rng _).
  match goal with |- context [for_each _ _ tt ?w1] =>
    destruct (predict_loop_images export _ Hb 0%nat w1 eq_refl)
      as (w' & evs & -> & Ht & Hi & Hsv & Hcsv & Hs & Hp & Hr & Hg & Ho)
  end.
  eexists w', _. split; [reflexivity|]. simpl in *.
  split; [rewrite Ht, <- !app_assoc; reflexivity|].
  rewrite !images_written_app, !saved_states_app, !csv_writes_app, Hi, Hsv, Hcsv.
  by repeat split.
Qed.

(** X10 ([predict_dataset], lines 157-170).  On samples that can be
    named, [predict_dataset] writes one image per sample, in the order
    of the pass: under the name of the sample in the export directory,
    channel 1 of the output that the network gives in evaluation mode,
    with the parameters found at entry, for the input moved to the
    device. *)
Theorem predict_dataset_writes_predictions ds export w :
  Forall named_or_plain (DataLoader ds 1 false (rng w)) →
  ∃ w',
    predict_dataset ds export w = (Ok tt, w')
    ∧ images_written (trace w')
      = images_written (trace w)
        ++ flat_map (predicted (net_params w) (device (self w)) export)
                    (enumerate (DataLoader ds 1 false (rng w)))
    ∧ rng w' = rng_after ds 1 false (rng w).
Proof.
  intros Hb.
  destruct (predict_dataset_images ds export w Hb)
    as (w' & evs & Hrun & Ht & Hi & _ & _ & _ & _ & Hr & _).
  exists w'. split; [exact Hrun|]. split; [|exact Hr].
  by rewrite Ht, images_written_app, Hi.
Qed.

Lemma same_parameters_refl w : same_parameters w w.
Proof. by repeat split. Qed.

(** Prediction leaves the parameters alone. *)
Lemma predict_dataset_same_parameters ds p w0 :
  inv (same_parameters w0) (predict_dataset ds p).
Proof.
  inv_auto; intros w (Hp & Hg & Ho & Hu); repeat split; try assumption;
    simpl; unfold update_calls in *; rewrite ?flat_map_app; simpl;
    rewrite ?app_nil_r; assumption.
Qed.

Lemma predict_batch_same_parameters X w0 :
  inv (same_parameters w0) (predict_batch X).
Proof.
  inv_auto; intros w (Hp & Hg & Ho & Hu); repeat split; try assumption;
    simpl; unfold update_calls in *; rewrite ?flat_map_app; simpl;
    rewrite ?app_nil_r; assumption.
Qed.

(** X11 ([predict_dataset] and [predict_batch], lines 157-178).
    Whatever the input and the outcome, prediction leaves the parameters
    of the network, its gradients and the optimizer as they were and
    makes no [zero_grad], [backward] or optimizer [step] call. *)
Theorem prediction_keeps_parameters ds export X w :
  same_parameters w (predict_dataset ds export w).2
  ∧ same_parameters w (predict_batch X w).2.
Proof.
  split.
  - apply predict_dataset_same_parameters, same_parameters_refl.
  - apply predict_batch_same_parameters, same_parameters_refl.
Qed.

(** ** [fit_dataset]: no epoch, and a failing first epoch *)

(** [range(1, n + 1)] is empty for [n] below 1. *)
Lemma seqZ_nonpos m len : len ≤ 0 → seqZ m len = [].
Proof. intros. unfold seqZ. replace (Z.to_nat len) with O by lia. done. Qed.

(** X12 ([fit_dataset], lines 107-155).  With [n_epochs] zero or
    negative [fit_dataset] returns an empty log and stores it in the
    attribute [logger]; it makes no call on the network, the optimizer or
    the disk, and nothing else changes. *)
Theorem fit_dataset_zero_epochs ds n_epochs nb sh vd sf pd w :
  n_epochs ≤ 0 →
  fit_dataset ds n_epochs nb sh vd sf pd w
  = (Ok [], set_self (set_logger [] (self w)) w).
Proof.
  intros Hn. unfold fit_dataset, time. mrun. rewrite (seqZ_nonpos 1 n_epochs Hn).
  reflexivity.
Qed.

(** A failure of the training pass of the first epoch is the failure of
    [fit_dataset]. *)
Lemma fit_dataset_training_failure ds n_epochs nb sh vd sf pd e w :
  0 < n_epochs →
  (fit_epoch ds nb sh w).1 = Raise e →
  fit_dataset ds n_epochs nb sh vd sf pd w = (Raise e, (fit_epoch ds nb sh w).2).
Proof.
  intros Hn He. unfold fit_dataset, time. mrun.
  rewrite (seqZ_pos_cons 1 n_epochs Hn). simpl for_each. mrun.
  unfold fit_dataset_body at 1. mrun.
  destruct (fit_epoch ds nb sh w) as [r w1]. simpl in He. subst r. reflexivity.
Qed.

Ltac files_idle_leaf :=
  intros ? (? & ? & ?); repeat split; simpl;
  unfold disk, csv_writes, image_paths in *; rewrite ?flat_map_app; simpl;
  rewrite ?app_nil_r; assumption.

Lemma files_idle_refl w : files_idle w w.
Proof. by repeat split. Qed.

Lemma fit_epoch_files_idle ds n sh w0 : inv (files_idle w0) (fit_epoch ds n sh).
Proof. inv_auto; files_idle_leaf. Qed.

Lemma val_epoch_files_idle ds n w0 : inv (files_idle w0) (val_epoch ds n).
Proof. inv_auto; files_idle_leaf. Qed.

(** X13 ([fit_dataset], lines 115-117).  An exception of the training
    pass of the first epoch is the exception of [fit_dataset], which
    leaves the world as [fit_epoch] left it: the instance gets no
    attribute [logger], no directory is made, and no checkpoint, log
    file or image is written. *)
Theorem fit_dataset_first_epoch_failure ds n_epochs nb sh vd sf pd e w :
  0 < n_epochs →
  (fit_epoch ds nb sh w).1 = Raise e →
  fit_dataset ds n_epochs nb sh vd sf pd w = (Raise e, (fit_epoch ds nb sh w).2)
  ∧ self (fit_dataset ds n_epochs nb sh vd sf pd w).2 = self w
  ∧ files_idle w (fit_dataset ds n_epochs nb sh vd sf pd w).2.
Proof.
  intros Hn He.
  rewrite (fit_dataset_training_failure ds n_epochs nb sh vd sf pd e w Hn He).
  split; [done|]. split.
  - by apply fit_epoch_same_self.
  - apply fit_epoch_files_idle, files_idle_refl.
Qed.

(** X14 ([fit_dataset], lines 115-123, with lines 86-96).  With a
    validation dataset that yields no batch, a run of at least one epoch
    without scheduler trains one epoch and then stops in [val_epoch] on
    the unbound [X_batch]: the parameters are those after one training
    pass, the network is in evaluation mode, the instance gets no
    attribute [logger], and no checkpoint, log file or image is
    written, so that the epoch trained is lost. *)
Theorem fit_dataset_empty_validation ds n_epochs nb sh vd sf pd w :
  scheduler (self w) = None →
  0 < n_epochs →
  trainable ds nb sh →
  (∀ r, DataLoader vd nb false r = []) →
  ∃ w',
    fit_dataset ds n_epochs nb sh (Some vd) sf pd w
    = (Raise (UnboundLocalError "X_batch"), w')
    ∧ (net_params w', net_grads w', opt_state w')
      = foldl (train_step (device (self w))) (net_params w, net_grads w, opt_state w)
              (DataLoader ds nb sh (rng w))
    ∧ files_idle w w'
    ∧ self w' = self w
    ∧ net_training w' = false.
Proof.
  intros Hsch Hn Hds Hvd. unfold fit_dataset, time. mrun.
  rewrite (seqZ_pos_cons 1 n_epochs Hn). simpl for_each. mrun.
  unfold fit_dataset_body at 1. mrun.
  pose proof (fit_epoch_files_idle ds nb sh w w (files_idle_refl w)) as Hidle.
  destruct (fit_epoch_result ds nb sh w (proj1 (Hds _)) (proj2 (Hds _)))
    as (w1 & Hrun & Hst & _ & _ & _ & Hs & _).
  rewrite Hrun in Hidle |- *. simpl in Hidle.
  mrun. rewrite Hs, Hsch. mrun. unfold checkpoint_best. mrun.
  pose proof (val_epoch_empty vd nb w1 (Hvd _)) as He.
  pose proof (val_epoch_files_idle vd nb w w1 Hidle) as Hidle'.
  pose proof (val_epoch_same_parameters vd nb w1 w1 (same_parameters_refl w1))
    as (Hp & Hg & Ho & _).
  pose proof (val_epoch_same_self vd nb w1 w1 eq_refl) as Hs'.
  pose proof (val_epoch_eval_mode vd nb w1) as (Hm & _).
  destruct (val_epoch vd nb w1) as [[logs|e] w2]; simpl in *; [done|].
  injection He as ->. exists w2. split; [reflexivity|].
  split; [by rewrite Hp, Hg, Ho|]. split; [done|]. split; [|done].
  unfold same_self in Hs'. congruence.
Qed.

(** ** [fit_dataset]: the files of a run *)

(** The calls of the batch loops write no checkpoint, log file or image. *)
Lemma train_calls_quiet evs :
  Forall (λ e, train_call e = true) evs →
  saved_states evs = [] ∧ csv_writes evs = [] ∧ images_written evs = [].
Proof. intros H. repeat split; (eapply flat_map_quiet; [|exact H]); by intros []. Qed.

Lemma eval_calls_quiet evs :
  Forall (λ e, eval_call e = true) evs →
  saved_states evs = [] ∧ csv_writes evs = [] ∧ images_written evs = [].
Proof. intros H. repeat split; (eapply flat_map_quiet; [|exact H]); by intros []. Qed.

(** Reading the files off an explicit list of calls. *)
Ltac files_calc :=
  unfold saved_states, csv_writes, images_written in *;
  simpl; rewrite ?flat_map_app; simpl.

(** Lines 122-126 with a validation dataset. *)
Lemma checkpoint_best_calls vd n_batch loc m w :
  min_loss loc = VNum m →
  trainable vd n_batch false →
  ∃ v logs w' evs,
    checkpoint_best (Some vd) n_batch loc w = (Ok (VNum (num_min m v), Some logs), w')
    ∧ logs !! "val_loss" = Some (VNum v)
    ∧ trace w' = trace w ++ evs
    ∧ saved_states evs
      = (if num_lt v m
         then [(path_join (checkpoint_folder (self w)) "best_model", net_params w)]
         else [])
    ∧ csv_writes evs = []
    ∧ images_written evs = []
    ∧ self w' = self w
    ∧ net_training w' = false
    ∧ net_params w' = net_params w
    ∧ net_grads w' = net_grads w
    ∧ opt_state w' = opt_state w.
Proof.
  intros Hmin Hvd. unfold checkpoint_best. mrun.
  pose proof (val_epoch_same_parameters vd n_batch w w (same_parameters_refl w))
    as (Hp & Hg & Ho & _).
  destruct (val_epoch_ok vd n_batch w (proj1 (Hvd _)) (proj2 (Hvd _)))
    as (logs & v & w1 & evs & Hrun & Hl & Ht & Hev & Hs & Hm).
  rewrite Hrun in Hp, Hg, Ho |- *. simpl in Hp, Hg, Ho.
  destruct (eval_calls_quiet _ Hev) as (Hq1 & Hq2 & Hq3).
  unfold subscript. rewrite Hl, Hmin. mrun.
  change (py_lt (VNum v) (VNum m) w1) with (Ok (num_lt v m), w1). mrun.
  unfold num_min. destruct (num_lt v m) eqn:Elt; mrun.
  - eexists v, logs, _, _. rewrite Elt. split; [reflexivity|]. simpl.
    split; [done|]. split; [rewrite Ht, <- !app_assoc; reflexivity|].
    rewrite Hs, Hp. files_calc. rewrite Hq1, Hq2, Hq3. by repeat split.
  - eexists v, logs, w1, _. rewrite Elt. split; [reflexivity|].
    split; [done|]. split; [exact Ht|].
    files_calc. rewrite Hq1, Hq2, Hq3. by repeat split.
Qed.

(** Lines 145-150. *)
Lemma checkpoint_numbered_calls save_freq predict_ds k w :
  predictable predict_ds →
  ∃ w' evs,
    checkpoint_numbered save_freq predict_ds k w = (Ok tt, w')
    ∧ trace w' = trace w ++ evs
    ∧ saved_states evs
      = (if (negb (save_freq =? 0) && (k `mod` save_freq =? 0))%bool
         then [(path_join (path_join (checkpoint_folder (self w)) (pretty k)) "model",
                net_params w)]
         else [])
    ∧ csv_writes evs = []
    ∧ ((∀ pd, predict_ds = Some pd → stable_pass pd 1) →
       ∀ r, images_written evs
            = epoch_predictions (checkpoint_folder (self w)) save_freq predict_ds
                                (device (self w)) r (k, net_params w))
    ∧ self w' = self w
    ∧ net_params w' = net_params w
    ∧ net_grads w' = net_grads w
    ∧ opt_state w' = opt_state w.
Proof.
  intros Hp. unfold checkpoint_numbered, epoch_predictions. simpl fst. simpl snd.
  destruct (negb (save_freq =? 0) && (k `mod` save_freq =? 0))%bool.
  2:{ exists w, []. rewrite app_nil_r. by repeat split. }
  mrun. rewrite ?chk_mkdir_run. mrun. rewrite ?torch_save_run. mrun.
  destruct predict_ds as [pd|]; [destruct (dataset_truthy pd) eqn:Et|].
  - match goal with |- context [predict_dataset pd ?p ?w1] =>
      destruct (predict_dataset_images pd p w1 (Hp Et _))
        as (w' & evs & -> & Ht & Hi & Hsv & Hcsv & Hs & Hpar & _ & Hg & Ho)
    end.
    eexists w', _. split; [reflexivity|]. simpl in *.
    split; [rewrite Ht, <- !app_assoc; reflexivity|].
    files_calc. rewrite Hsv, Hcsv, Hi, ?app_nil_r.
    split; [done|]. split; [done|]. split; [|by repeat split].
    intros Hst r. by rewrite (Hst pd eq_refl (rng w) r).
  - eexists _, _. split; [reflexivity|]. simpl.
    split; [rewrite <- !app_assoc; reflexivity|]. by repeat split.
  - eexists _, _. split; [reflexivity|]. simpl.
    split; [rewrite <- !app_assoc; reflexivity|]. by repeat split.
Qed.

(** One epoch of [fit_dataset]: the files it writes. *)
Lemma fit_dataset_body_calls ds n_batch sh vd save_freq predict_ds train_start loc k m w :
  scheduler (self w) = None →
  min_loss loc = VNum m →
  trainable ds n_batch sh →
  trainable vd n_batch false →
  predictable predict_ds →
  ∃ v row vl w' evs,
    fit_dataset_body ds n_batch sh (Some vd) save_freq predict_ds train_start loc k w
    = (Ok {| logger_rows := logger_rows loc ++ [row];
             min_loss := VNum (num_min m v); val_logs := Some vl |}, w')
    ∧ row !! "val_loss" = Some (VNum v)
    ∧ trace w' = trace w ++ evs
    ∧ csv_writes evs
      = [(path_join (checkpoint_folder (self w)) "logs.csv", logger_rows loc ++ [row])]
    ∧ saved_states evs
      = epoch_states (checkpoint_folder (self w)) save_freq (net_params w') (k, num_lt v m)
    ∧ ((∀ pd, predict_ds = Some pd → stable_pass pd 1) →
       ∀ r, images_written evs
            = epoch_predictions (checkpoint_folder (self w)) save_freq predict_ds
                                (device (self w)) r (k, net_params w'))
    ∧ self w' = self w
    ∧ (net_params w', net_grads w', opt_state w')
      = foldl (train_step (device (self w))) (net_params w, net_grads w, opt_state w)
              (DataLoader ds n_batch sh (rng w)).
Proof.
  intros Hsch Hmin Hds Hvd Hp. unfold fit_dataset_body.
  rewrite bind_run.
  destruct (fit_epoch_result ds n_batch sh w (proj1 (Hds _)) (proj2 (Hds _)))
    as (w0 & Hrun0 & Hst0 & _).
  destruct (fit_epoch_ok ds n_batch sh w (proj1 (Hds _)) (proj2 (Hds _)))
    as (w1 & evs1 & Hrun1 & Ht1 & Hev1 & _ & Hs1 & Hm1).
  rewrite Hrun1 in Hrun0. injection Hrun0 as _ <-. rewrite Hrun1.
  destruct (train_calls_quiet _ Hev1) as (Hq1 & Hq2 & Hq3).
  mrun. rewrite Hs1, Hsch. mrun.
  destruct (checkpoint_best_calls vd n_batch loc m w1 Hmin Hvd)
    as (v & vl & w2 & evs2 & -> & Hl & Ht2 & Hsv2 & Hcsv2 & Himg2 & Hs2 & Hm2 & Hp2
        & Hg2 & Ho2).
  unfold time, memory_allocated, load_local, Logger_to_csv, Logger_log, emit. mrun.
  match goal with |- context [checkpoint_numbered _ _ _ ?w3] =>
    destruct (checkpoint_numbered_calls save_freq predict_ds k w3 Hp)
      as (w' & evs3 & -> & Ht3 & Hsv3 & Hcsv3 & Himg3 & Hs3 & Hp3 & Hg3 & Ho3)
  end.
  mrun. simpl in Ht3, Hsv3, Himg3, Hs3, Hp3, Hg3, Ho3.
  match type of Ht3 with context [EvToCsv _ (_ ++ [?r])] => set (row := r) in * end.
  eexists v, row, vl, w', _. split; [reflexivity|].
  split.
  { unfold row, dict_merge. rewrite lookup_union_r by done.
    by apply lookup_union_Some_l. }
  split; [rewrite Ht3, Ht2, Ht1, <- !app_assoc; reflexivity|].
  rewrite Hs3, Hs2, Hs1, Hp3 in *.
  unfold epoch_states, epoch_saves. simpl fst. simpl snd.
  rewrite !saved_states_app, !csv_writes_app, !images_written_app.
  rewrite Hsv2, Hcsv2, Himg2, Hsv3, Hcsv3.
  split; [|split; [|split; [|split; [done|]]]].
  - files_calc. rewrite Hq2. reflexivity.
  - files_calc. rewrite Hq1. simpl.
    destruct (num_lt v m), (negb (save_freq =? 0) && (k `mod` save_freq =? 0))%bool;
      simpl; rewrite ?Hp2; reflexivity.
  - intros Hst r. rewrite <- (Himg3 Hst r). files_calc. rewrite Hq3. reflexivity.
  - rewrite Hg3, Ho3, Hp2, Hg2, Ho2. exact Hst0.
Qed.

(** The epochs of [fit_dataset]: the files they write.  [P] lists the
    parameters that the checkpoints of each epoch hold. *)
Lemma fit_dataset_loop_calls ds n_batch sh vd save_freq predict_ds train_start ks :
  trainable ds n_batch sh →
  trainable vd n_batch false →
  predictable predict_ds →
  ∀ loc m w,
  scheduler (self w) = None →
  min_loss loc = VNum m →
  ∃ loc' rows L P w',
    for_each (fit_dataset_body ds n_batch sh (Some vd) save_freq predict_ds train_start)
             ks loc w = (Ok loc', w')
    ∧ logger_rows loc' = logger_rows loc ++ rows
    ∧ (λ row : gmap string pyval, row !! "val_loss") <$> rows
      = (λ v, Some (VNum v)) <$> L
    ∧ length L = length ks
    ∧ length P = length ks
    ∧ csv_writes (trace w')
      = csv_writes (trace w)
        ++ ((λ i, (path_join (checkpoint_folder (self w)) "logs.csv",
                   logger_rows loc ++ take i rows)) <$> seq 1 (length ks))
    ∧ saved_states (trace w')
      = saved_states (trace w)
        ++ flat_map (λ kbp, epoch_states (checkpoint_folder (self w)) save_freq kbp.2 kbp.1)
                    (zip (zip ks (improvements m L)) P)
    ∧ (∀ i p, P !! i = Some p →
              p = net_params
                    (for_each (fit_dataset_body ds n_batch sh (Some vd) save_freq
                                                predict_ds train_start)
                              (take (S i) ks) loc w).2)
    ∧ ((∀ pd, predict_ds = Some pd → stable_pass pd 1) →
       ∀ r, images_written (trace w')
            = images_written (trace w)
              ++ flat_map (epoch_predictions (checkpoint_folder (self w)) save_freq
                                             predict_ds (device (self w)) r)
                          (zip ks P))
    ∧ self w' = self w
    ∧ (stable_pass ds n_batch → sh = false →
       ∀ r, (net_params w', net_grads w', opt_state w')
            = Nat.iter (length ks)
                (λ s, foldl (train_step (device (self w))) s (DataLoader ds n_batch false r))
                (net_params w, net_grads w, opt_state w)).
Proof.
  intros Hds Hvd Hp.
  induction ks as [|k ks IH]; intros loc m w Hsch Hmin.
  - exists loc, [], [], [], w. simpl. rewrite !app_nil_r. by repeat split.
  - simpl for_each. rewrite bind_run.
    destruct (fit_dataset_body_calls ds n_batch sh vd save_freq predict_ds train_start
                loc k m w Hsch Hmin Hds Hvd Hp)
      as (v & row & vl & w1 & evs & Hbody & Hrow & Ht & Hcsv & Hsv & Himg & Hs & Hst1).
    rewrite Hbody.
    match goal with |- context [for_each _ ks ?l w1] =>
      destruct (IH l (num_min m v) w1)
        as (loc' & rows & L & P & w' & Hloop & Hr & Hv & Hlen & HlenP & HC & HS & HP & HI & Hs'
            & Hiter);
        [congruence | reflexivity |]
    end.
    rewrite Hloop.
    exists loc', (row :: rows), (v :: L), (net_params w1 :: P), w'.
    split; [reflexivity|].
    split; [rewrite Hr; simpl; by rewrite <- app_assoc|].
    split; [by rewrite !fmap_cons, Hrow, Hv|].
    split; [simpl; by rewrite Hlen|].
    split; [simpl; by rewrite HlenP|].
    rewrite Hs in *.
    split; [|split; [|split; [|split; [|split; [congruence|]]]]].
    + simpl in HC. rewrite HC, Ht, csv_writes_app, Hcsv, <- app_assoc. f_equal.
      simpl length. simpl seq. rewrite fmap_cons. simpl take at 1. f_equal.
      rewrite <- (fmap_S_seq 1), <- list_fmap_compose. apply list_fmap_ext.
      intros i j _. simpl. by rewrite <- app_assoc.
    + rewrite HS, Ht, saved_states_app, Hsv, <- app_assoc. reflexivity.
    + intros [|i] p; simpl lookup.
      * intros [= <-]. simpl. rewrite bind_run, Hbody. reflexivity.
      * intros Hi. rewrite (HP i p Hi). simpl take. simpl for_each.
        rewrite bind_run, Hbody. reflexivity.
    + intros Hst r.
      rewrite (HI Hst r), Ht, images_written_app, (Himg Hst r), <- app_assoc. reflexivity.
    + intros Hstable -> r. rewrite (Hiter Hstable eq_refl r), Hst1.
      rewrite (Hstable (rng w) r). simpl length. by rewrite Nat.iter_succ_r.
Qed.

(** The parameters at the end of a run are those after its epochs. *)
Lemma fit_dataset_net_params ds j nb sh vd sf pd w :
  net_params (fit_dataset ds j nb sh vd sf pd w).2
  = net_params
      (for_each (fit_dataset_body ds nb sh vd sf pd (time_at (length (trace w))))
                (seqZ 1 j)
                {| logger_rows := Logger_new; min_loss := VNum num_inf; val_logs := None |}
                w).2.
Proof.
  unfold fit_dataset, time. mrun.
  match goal with |- context [for_each ?b ?l ?s w] => destruct (for_each b l s w) as [[loc|e] w1] end;
    reflexivity.
Qed.

Lemma take_seqZ_S (i : nat) (n : Z) :
  Z.of_nat i < n → take (S i) (seqZ 1 n) = seqZ 1 (Z.of_nat (S i)).
Proof.
  intros. unfold seqZ. rewrite <- fmap_take, take_seq. f_equal. f_equal. lia.
Qed.

Lemma epoch_states_zip folder sf (G : Z → Params) (ks : list Z) :
  ∀ flags : list bool,
  flat_map (λ kbp : Z * bool * Params, epoch_states folder sf kbp.2 kbp.1)
           (zip (zip ks flags) (G <$> ks))
  = flat_map (λ kb, epoch_states folder sf (G kb.1) kb) (zip ks flags).
Proof.
  induction ks as [|k ks IH]; intros [|b flags]; simpl; try done.
  by rewrite IH.
Qed.

Lemma epoch_predictions_zip folder sf pd d r (G : Z → Params) (ks : list Z) :
  flat_map (epoch_predictions folder sf pd d r) (zip ks (G <$> ks))
  = flat_map (λ k, epoch_predictions folder sf pd d r (k, G k)) ks.
Proof.
  induction ks as [|k ks IH]; [done|].
  rewrite fmap_cons. cbn [zip zip_with flat_map]. by rewrite IH.
Qed.

(** The files of a run of [fit_dataset] without scheduler and with a
    validation dataset: the log file after each epoch, the checkpoints
    with the parameters they hold, and the images. *)
Lemma fit_dataset_files ds n_epochs n_batch sh vd save_freq predict_ds w :
  scheduler (self w) = None →
  trainable ds n_batch sh →
  trainable vd n_batch false →
  predictable predict_ds →
  ∃ rows L w',
    fit_dataset ds n_epochs n_batch sh (Some vd) save_freq predict_ds w = (Ok rows, w')
    ∧ (λ row : gmap string pyval, row !! "val_loss") <$> rows
      = (λ v, Some (VNum v)) <$> L
    ∧ length L = Z.to_nat n_epochs
    ∧ csv_writes (trace w')
      = csv_writes (trace w)
        ++ ((λ i, (path_join (checkpoint_folder (self w)) "logs.csv", take i rows))
              <$> seq 1 (Z.to_nat n_epochs))
    ∧ saved_states (trace w')
      = saved_states (trace w)
        ++ flat_map (λ kb, epoch_states (checkpoint_folder (self w)) save_freq
                             (net_params
                                (fit_dataset ds kb.1 n_batch sh (Some vd) save_freq
                                             predict_ds w).2) kb)
                    (zip (seqZ 1 n_epochs) (improvements num_inf L))
    ∧ ((∀ pd, predict_ds = Some pd → stable_pass pd 1) →
       ∀ r, images_written (trace w')
            = images_written (trace w)
              ++ flat_map (λ k, epoch_predictions (checkpoint_folder (self w)) save_freq
                                  predict_ds (device (self w)) r
                                  (k, net_params
                                        (fit_dataset ds k n_batch sh (Some vd) save_freq
                                                     predict_ds w).2))
                          (seqZ 1 n_epochs))
    ∧ self w' = set_logger rows (self w)
    ∧ (stable_pass ds n_batch → sh = false →
       ∀ r, (net_params w', net_grads w', opt_state w')
            = Nat.iter (Z.to_nat n_epochs)
                (λ s, foldl (train_step (device (self w))) s (DataLoader ds n_batch false r))
                (net_params w, net_grads w, opt_state w)).
Proof.
  intros Hsch Hds Hvd Hp.
  destruct (fit_dataset_loop_calls ds n_batch sh vd save_freq predict_ds
              (time_at (length (trace w))) (seqZ 1 n_epochs) Hds Hvd Hp
              {| logger_rows := Logger_new; min_loss := VNum num_inf; val_logs := None |}
              num_inf w Hsch eq_refl)
    as (loc' & rows & L & P & w' & Hloop & Hr & Hv & Hlen & HlenP & HC & HS & HP & HI & Hs
        & Hiter).
  rewrite length_seqZ in Hlen, HlenP, HC, Hiter. simpl in Hr, HC.
  assert (HPG : P = (λ k, net_params
                            (fit_dataset ds k n_batch sh (Some vd) save_freq
                                         predict_ds w).2) <$> seqZ 1 n_epochs).
  { apply (list_eq_same_length _ _ (Z.to_nat n_epochs));
      [by rewrite length_fmap, length_seqZ | done |].
    intros i x y Hi Hx Hy. rewrite (HP i x Hx).
    rewrite list_lookup_fmap, lookup_seqZ_lt in Hy by lia. simpl in Hy.
    injection Hy as <-. rewrite fit_dataset_net_params, take_seqZ_S by lia.
    by replace (1 + Z.of_nat i) with (Z.of_nat (S i)) by lia. }
  exists rows, L, (set_self (set_logger rows (self w')) w').
  split.
  { unfold fit_dataset, time. mrun. rewrite Hloop. mrun. by rewrite Hr. }
  split; [exact Hv|]. split; [exact Hlen|]. simpl.
  split; [exact HC|]. split; [|split; [|split; [by rewrite Hs | exact Hiter]]].
  - rewrite HS, HPG. f_equal. apply epoch_states_zip.
  - intros Hst r. rewrite (HI Hst r), HPG. f_equal. apply epoch_predictions_zip.
Qed.

Lemma length_improvements (m : Num) (L : list Num) :
  length (improvements m L) = length L.
Proof. revert m. induction L as [|x L IH]; intros m; simpl; [done|]. by rewrite IH. Qed.

(** X15 ([fit_dataset], lines 137-155).  Without scheduler and with a
    validation dataset, [logs.csv] is written once per epoch, the write
    of epoch [i] holding the first [i] rows of the log that the run
    returns; the log has one row per epoch and is stored in the
    attribute [logger]. *)
Theorem logs_csv_rewritten_every_epoch ds n_epochs nb sh vd sf pd w :
  scheduler (self w) = None →
  trainable ds nb sh →
  trainable vd nb false →
  predictable pd →
  ∃ rows w',
    fit_dataset ds n_epochs nb sh (Some vd) sf pd w = (Ok rows, w')
    ∧ length rows = Z.to_nat n_epochs
    ∧ csv_writes (trace w')
      = csv_writes (trace w)
        ++ ((λ i, (path_join (checkpoint_folder (self w)) "logs.csv", take i rows))
              <$> seq 1 (Z.to_nat n_epochs))
    ∧ logger (self w') = Some rows.
Proof.
  intros Hsch Hds Hvd Hp.
  destruct (fit_dataset_files ds n_epochs nb sh vd sf pd w Hsch Hds Hvd Hp)
    as (rows & L & w' & Hrun & Hv & Hlen & HC & _ & _ & Hs & _).
  exists rows, w'. split; [exact Hrun|]. split.
  { apply (f_equal length) in Hv. rewrite !length_fmap in Hv. congruence. }
  split; [exact HC|]. by rewrite Hs.
Qed.

(** X16 ([fit_dataset], lines 145-150).  In a run without scheduler and
    with a validation dataset, the images of the prediction dataset are
    written once for every epoch that a non-zero [save_freq] divides, and
    in no other epoch: into the numbered folder of that epoch, under the
    names that [predict_dataset] gives them, and as the predictions of
    the parameters with which a run of that many epochs ends, those that
    the model file of the folder holds. *)
Theorem predictions_exported_per_numbered_epoch ds n_epochs nb sh vd sf pd w :
  scheduler (self w) = None →
  trainable ds nb sh →
  trainable vd nb false →
  predictable (Some pd) →
  stable_pass pd 1 →
  ∃ rows w',
    fit_dataset ds n_epochs nb sh (Some vd) sf (Some pd) w = (Ok rows, w')
    ∧ ∀ r, images_written (trace w')
           = images_written (trace w)
             ++ flat_map (λ k, epoch_predictions (checkpoint_folder (self w)) sf (Some pd)
                                 (device (self w)) r
                                 (k, net_params
                                       (fit_dataset ds k nb sh (Some vd) sf (Some pd) w).2))
                         (seqZ 1 n_epochs).
Proof.
  intros Hsch Hds Hvd Hp Hst.
  destruct (fit_dataset_files ds n_epochs nb sh vd sf (Some pd) w Hsch Hds Hvd Hp)
    as (rows & L & w' & Hrun & _ & _ & _ & _ & HI & _).
  exists rows, w'. split; [exact Hrun|]. apply HI. by intros ? [= <-].
Qed.

(** ** What the checkpoints hold *)

Lemma writes_app t1 t2 : writes (t1 ++ t2) = writes t1 ++ writes t2.
Proof. apply flat_map_app. Qed.

Lemma on_path_app {A} path (l1 l2 : list (string * A)) :
  on_path path (l1 ++ l2) = on_path path l1 ++ on_path path l2.
Proof. apply flat_map_app. Qed.

Lemma on_path_flat_map {A X} path (g : X → list (string * A)) (l : list X) :
  on_path path (flat_map g l) = flat_map (λ x, on_path path (g x)) l.
Proof.
  induction l as [|x l IH]; [done|].
  cbn [flat_map]. by rewrite on_path_app, IH.
Qed.

Lemma on_path_apart {A} path (l : list (string * A)) :
  Forall (λ pa, pa.1 ≠ path) l → on_path path l = [].
Proof.
  induction 1 as [|[p a] l Hp _ IH]; [done|].
  change ((p, a) :: l) with ([(p, a)] ++ l). rewrite on_path_app, IH.
  apply String.eqb_neq in Hp. unfold on_path. simpl in *. by rewrite Hp.
Qed.

(** Where no log file and no image goes to [path], what is written to it
    is what [torch.save] writes. *)
Lemma on_path_writes path evs :
  Forall (λ pr : string * list (gmap string pyval), pr.1 ≠ path) (csv_writes evs) →
  Forall (λ pi : string * Image, pi.1 ≠ path) (images_written evs) →
  on_path path (writes evs) = Checkpoint <$> on_path path (saved_states evs).
Proof.
  induction evs as [|e evs IH]; [done|]. intros Hc Hi.
  change (e :: evs) with ([e] ++ evs) in *.
  rewrite csv_writes_app in Hc. rewrite images_written_app in Hi.
  apply Forall_app in Hc as [Hc1 Hc2]. apply Forall_app in Hi as [Hi1 Hi2].
  rewrite writes_app, saved_states_app, !on_path_app, fmap_app, (IH Hc2 Hi2).
  f_equal. clear IH Hc2 Hi2.
  destruct e; try reflexivity.
  - unfold on_path. simpl. by destruct (String.eqb path0 path).
  - apply on_path_apart. simpl in *. inversion Hi1; subst. by constructor.
  - apply on_path_apart. simpl in *. inversion Hc1; subst. by constructor.
Qed.

(** The history only grows. *)
Ltac continues_leaf :=
  let evs := fresh "evs" in
  let H := fresh "H" in
  intros ? [evs H]; unfold continues;
  first [ exists evs; exact H
        | simpl; eexists; rewrite H, <- ?app_assoc; reflexivity ].

Lemma fit_dataset_continues ds n_epochs nb sh vd sf pd w0 :
  inv (continues w0) (fit_dataset ds n_epochs nb sh vd sf pd).
Proof.
  unfold fit_dataset.
  repeat lazymatch goal with
         | |- inv _ (load_global "train_loss" ≫= _) =>
             rewrite load_global_train_loss; apply inv_raise_bind
         | |- _ => inv_step
         end;
    continues_leaf.
Qed.


Lemma epoch_states_latest folder sf p k b :
  on_path (path_join folder "latest_model") (epoch_states folder sf p (k, b)) = [p].
Proof.
  destruct (checkpoint_paths_distinct folder) as (Hbl & _ & _ & _ & Hnl & _).
  unfold on_path, epoch_states, epoch_saves. simpl fst. simpl snd.
  assert (String.eqb (path_join folder "best_model") (path_join folder "latest_model")
          = false) as Hb by (by apply String.eqb_neq).
  assert (String.eqb (path_join (path_join folder (pretty k)) "model")
                     (path_join folder "latest_model") = false) as Hn
    by (apply String.eqb_neq, Hnl).
  destruct b, (negb (sf =? 0) && (k `mod` sf =? 0))%bool; simpl;
    rewrite ?String.eqb_refl, ?Hb, ?Hn; reflexivity.
Qed.



Lemma epochs_latest folder sf (G : Z → Params) (kbs : list (Z * bool)) :
  on_path (path_join folder "latest_model")
          (flat_map (λ kb, epoch_states folder sf (G kb.1) kb) kbs)
  = G <$> kbs.*1.
Proof.
  induction kbs as [|[k b] kbs IH]; [done|].
  cbn [flat_map]. by rewrite on_path_app, IH, epoch_states_latest.
Qed.



Lemma last_seqZ_1 n : 0 < n → last (seqZ 1 n) = Some n.
Proof.
  intros. replace n with (Z.of_nat (S (Z.to_nat (n - 1)))) at 1 by lia.
  rewrite seqZ_S, last_snoc. f_equal. lia.
Qed.

(** The images of an epoch, under names without separator, go neither to
    [best_model] nor to [latest_model]. *)
Lemma predicted_apart p d folder (k : Z) (ib : nat * list (field Tensor)) :
  bare_name ib.2 →
  Forall (λ pi : string * Image,
            pi.1 ≠ path_join folder "best_model"
            ∧ pi.1 ≠ path_join folder "latest_model")
         (predicted p d (path_join folder (pretty k)) ib).
Proof.
  destruct ib as [i b]. unfold predicted. simpl.
  destruct b as [|[X|l] rest]; [constructor | | constructor].
  intros Hb. constructor; [|constructor]. simpl.
  apply epoch_file_apart. unfold written_filename. simpl.
  destruct rest as [|[t|[|s l]] rest']; try apply numbered_filename_relative.
  by apply no_separator_relative.
Qed.

Lemma epoch_predictions_apart folder sf pd d r kp :
  (∀ pd', pd = Some pd' → ∀ r, Forall bare_name (DataLoader pd' 1 false r)) →
  Forall (λ pi : string * Image,
            pi.1 ≠ path_join folder "best_model"
            ∧ pi.1 ≠ path_join folder "latest_model")
         (epoch_predictions folder sf pd d r kp).
Proof.
  intros Hb. unfold epoch_predictions, enumerate.
  destruct (negb (sf =? 0) && (kp.1 `mod` sf =? 0))%bool; [|constructor].
  destruct pd as [pd'|]; [|constructor].
  destruct (dataset_truthy pd'); [|constructor].
  specialize (Hb pd' eq_refl r). revert Hb.
  generalize (DataLoader pd' 1 false r). generalize 0%nat.
  intros i bs Hbs. revert i. induction Hbs as [|b bs Hb' _ IH]; intros i; [constructor|].
  cbn [length seq zip zip_with flat_map]. apply Forall_app. split; [|apply IH].
  by apply predicted_apart.
Qed.

(** The writes of a run to [best_model] and to [latest_model], when the
    identifiers of the prediction dataset hold no separator: no image and
    no log file goes to them, so they are the checkpoints of the epochs. *)
Lemma fit_dataset_fixed_files ds n_epochs nb sh vd sf pd w :
  scheduler (self w) = None →
  trainable ds nb sh →
  trainable vd nb false →
  predictable pd →
  (∀ d, pd = Some d → stable_pass d 1 ∧ ∀ r, Forall bare_name (DataLoader d 1 false r)) →
  ∃ rows L w',
    fit_dataset ds n_epochs nb sh (Some vd) sf pd w = (Ok rows, w')
    ∧ (λ row : gmap string pyval, row !! "val_loss") <$> rows
      = (λ v, Some (VNum v)) <$> L
    ∧ length L = Z.to_nat n_epochs
    ∧ ∀ path,
        path = path_join (checkpoint_folder (self w)) "best_model"
        ∨ path = path_join (checkpoint_folder (self w)) "latest_model" →
        on_path path (writes (trace w'))
        = on_path path (writes (trace w))
          ++ (Checkpoint
                <$> on_path path
                      (flat_map (λ kb, epoch_states (checkpoint_folder (self w)) sf
                                         (net_params
                                            (fit_dataset ds kb.1 nb sh (Some vd) sf pd w).2) kb)
                                (zip (seqZ 1 n_epochs) (improvements num_inf L)))).
Proof.
  intros Hsch Hds Hvd Hp Hpd.
  destruct (fit_dataset_files ds n_epochs nb sh vd sf pd w Hsch Hds Hvd Hp)
    as (rows & L & w' & Hrun & Hv & Hlen & HC & HS & HI & _).
  exists rows, L, w'. split; [exact Hrun|]. split; [exact Hv|]. split; [exact Hlen|].
  intros path Hpath.
  destruct (fit_dataset_continues ds n_epochs nb sh (Some vd) sf pd w w) as [evs Hevs].
  { exists []. by rewrite app_nil_r. }
  rewrite Hrun in Hevs. simpl in Hevs.
  specialize (HI (λ d Hd, proj1 (Hpd d Hd)) (rng w)).
  rewrite Hevs in HC, HS, HI. rewrite Hevs.
  rewrite csv_writes_app in HC. apply app_inv_head in HC.
  rewrite saved_states_app in HS. apply app_inv_head in HS.
  rewrite images_written_app in HI. apply app_inv_head in HI.
  destruct (checkpoint_paths_distinct (checkpoint_folder (self w)))
    as (_ & Hlb & Hll & _).
  rewrite writes_app, on_path_app. f_equal.
  rewrite on_path_writes, HS; [done| |].
  - rewrite HC. apply Forall_fmap, Forall_forall. intros i _. simpl.
    destruct Hpath as [->| ->]; done.
  - rewrite HI. apply Forall_flat_map, Forall_forall. intros k _.
    eapply Forall_impl;
      [apply epoch_predictions_apart; intros d Hd; apply (Hpd d Hd)|].
    intros pi [H1 H2]. destruct Hpath as [->| ->]; done.
Qed.

(** X17 ([fit_dataset], lines 132, 142 and 146-150).  After a run of at
    least one epoch, without scheduler and with a validation dataset,
    whose prediction dataset, if there is one, gives the same pass every
    time and has no separator in its identifiers, the last write to
    [latest_model], counting [torch.save], [io.imsave] and [to_csv]
    alike, is the checkpoint of the parameters with which the run ends. *)
Theorem latest_model_holds_final_parameters ds n_epochs nb sh vd sf pd w :
  scheduler (self w) = None →
  trainable ds nb sh →
  trainable vd nb false →
  predictable pd →
  (∀ d, pd = Some d → stable_pass d 1 ∧ ∀ r, Forall bare_name (DataLoader d 1 false r)) →
  0 < n_epochs →
  ∃ rows w',
    fit_dataset ds n_epochs nb sh (Some vd) sf pd w = (Ok rows, w')
    ∧ file_on_disk (path_join (checkpoint_folder (self w)) "latest_model") (trace w')
      = Some (Checkpoint (net_params w')).
Proof.
  intros Hsch Hds Hvd Hp Hpd Hn.
  destruct (fit_dataset_fixed_files ds n_epochs nb sh vd sf pd w Hsch Hds Hvd Hp Hpd)
    as (rows & L & w' & Hrun & _ & Hlen & Hw).
  exists rows, w'. split; [exact Hrun|].
  unfold file_on_disk.
  rewrite (Hw _ (or_intror eq_refl)),
    (epochs_latest _ _ (λ k, net_params (fit_dataset ds k nb sh (Some vd) sf pd w).2)),
    last_app, fmap_last, fmap_last.
  rewrite fst_zip by (rewrite length_improvements, length_seqZ; lia).
  rewrite (last_seqZ_1 n_epochs Hn). simpl. by rewrite Hrun.
Qed.


(** X19 ([fit_dataset], lines 115-150).  In a run without scheduler and
    with a validation dataset, on a training dataset that is not
    shuffled and whose passes do not depend on the random generator, the
    parameters, the gradients and the optimizer end as [n_epochs]
    training passes applied one after the other: validation, the
    checkpoints, the log file and the exported predictions leave the
    training as it would be without them. *)
Theorem fit_dataset_trains_pass_after_pass ds n_epochs nb vd sf pd w :
  scheduler (self w) = None →
  trainable ds nb false →
  trainable vd nb false →
  predictable pd →
  stable_pass ds nb →
  ∃ rows w',
    fit_dataset ds n_epochs nb false (Some vd) sf pd w = (Ok rows, w')
    ∧ ∀ r, (net_params w', net_grads w', opt_state w')
           = Nat.iter (Z.to_nat n_epochs)
               (λ s, foldl (train_step (device (self w))) s (DataLoader ds nb false r))
               (net_params w, net_grads w, opt_state w).
Proof.
  intros Hsch Hds Hvd Hp Hst.
  destruct (fit_dataset_files ds n_epochs nb false vd sf pd w Hsch Hds Hvd Hp)
    as (rows & L & w' & Hrun & _ & _ & _ & _ & _ & _ & Hiter).
  exists rows, w'. split; [exact Hrun|]. by apply Hiter.
Qed.


End Theory.

(** * Concrete runs

    The theorems applied to the mocked collaborators of [Mock], and the
    inputs on which the code departs from the specification. *)

Import Mock.

Ltac xy_batches :=
  repeat (constructor; [by eexists _, _, _ |]); constructor.

Ltac trainable_batches :=
  let r := fresh "r" in
  intros r; vm_compute; split; [discriminate | xy_batches].

Ltac named_batches :=
  repeat (constructor; [eexists _, _, _; split; [reflexivity | discriminate] |]);
  constructor.

(** One epoch with a scheduler: [NameError], and no step. *)
Lemma fit_dataset_scheduler_not_stepped_witness :
  is_Some (scheduler (self w0_sched))
  ∧ 0 < 1
  ∧ trainable [xy] 1 false
  ∧ ∃ w',
      fit_dataset [xy] 1 1 false (Some [xy]) 100 None w0_sched
      = (Raise (NameError "train_loss"), w')
      ∧ length (observed_losses (trace w'))
        = (length (observed_losses (trace w0_sched)) + length (DataLoader [xy] 1 false (rng w0_sched)))%nat
      ∧ mode_switches (trace w') = mode_switches (trace w0_sched) ++ [true; false].
Proof.
  assert (H1 : is_Some (scheduler (self w0_sched))) by (vm_compute; eauto).
  assert (H2 : 0 < 1) by lia.
  assert (H3 : trainable [xy] 1 false) by trainable_batches.
  split; [exact H1|]. split; [exact H2|]. split; [exact H3|].
  exact (proj2 (fit_dataset_scheduler_not_stepped [xy] 1 1 false (Some [xy]) 100 None
                  w0_sched) H1 H2 H3).
Defined.

(** One epoch without a validation dataset: [NameError], nothing on disk. *)
Lemma fit_dataset_without_validation_stops_witness :
  0 < 1
  ∧ trainable [xy] 1 false
  ∧ ∃ w',
      fit_dataset [xy] 1 1 false None 100 None w0 = (Raise (NameError "train_loss"), w')
      ∧ length (observed_losses (trace w'))
        = (length (observed_losses (trace w0)) + length (DataLoader [xy] 1 false (rng w0)))%nat
      ∧ mode_switches (trace w') = mode_switches (trace w0) ++ [true; false].
Proof.
  assert (H2 : 0 < 1) by lia.
  assert (H3 : trainable [xy] 1 false) by trainable_batches.
  split; [exact H2|]. split; [exact H3|].
  exact (proj2 (fit_dataset_without_validation_stops [xy] 1 1 false 100 None w0) H2 H3).
Defined.

(** The epoch of that run had a training loss of 3, below the infinite
    initial best, and [best_model] was to be written. *)
Example training_loss_improves_on_infinity :
  (λ logs : gmap string pyval, logs !! "train_loss") <$> returned (fit_epoch [xy] 1 false w0).1
  = Some (Some (VNum (Fin 3)))
  ∧ num_lt (Fin 3) num_inf = true.
Proof. vm_compute. done. Qed.

(** Three batches with losses 3, 2 and 3/2. *)
Lemma fit_epoch_returns_mean_witness :
  (1 ≤ length (DataLoader [xy; xy; xy] 1 false (rng w0)))%nat
  ∧ Forall xy_batch (DataLoader [xy; xy; xy] 1 false (rng w0))
  ∧ ∃ w' losses,
      fit_epoch [xy; xy; xy] 1 false w0
      = (Ok {[ "train_loss" := VNum (arithmetic_mean losses) ]}, w')
      ∧ observed_losses (trace w') = observed_losses (trace w0) ++ losses
      ∧ length losses = length (DataLoader [xy; xy; xy] 1 false (rng w0)).
Proof.
  assert (H1 : (1 ≤ length (DataLoader [xy; xy; xy] 1 false (rng w0)))%nat) by (vm_compute; lia).
  assert (H2 : Forall xy_batch (DataLoader [xy; xy; xy] 1 false (rng w0)))
    by (vm_compute; xy_batches).
  split; [exact H1|]. split; [exact H2|].
  exact (fit_epoch_returns_mean [xy; xy; xy] 1 false w0 H1 H2).
Defined.

Example fit_epoch_three_batches :
  observed_losses (trace (fit_epoch [xy; xy; xy] 1 false w0).2)
  = [Fin 3; Fin 2; Fin (3 # 2)]
  ∧ (λ logs : gmap string pyval, logs !! "train_loss")
      <$> returned (fit_epoch [xy; xy; xy] 1 false w0).1
    = Some (Some (VNum (Fin (13 # 6)))).
Proof. vm_compute. done. Qed.

(** C4, the claim as stated fails: on the dataset without batches neither
    method fails by a division by zero; both stop on the unbound
    [X_batch]. *)
Lemma empty_dataset_zero_division_counterexample :
  (fit_epoch [] 1 false w0).1 = Raise (UnboundLocalError "X_batch")
  ∧ (fit_epoch [] 1 false w0).1 ≠ Raise ZeroDivisionError
  ∧ (val_epoch [] 1 w0).1 = Raise (UnboundLocalError "X_batch")
  ∧ (val_epoch [] 1 w0).1 ≠ Raise ZeroDivisionError.
Proof. vm_compute. repeat split; discriminate. Qed.

Lemma empty_dataset_unbound_local_witness :
  1 ≤ 1
  ∧ DataLoader [] 1 false (rng w0) = []
  ∧ (fit_epoch [] 1 false w0).1 = Raise (UnboundLocalError "X_batch")
  ∧ (val_epoch [] 1 w0).1 = Raise (UnboundLocalError "X_batch").
Proof.
  assert (H0 : 1 ≤ 1) by lia.
  assert (H1 : DataLoader [] 1 false (rng w0) = []) by reflexivity.
  split; [exact H0|]. split; [exact H1|].
  exact (proj2 (proj2 (empty_dataset_unbound_local [] 1 false w0 H0)) H1).
Defined.


(** The example of the specification: [best_model] is written in epochs
    1, 2 and 4, [latest_model] in all four. *)
Example validation_losses_2_15_18_12 :
  (fmap (M := list) (λ row : gmap string pyval, row !! "val_loss"))
    <$> returned (fit_dataset [xy] 4 1 false (Some [xy]) 100 None w0).1
  = Some [Some (VNum (Fin 2)); Some (VNum (Fin (3 # 2)));
          Some (VNum (Fin (9 # 5))); Some (VNum (Fin (6 # 5)))]
  ∧ improvements num_inf [Fin 2; Fin (3 # 2); Fin (9 # 5); Fin (6 # 5)]
    = [true; true; false; true]
  ∧ saved_paths (trace (fit_dataset [xy] 4 1 false (Some [xy]) 100 None w0).2)
    = [ "ckpt/best_model"; "ckpt/latest_model";
        "ckpt/best_model"; "ckpt/latest_model";
        "ckpt/latest_model";
        "ckpt/best_model"; "ckpt/latest_model" ].
Proof. vm_compute. done. Qed.

(** C6, the claim as stated fails: the source supplies the identifiers
    a.png and b.png, after the targets, and the files are written under
    001.png and 002.png. *)
Lemma predict_dataset_identifier_counterexample :
  map (λ ib, path_join "out" (claimed_filename ib)) (enumerate (DataLoader identified 1 false (rng w0)))
  = ["out/a.png"; "out/b.png"]
  ∧ image_paths (trace (predict_dataset identified "out" w0).2)
    = ["out/001.png"; "out/002.png"]
  ∧ image_paths (trace (predict_dataset identified "out" w0).2)
    ≠ image_paths (trace w0)
      ++ map (λ ib, path_join "out" (claimed_filename ib))
             (enumerate (DataLoader identified 1 false (rng w0))).
Proof. vm_compute. repeat split; discriminate. Qed.

Lemma predict_dataset_file_names_witness :
  Forall named_or_plain (DataLoader identified 1 false (rng w0))
  ∧ ∃ w',
      predict_dataset identified "out" w0 = (Ok tt, w')
      ∧ image_paths (trace w')
        = image_paths (trace w0)
          ++ map (λ ib, path_join "out" (written_filename ib))
                 (enumerate (DataLoader identified 1 false (rng w0))).
Proof.
  assert (H1 : Forall named_or_plain (DataLoader identified 1 false (rng w0)))
    by (vm_compute; named_batches).
  split; [exact H1|].
  exact (predict_dataset_file_names identified "out" w0 H1).
Defined.

(** The examples of the specification on sources of the shapes the code
    tells apart: identifiers right after the input, and no identifiers. *)
Example predict_dataset_names_first :
  image_paths (trace (predict_dataset [ [FTensor 1%nat; FStrs ["a.png"]];
                                         [FTensor 2%nat; FStrs ["b.png"]] ]
                                       "out" w0).2)
  = ["out/a.png"; "out/b.png"]
  ∧ image_paths (trace (predict_dataset [xy; xy] "out" w0).2)
    = ["out/001.png"; "out/002.png"].
Proof. vm_compute. done. Qed.

(** A source that yields the input alone stops line 162 on [rest[0]],
    before any file is written. *)
Example predict_dataset_input_alone :
  (predict_dataset [ [FTensor 1%nat] ] "out" w0).1 = Raise IndexError
  ∧ image_paths (trace (predict_dataset [ [FTensor 1%nat] ] "out" w0).2) = [].
Proof. vm_compute. done. Qed.

(** Twelve epochs with [save_freq] 5. *)
Lemma numbered_checkpoint_every_save_freq_witness :
  scheduler (self w0) = None
  ∧ trainable [xy] 1 false
  ∧ predictable None
  ∧ ∃ rows flags w',
      fit_dataset [xy] 12 1 false (Some [xy]) 5 None w0 = (Ok rows, w')
      ∧ length flags = Z.to_nat 12
      ∧ disk (trace w')
        = disk (trace w0)
          ++ flat_map (epoch_disk (checkpoint_folder (self w0)) 5 (predicting None))
                      (zip (seqZ 1 12) flags).
Proof.
  assert (H1 : scheduler (self w0) = None) by reflexivity.
  assert (H3 : trainable [xy] 1 false) by trainable_batches.
  assert (H5 : predictable None) by exact I.
  split; [exact H1|]. split; [exact H3|]. split; [exact H5|].
  exact (proj2 (numbered_checkpoint_every_save_freq [xy] 12 1 false (Some [xy]) 5 None w0)
           H1 H3 (ex_intro _ [xy] (conj eq_refl H3)) H5).
Defined.

(** The example of the specification: folders 5 and 10, and no others. *)
Example save_freq_5_n_epochs_12 :
  made_dirs (disk (trace (fit_dataset [xy] 12 1 false (Some [xy]) 5 None w0).2))
  = made_dirs (disk (trace w0)) ++ ["ckpt/5"; "ckpt/10"]
  ∧ filter (λ p, p ≠ "ckpt/best_model" ∧ p ≠ "ckpt/latest_model")
           (saved_paths (trace (fit_dataset [xy] 12 1 false (Some [xy]) 5 None w0).2))
    = ["ckpt/5/model"; "ckpt/10/model"]
  ∧ made_dirs (disk (trace (fit_dataset [xy] 12 1 false (Some [xy]) 0 None w0).2))
    = made_dirs (disk (trace w0)).
Proof. vm_compute. done. Qed.

(** C9, the claim as stated fails: [fit_dataset], here over no epoch,
    returns with a new attribute [logger] on the instance. *)
Lemma fit_dataset_adds_logger_counterexample :
  (fit_dataset [xy] 0 1 false None 100 None w0).1 = Ok []
  ∧ logger (self w0) = None
  ∧ logger (self (fit_dataset [xy] 0 1 false None 100 None w0).2) = Some []
  ∧ self (fit_dataset [xy] 0 1 false None 100 None w0).2 ≠ self w0.
Proof. vm_compute. repeat split; discriminate. Qed.

(** C10, the claim as stated fails: [fit_dataset] over no epoch returns
    and leaves the network in the training mode it found it in. *)
Lemma fit_dataset_no_epoch_counterexample :
  net_training w0 = true
  ∧ (fit_dataset [xy] 0 1 false None 100 None w0).1 = Ok []
  ∧ net_training (fit_dataset [xy] 0 1 false None 100 None w0).2 = true
  ∧ ¬ returns_in_eval_mode (fit_dataset [xy] 0 1 false None 100 None) w0.
Proof. vm_compute. repeat split; discriminate. Qed.

Lemma methods_leave_eval_mode_witness :
  0 < 4
  ∧ returns_in_eval_mode (fit_dataset [xy] 4 1 false (Some [xy]) 100 None) w0.
Proof.
  assert (H1 : 0 < 4) by lia.
  split; [exact H1|].
  exact (proj2 (proj2 (proj2 (proj2
           (methods_leave_eval_mode [xy] 4 1 false (Some [xy]) 100 None "out" O w0)))) H1).
Defined.

Example fit_dataset_four_epochs_eval_mode :
  (λ rows : list (gmap string pyval), length rows)
    <$> returned (fit_dataset [xy] 4 1 false (Some [xy]) 100 None w0).1 = Some 4%nat
  ∧ net_training (fit_dataset [xy] 4 1 false (Some [xy]) 100 None w0).2 = false.
Proof. vm_compute. done. Qed.

(** ** Further concrete runs *)

(** Equations between closed terms, by evaluation of both sides. *)
Ltac by_computation :=
  repeat apply conj;
  lazymatch goal with
  | |- @eq ?T _ ?r => vm_cast_no_check (@eq_refl T r)
  end.

(** Three batches: the losses 3, 2 and 3/2 of the parameters after zero,
    one and two steps. *)
Lemma fit_epoch_trains_in_order_witness :
  DataLoader [xy; xy; xy] 1 false (rng w0) ≠ []
  ∧ Forall xy_batch (DataLoader [xy; xy; xy] 1 false (rng w0))
  ∧ ∃ w',
      fit_epoch [xy; xy; xy] 1 false w0
      = (Ok {[ "train_loss" :=
                 VNum (arithmetic_mean
                         (train_losses (device (self w0))
                                       (net_params w0, net_grads w0, opt_state w0)
                                       (DataLoader [xy; xy; xy] 1 false (rng w0)))) ]}, w')
      ∧ (net_params w', net_grads w', opt_state w')
        = foldl (train_step (device (self w0))) (net_params w0, net_grads w0, opt_state w0)
                (DataLoader [xy; xy; xy] 1 false (rng w0))
      ∧ net_training w' = false
      ∧ metric_state w' = metric_state w0
      ∧ rng w' = rng_after [xy; xy; xy] 1 false (rng w0).
Proof.
  assert (H1 : DataLoader [xy; xy; xy] 1 false (rng w0) ≠ []) by (vm_compute; discriminate).
  assert (H2 : Forall xy_batch (DataLoader [xy; xy; xy] 1 false (rng w0)))
    by (vm_compute; xy_batches).
  split; [exact H1|]. split; [exact H2|].
  exact (fit_epoch_trains_in_order [xy; xy; xy] 1 false w0 H1 H2).
Defined.

Example fit_epoch_three_steps :
  train_losses (device (self w0)) (net_params w0, net_grads w0, opt_state w0) [xy; xy; xy]
  = [Fin 3; Fin 2; Fin (3 # 2)]
  ∧ foldl (train_step (device (self w0))) (net_params w0, net_grads w0, opt_state w0)
          [xy; xy; xy]
    = (3%nat, 1%nat, 3%nat)
  ∧ net_params (fit_epoch [xy; xy; xy] 1 false w0).2 = 3%nat.
Proof. by_computation. Qed.

Lemma fit_epoch_calls_per_batch_witness :
  1 ≤ 1
  ∧ (DataLoader [xy; xy] 1 false (rng w0) ≠ [] ∨ false = false)
  ∧ Forall xy_batch (DataLoader [xy; xy] 1 false (rng w0))
  ∧ update_calls (trace (fit_epoch [xy; xy] 1 false w0).2)
    = update_calls (trace w0) ++ batch_updates (length (DataLoader [xy; xy] 1 false (rng w0)))
  ∧ forwarded (trace (fit_epoch [xy; xy] 1 false w0).2)
    = forwarded (trace w0)
      ++ (tensor_to (device (self w0)) <$> inputs_of (DataLoader [xy; xy] 1 false (rng w0)))
  ∧ mode_switches (trace (fit_epoch [xy; xy] 1 false w0).2)
    = mode_switches (trace w0) ++ [true; false]
  ∧ rng (fit_epoch [xy; xy] 1 false w0).2 = rng_after [xy; xy] 1 false (rng w0).
Proof.
  assert (H0 : 1 ≤ 1) by lia.
  assert (H1 : DataLoader [xy; xy] 1 false (rng w0) ≠ [] ∨ false = false)
    by (right; reflexivity).
  assert (H2 : Forall xy_batch (DataLoader [xy; xy] 1 false (rng w0)))
    by (vm_compute; xy_batches).
  split; [exact H0|]. split; [exact H1|]. split; [exact H2|].
  exact (fit_epoch_calls_per_batch [xy; xy] 1 false w0 H0 H1 H2).
Defined.

(** The empty dataset, not shuffled: no call on the network or on the
    optimizer, and both mode switches. *)
Example fit_epoch_calls_on_empty_pass :
  update_calls (trace (fit_epoch [] 1 false w0).2) = update_calls (trace w0)
  ∧ forwarded (trace (fit_epoch [] 1 false w0).2) = forwarded (trace w0)
  ∧ mode_switches (trace (fit_epoch [] 1 false w0).2)
    = mode_switches (trace w0) ++ [true; false].
Proof. by_computation. Qed.

(** A pass whose second batch holds the input alone. *)
Lemma fit_epoch_stops_at_malformed_batch_witness :
  DataLoader [xy; [FTensor 0%nat]; xy] 1 false (rng w0) = [xy] ++ [FTensor 0%nat] :: [xy]
  ∧ Forall xy_batch [xy]
  ∧ shape_error [FTensor 0%nat] = Some ValueError
  ∧ ∃ w',
      fit_epoch [xy; [FTensor 0%nat]; xy] 1 false w0 = (Raise ValueError, w')
      ∧ (net_params w', net_grads w', opt_state w')
        = foldl (train_step (device (self w0))) (net_params w0, net_grads w0, opt_state w0)
                [xy]
      ∧ update_calls (trace w') = update_calls (trace w0) ++ batch_updates (length [xy])
      ∧ net_training w' = true
      ∧ mode_switches (trace w') = mode_switches (trace w0) ++ [true].
Proof.
  assert (H1 : DataLoader [xy; [FTensor 0%nat]; xy] 1 false (rng w0)
               = [xy] ++ [FTensor 0%nat] :: [xy]) by reflexivity.
  assert (H2 : Forall xy_batch [xy]) by xy_batches.
  assert (H3 : shape_error [FTensor 0%nat] = Some ValueError) by reflexivity.
  split; [exact H1|]. split; [exact H2|]. split; [exact H3|].
  exact (fit_epoch_stops_at_malformed_batch [xy; [FTensor 0%nat]; xy] 1 false
           [xy] [FTensor 0%nat] [xy] ValueError w0 H1 H2 H3).
Defined.

Lemma val_epoch_evaluates_entry_parameters_witness :
  DataLoader [xy; xy] 1 false (rng w0) ≠ []
  ∧ Forall xy_batch (DataLoader [xy; xy] 1 false (rng w0))
  ∧ ∃ w',
      val_epoch [xy; xy] 1 w0
      = (Ok (dict_merge
               {[ "val_loss" :=
                    VNum (arithmetic_mean
                            (batch_losses (net_params w0) false (device (self w0))
                                          (DataLoader [xy; xy] 1 false (rng w0)))) ]}
               (VNum <$> metric_get_results
                           (Z.of_nat (length (DataLoader [xy; xy] 1 false (rng w0))))
                           (metric_state w'))), w')
      ∧ metric_state w'
        = batch_metrics (net_params w0) false (device (self w0))
                        (metric_reset (metric_state w0))
                        (DataLoader [xy; xy] 1 false (rng w0))
      ∧ metric_calls (trace w')
        = metric_calls (trace w0)
          ++ EvMetricReset
             :: replicate (length (DataLoader [xy; xy] 1 false (rng w0))) EvMetricUpdate
      ∧ rng w' = rng_after [xy; xy] 1 false (rng w0).
Proof.
  assert (H1 : DataLoader [xy; xy] 1 false (rng w0) ≠ []) by (vm_compute; discriminate).
  assert (H2 : Forall xy_batch (DataLoader [xy; xy] 1 false (rng w0)))
    by (vm_compute; xy_batches).
  split; [exact H1|]. split; [exact H2|].
  exact (val_epoch_evaluates_entry_parameters [xy; xy] 1 w0 H1 H2).
Defined.

Lemma val_epoch_metric_named_val_loss_witness :
  DataLoader [xy; xy] 1 false (rng w0) ≠ []
  ∧ Forall xy_batch (DataLoader [xy; xy] 1 false (rng w0))
  ∧ ∃ logs w',
      val_epoch [xy; xy] 1 w0 = (Ok logs, w')
      ∧ (∀ name, name ≠ "val_loss" →
           logs !! name
           = VNum <$> metric_get_results
                        (Z.of_nat (length (DataLoader [xy; xy] 1 false (rng w0))))
                        (metric_state w') !! name)
      ∧ logs !! "val_loss"
        = Some (VNum (default
                        (arithmetic_mean
                           (batch_losses (net_params w0) false (device (self w0))
                                         (DataLoader [xy; xy] 1 false (rng w0))))
                        (metric_get_results
                           (Z.of_nat (length (DataLoader [xy; xy] 1 false (rng w0))))
                           (metric_state w') !! "val_loss"))).
Proof.
  assert (H1 : DataLoader [xy; xy] 1 false (rng w0) ≠ []) by (vm_compute; discriminate).
  assert (H2 : Forall xy_batch (DataLoader [xy; xy] 1 false (rng w0)))
    by (vm_compute; xy_batches).
  split; [exact H1|]. split; [exact H2|].
  exact (val_epoch_metric_named_val_loss [xy; xy] 1 w0 H1 H2).
Defined.

(** The mocked aggregator reports the number of batches it has seen. *)
Example val_epoch_two_batches :
  returned (val_epoch [xy; xy] 1 w0).1
  = Some {[ "val_loss" := VNum (Fin 3); "batches" := VNum (Fin 2) ]}.
Proof. by_computation. Qed.

(** A named sample, then a sample that holds the input alone. *)
Lemma predict_dataset_stops_at_unnamed_sample_witness :
  DataLoader [ [FTensor 1%nat; FStrs ["a.png"]]; [FTensor 2%nat]; xy ] 1 false (rng w0)
  = [ [FTensor 1%nat; FStrs ["a.png"]] ] ++ [FTensor 2%nat] :: [xy]
  ∧ Forall named_or_plain [ [FTensor 1%nat; FStrs ["a.png"]] ]
  ∧ naming_error [FTensor 2%nat] = Some IndexError
  ∧ ∃ w',
      predict_dataset [ [FTensor 1%nat; FStrs ["a.png"]]; [FTensor 2%nat]; xy ] "out" w0
      = (Raise IndexError, w')
      ∧ image_paths (trace w')
        = image_paths (trace w0)
          ++ map (λ ib, path_join "out" (written_filename ib))
                 (enumerate [ [FTensor 1%nat; FStrs ["a.png"]] ])
      ∧ disk (trace w') = disk (trace w0) ++ [MadeDir "out"]
      ∧ net_training w' = false.
Proof.
  assert (H1 : DataLoader [ [FTensor 1%nat; FStrs ["a.png"]]; [FTensor 2%nat]; xy ]
                          1 false (rng w0)
               = [ [FTensor 1%nat; FStrs ["a.png"]] ] ++ [FTensor 2%nat] :: [xy])
    by reflexivity.
  assert (H2 : Forall named_or_plain [ [FTensor 1%nat; FStrs ["a.png"]] ]) by named_batches.
  assert (H3 : naming_error [FTensor 2%nat] = Some IndexError) by reflexivity.
  split; [exact H1|]. split; [exact H2|]. split; [exact H3|].
  exact (predict_dataset_stops_at_unnamed_sample
           [ [FTensor 1%nat; FStrs ["a.png"]]; [FTensor 2%nat]; xy ] "out"
           [ [FTensor 1%nat; FStrs ["a.png"]] ] [FTensor 2%nat] [xy] IndexError w0
           H1 H2 H3).
Defined.

Example predict_dataset_first_of_three :
  image_paths
    (trace (predict_dataset [ [FTensor 1%nat; FStrs ["a.png"]]; [FTensor 2%nat]; xy ]
                            "out" w0).2)
  = ["out/a.png"].
Proof. by_computation. Qed.

Lemma predict_dataset_numbered_files_distinct_witness :
  Forall plain_batch (DataLoader [xy; xy] 1 false (rng w0))
  ∧ ∃ w',
      predict_dataset [xy; xy] "out" w0 = (Ok tt, w')
      ∧ image_paths (trace w')
        = image_paths (trace w0)
          ++ ((λ i, path_join "out" (numbered_filename i))
                <$> seq 0 (length (DataLoader [xy; xy] 1 false (rng w0))))
      ∧ NoDup ((λ i, path_join "out" (numbered_filename i))
                 <$> seq 0 (length (DataLoader [xy; xy] 1 false (rng w0)))).
Proof.
  assert (H1 : Forall plain_batch (DataLoader [xy; xy] 1 false (rng w0)))
    by (vm_compute; repeat (constructor; [by eexists _, _, _ |]); constructor).
  split; [exact H1|].
  exact (predict_dataset_numbered_files_distinct [xy; xy] "out" w0 H1).
Defined.

(** Positions 1, 999 and 1000: three digits up to 999, four from there. *)
Example numbered_filenames :
  numbered_filename 0 = "001.png"
  ∧ numbered_filename 998 = "999.png"
  ∧ numbered_filename 999 = "1000.png"
  ∧ stem_number "1000.png" = 1000%N.
Proof. by_computation. Qed.

Lemma predict_dataset_writes_under_export_path_witness :
  Forall named_or_plain (DataLoader [ [FTensor 1%nat; FStrs ["a.png"]]; xy ] 1 false (rng w0))
  ∧ Forall relative_name (DataLoader [ [FTensor 1%nat; FStrs ["a.png"]]; xy ] 1 false (rng w0))
  ∧ ∃ w' paths,
      predict_dataset [ [FTensor 1%nat; FStrs ["a.png"]]; xy ] "out" w0 = (Ok tt, w')
      ∧ image_paths (trace w') = image_paths (trace w0) ++ paths
      ∧ length paths
        = length (DataLoader [ [FTensor 1%nat; FStrs ["a.png"]]; xy ] 1 false (rng w0))
      ∧ Forall (λ p, String.prefix "out" p = true) paths.
Proof.
  assert (H1 : Forall named_or_plain
                 (DataLoader [ [FTensor 1%nat; FStrs ["a.png"]]; xy ] 1 false (rng w0)))
    by (vm_compute; named_batches).
  assert (H2 : Forall relative_name
                 (DataLoader [ [FTensor 1%nat; FStrs ["a.png"]]; xy ] 1 false (rng w0)))
    by (vm_compute; repeat constructor).
  split; [exact H1|]. split; [exact H2|].
  exact (predict_dataset_writes_under_export_path
           [ [FTensor 1%nat; FStrs ["a.png"]]; xy ] "out" w0 H1 H2).
Defined.

(** An identifier that is an absolute path takes the image out of the
    export directory. *)
Example predict_dataset_absolute_identifier :
  image_paths (trace (predict_dataset [ [FTensor 1%nat; FStrs ["/tmp/a.png"]] ] "out" w0).2)
  = ["/tmp/a.png"].
Proof. by_computation. Qed.

Lemma predict_dataset_writes_predictions_witness :
  Forall named_or_plain (DataLoader [ [FTensor 1%nat; FStrs ["a.png"]]; xy ] 1 false (rng w0))
  ∧ ∃ w',
      predict_dataset [ [FTensor 1%nat; FStrs ["a.png"]]; xy ] "out" w0 = (Ok tt, w')
      ∧ images_written (trace w')
        = images_written (trace w0)
          ++ flat_map (predicted (net_params w0) (device (self w0)) "out")
                      (enumerate (DataLoader [ [FTensor 1%nat; FStrs ["a.png"]]; xy ]
                                             1 false (rng w0)))
      ∧ rng w' = rng_after [ [FTensor 1%nat; FStrs ["a.png"]]; xy ] 1 false (rng w0).
Proof.
  assert (H1 : Forall named_or_plain
                 (DataLoader [ [FTensor 1%nat; FStrs ["a.png"]]; xy ] 1 false (rng w0)))
    by (vm_compute; named_batches).
  split; [exact H1|].
  exact (predict_dataset_writes_predictions
           [ [FTensor 1%nat; FStrs ["a.png"]]; xy ] "out" w0 H1).
Defined.

(** After one training epoch of two steps the mocked network outputs
    2. *)
Example predict_dataset_after_training :
  images_written
    (trace (predict_dataset [ [FTensor 1%nat; FStrs ["a.png"]]; xy ] "out"
                            (fit_epoch [xy; xy] 1 false w0).2).2)
  = [("out/a.png", 2%nat); ("out/002.png", 2%nat)].
Proof. by_computation. Qed.

Lemma fit_dataset_zero_epochs_witness :
  0 ≤ 0
  ∧ fit_dataset [xy] 0 1 false (Some [xy]) 100 None w0
    = (Ok [], set_self (set_logger [] (self w0)) w0).
Proof.
  assert (H1 : 0 ≤ 0) by lia.
  split; [exact H1|].
  exact (fit_dataset_zero_epochs [xy] 0 1 false (Some [xy]) 100 None w0 H1).
Defined.

(** A training dataset without batches. *)
Lemma fit_dataset_first_epoch_failure_witness :
  0 < 3
  ∧ (fit_epoch [] 1 false w0).1 = Raise (UnboundLocalError "X_batch")
  ∧ fit_dataset [] 3 1 false (Some [xy]) 1 None w0
    = (Raise (UnboundLocalError "X_batch"), (fit_epoch [] 1 false w0).2)
  ∧ self (fit_dataset [] 3 1 false (Some [xy]) 1 None w0).2 = self w0
  ∧ files_idle w0 (fit_dataset [] 3 1 false (Some [xy]) 1 None w0).2.
Proof.
  assert (H1 : 0 < 3) by lia.
  assert (H2 : (fit_epoch [] 1 false w0).1 = Raise (UnboundLocalError "X_batch"))
    by reflexivity.
  split; [exact H1|]. split; [exact H2|].
  exact (fit_dataset_first_epoch_failure [] 3 1 false (Some [xy]) 1 None
           (UnboundLocalError "X_batch") w0 H1 H2).
Defined.

(** A validation dataset without batches. *)
Lemma fit_dataset_empty_validation_witness :
  scheduler (self w0) = None
  ∧ 0 < 3
  ∧ trainable [xy; xy] 1 false
  ∧ (∀ r, DataLoader [] 1 false r = [])
  ∧ ∃ w',
      fit_dataset [xy; xy] 3 1 false (Some []) 1 None w0
      = (Raise (UnboundLocalError "X_batch"), w')
      ∧ (net_params w', net_grads w', opt_state w')
        = foldl (train_step (device (self w0))) (net_params w0, net_grads w0, opt_state w0)
                (DataLoader [xy; xy] 1 false (rng w0))
      ∧ files_idle w0 w'
      ∧ self w' = self w0
      ∧ net_training w' = false.
Proof.
  assert (H1 : scheduler (self w0) = None) by reflexivity.
  assert (H2 : 0 < 3) by lia.
  assert (H3 : trainable [xy; xy] 1 false) by trainable_batches.
  assert (H4 : ∀ r, DataLoader [] 1 false r = []) by (intros r; reflexivity).
  split; [exact H1|]. split; [exact H2|]. split; [exact H3|]. split; [exact H4|].
  exact (fit_dataset_empty_validation [xy; xy] 3 1 false [] 1 None w0 H1 H2 H3 H4).
Defined.

Example fit_dataset_empty_validation_run :
  net_params (fit_dataset [xy; xy] 3 1 false (Some []) 1 None w0).2 = 2%nat
  ∧ disk (trace (fit_dataset [xy; xy] 3 1 false (Some []) 1 None w0).2) = disk (trace w0)
  ∧ logger (self (fit_dataset [xy; xy] 3 1 false (Some []) 1 None w0).2) = None.
Proof. by_computation. Qed.

Lemma logs_csv_rewritten_every_epoch_witness :
  scheduler (self w0) = None
  ∧ trainable [xy] 1 false
  ∧ predictable None
  ∧ ∃ rows w',
      fit_dataset [xy] 3 1 false (Some [xy]) 100 None w0 = (Ok rows, w')
      ∧ length rows = Z.to_nat 3
      ∧ csv_writes (trace w')
        = csv_writes (trace w0)
          ++ ((λ i, (path_join (checkpoint_folder (self w0)) "logs.csv", take i rows))
                <$> seq 1 (Z.to_nat 3))
      ∧ logger (self w') = Some rows.
Proof.
  assert (H1 : scheduler (self w0) = None) by reflexivity.
  assert (H3 : trainable [xy] 1 false) by trainable_batches.
  assert (H5 : predictable None) by exact I.
  split; [exact H1|]. split; [exact H3|]. split; [exact H5|].
  exact (logs_csv_rewritten_every_epoch [xy] 3 1 false [xy] 100 None w0 H1 H3 H3 H5).
Defined.

(** A prediction dataset whose first identifier is the bare name
    [latest_model]: the image of epochs 2 and 4 goes into the numbered
    folder, and the file of the checkpoint folder keeps the checkpoint. *)
Lemma latest_model_holds_final_parameters_witness :
  scheduler (self w0) = None
  ∧ trainable [xy] 1 false
  ∧ predictable (Some [[FTensor 0%nat; FStrs ["latest_model"]]; xy])
  ∧ (∀ d, Some [[FTensor 0%nat; FStrs ["latest_model"]]; xy] = Some d →
          stable_pass d 1 ∧ ∀ r, Forall bare_name (DataLoader d 1 false r))
  ∧ 0 < 4
  ∧ ∃ rows w',
      fit_dataset [xy] 4 1 false (Some [xy]) 2
                  (Some [[FTensor 0%nat; FStrs ["latest_model"]]; xy]) w0 = (Ok rows, w')
      ∧ file_on_disk (path_join (checkpoint_folder (self w0)) "latest_model") (trace w')
        = Some (Checkpoint (net_params w')).
Proof.
  assert (H1 : scheduler (self w0) = None) by reflexivity.
  assert (H3 : trainable [xy] 1 false) by trainable_batches.
  assert (H5 : predictable (Some [[FTensor 0%nat; FStrs ["latest_model"]]; xy]))
    by (intros _ r; vm_compute; named_batches).
  assert (H6 : ∀ d, Some [[FTensor 0%nat; FStrs ["latest_model"]]; xy] = Some d →
                    stable_pass d 1 ∧ ∀ r, Forall bare_name (DataLoader d 1 false r)).
  { intros d [= <-]. split; [intros r r'; reflexivity|].
    intros r. vm_compute. repeat constructor. }
  assert (H7 : 0 < 4) by lia.
  split; [exact H1|]. split; [exact H3|]. split; [exact H5|]. split; [exact H6|].
  split; [exact H7|].
  exact (latest_model_holds_final_parameters [xy] 4 1 false [xy] 2
           (Some [[FTensor 0%nat; FStrs ["latest_model"]]; xy]) w0 H1 H3 H3 H5 H6 H7).
Defined.

Example latest_model_beside_image_of_that_name :
  images_written
    (trace (fit_dataset [xy] 4 1 false (Some [xy]) 2
                        (Some [[FTensor 0%nat; FStrs ["latest_model"]]; xy]) w0).2)
  = [("ckpt/2/latest_model", 2%nat); ("ckpt/2/002.png", 2%nat);
     ("ckpt/4/latest_model", 4%nat); ("ckpt/4/002.png", 4%nat)]
  ∧ file_on_disk "ckpt/latest_model"
      (trace (fit_dataset [xy] 4 1 false (Some [xy]) 2
                          (Some [[FTensor 0%nat; FStrs ["latest_model"]]; xy]) w0).2)
    = Some (Checkpoint 4%nat).
Proof. by_computation. Qed.

(** An identifier with separators can name any path.  For a model made
    with the folder [/ckpt], the identifier [/ckpt/latest_model] sends
    the image of epoch 2 to the checkpoint, after [torch.save]. *)
Example absolute_identifier_reaches_latest_model :
  on_path "/ckpt/latest_model"
    (writes (trace (fit_dataset [xy] 2 1 false (Some [xy]) 2
                                (Some [[FTensor 0%nat; FStrs ["/ckpt/latest_model"]]])
                                (init "/ckpt" None tt w0).2).2))
  = [Checkpoint 1%nat; Checkpoint 2%nat; Picture 2%nat]
  ∧ file_on_disk "/ckpt/latest_model"
      (trace (fit_dataset [xy] 2 1 false (Some [xy]) 2
                          (Some [[FTensor 0%nat; FStrs ["/ckpt/latest_model"]]])
                          (init "/ckpt" None tt w0).2).2)
    = Some (Picture 2%nat).
Proof. by_computation. Qed.


(** Five epochs with validation losses 2, 3/2, 9/5, 6/5 and infinity, the
    images of epochs 2 and 4 exported under numbered names: the last
    improvement is that of epoch 4, and [best_model] holds the parameters
    after four steps, [latest_model] those after five. *)
Example best_and_latest_after_five_epochs :
  improving_epochs (zip (seqZ 1 5)
                        (improvements num_inf [Fin 2; Fin (3 # 2); Fin (9 # 5); Fin (6 # 5); Inf]))
  = [1; 2; 4]
  ∧ file_on_disk "ckpt/best_model"
      (trace (fit_dataset [xy] 5 1 false (Some [xy]) 2 (Some [xy]) w0).2)
    = Some (Checkpoint 4%nat)
  ∧ net_params (fit_dataset [xy] 4 1 false (Some [xy]) 2 (Some [xy]) w0).2 = 4%nat
  ∧ file_on_disk "ckpt/latest_model"
      (trace (fit_dataset [xy] 5 1 false (Some [xy]) 2 (Some [xy]) w0).2)
    = Some (Checkpoint 5%nat)
  ∧ net_params (fit_dataset [xy] 5 1 false (Some [xy]) 2 (Some [xy]) w0).2 = 5%nat.
Proof. by_computation. Qed.

Lemma predictions_exported_per_numbered_epoch_witness :
  scheduler (self w0) = None
  ∧ trainable [xy] 1 false
  ∧ predictable (Some [xy; xy])
  ∧ stable_pass [xy; xy] 1
  ∧ ∃ rows w',
      fit_dataset [xy] 4 1 false (Some [xy]) 2 (Some [xy; xy]) w0 = (Ok rows, w')
      ∧ ∀ r, images_written (trace w')
             = images_written (trace w0)
               ++ flat_map (λ k, epoch_predictions (checkpoint_folder (self w0)) 2
                                   (Some [xy; xy]) (device (self w0)) r
                                   (k, net_params
                                         (fit_dataset [xy] k 1 false (Some [xy]) 2
                                                      (Some [xy; xy]) w0).2))
                           (seqZ 1 4).
Proof.
  assert (H1 : scheduler (self w0) = None) by reflexivity.
  assert (H3 : trainable [xy] 1 false) by trainable_batches.
  assert (H5 : predictable (Some [xy; xy])) by (intros _ r; vm_compute; named_batches).
  assert (H6 : stable_pass [xy; xy] 1) by (intros r r'; reflexivity).
  split; [exact H1|]. split; [exact H3|]. split; [exact H5|]. split; [exact H6|].
  exact (predictions_exported_per_numbered_epoch [xy] 4 1 false [xy] 2 [xy; xy] w0
           H1 H3 H3 H5 H6).
Defined.

(** The mocked network outputs the number of steps taken: 2 in epoch 2
    and 4 in epoch 4. *)
Example predictions_of_epochs_2_and_4 :
  images_written (trace (fit_dataset [xy] 4 1 false (Some [xy]) 2 (Some [xy; xy]) w0).2)
  = [("ckpt/2/001.png", 2%nat); ("ckpt/2/002.png", 2%nat);
     ("ckpt/4/001.png", 4%nat); ("ckpt/4/002.png", 4%nat)].
Proof. by_computation. Qed.

Lemma fit_dataset_trains_pass_after_pass_witness :
  scheduler (self w0) = None
  ∧ trainable [xy; xy] 1 false
  ∧ trainable [xy] 1 false
  ∧ predictable (Some [xy])
  ∧ stable_pass [xy; xy] 1
  ∧ ∃ rows w',
      fit_dataset [xy; xy] 3 1 false (Some [xy]) 2 (Some [xy]) w0 = (Ok rows, w')
      ∧ ∀ r, (net_params w', net_grads w', opt_state w')
             = Nat.iter (Z.to_nat 3)
                 (λ s, foldl (train_step (device (self w0))) s
                             (DataLoader [xy; xy] 1 false r))
                 (net_params w0, net_grads w0, opt_state w0).
Proof.
  assert (H1 : scheduler (self w0) = None) by reflexivity.
  assert (H2 : trainable [xy; xy] 1 false) by trainable_batches.
  assert (H3 : trainable [xy] 1 false) by trainable_batches.
  assert (H4 : predictable (Some [xy])) by (intros _ r; vm_compute; named_batches).
  assert (H5 : stable_pass [xy; xy] 1) by (intros r r'; reflexivity).
  split; [exact H1|]. split; [exact H2|]. split; [exact H3|]. split; [exact H4|].
  split; [exact H5|].
  exact (fit_dataset_trains_pass_after_pass [xy; xy] 3 1 [xy] 2 (Some [xy]) w0
           H1 H2 H3 H4 H5).
Defined.

(** Three epochs of two batches: six optimizer steps. *)
Example fit_dataset_six_steps :
  net_params (fit_dataset [xy; xy] 3 1 false (Some [xy]) 2 (Some [xy]) w0).2 = 6%nat
  ∧ Nat.iter 3 (λ s, foldl (train_step (device (self w0))) s [xy; xy])
             (net_params w0, net_grads w0, opt_state w0)
    = (6%nat, 1%nat, 6%nat).
Proof. by_computation. Qed.


Example checkpoints_of_four_epochs :
  saved_states (trace (fit_dataset [xy] 4 1 false (Some [xy]) 2 (Some [xy]) w0).2)
  = [("ckpt/best_model", 1%nat); ("ckpt/latest_model", 1%nat);
     ("ckpt/best_model", 2%nat); ("ckpt/latest_model", 2%nat); ("ckpt/2/model", 2%nat);
     ("ckpt/latest_model", 3%nat);
     ("ckpt/best_model", 4%nat); ("ckpt/latest_model", 4%nat); ("ckpt/4/model", 4%nat)]
  ∧ (csv_writes (trace (fit_dataset [xy] 4 1 false (Some [xy]) 2 (Some [xy]) w0).2)).*1
    = ["ckpt/logs.csv"; "ckpt/logs.csv"; "ckpt/logs.csv"; "ckpt/logs.csv"].
Proof. by_computation. Qed.

(** The images are another matter: a sample with the identifier [model]
    is written over the model of the numbered folder. *)
Example identifier_model_replaces_numbered_model :
  on_path "ckpt/2/model"
    (writes (trace (fit_dataset [xy] 2 1 false (Some [xy]) 2
                                (Some [[FTensor 0%nat; FStrs ["model"]]]) w0).2))
  = [Checkpoint 2%nat; Picture 2%nat].
Proof. by_computation. Qed.
